(** * The balance ledger of home-test-nutech

    A shallow embedding of the relational schema and PL/pgSQL triggers of
    [migrations/0000_init.sql], of the request validation of
    [lib/routes/transaction/transaction.validation.js], of the controllers
    of [lib/routes/transaction/transaction.controller.js], of the
    authentication middleware, and of the registration, login and price
    list of the membership and information modules, followed by the
    properties of the ledger that hold, or fail, on them. *)

From Stdlib Require Import ZArith Lia Bool Ascii String.
From stdpp Require Import base option list sorting.

Local Open Scope string_scope.
Local Open Scope Z_scope.

(** ** SQL values *)

Module Sql.

(** A calendar date, as [CURRENT_DATE] and [DATE(ts)] yield it. *)
Record date := Date { year : Z; month : Z; day : Z }.

(** A [timestamp with time zone] seen in the session time zone: the civil
    date and the microseconds elapsed since that date's midnight. *)
Record timestamptz := Timestamptz { ts_date : date; ts_time : Z }.

Definition date_eqb (a b : date) : bool :=
  (year a =? year b) && (month a =? month b) && (day a =? day b).

Definition date_compare (a b : date) : comparison :=
  match year a ?= year b with
  | Eq => match month a ?= month b with
          | Eq => day a ?= day b
          | c => c
          end
  | c => c
  end.

Definition timestamptz_compare (a b : timestamptz) : comparison :=
  match date_compare (ts_date a) (ts_date b) with
  | Eq => ts_time a ?= ts_time b
  | c => c
  end.

(** The errors a statement can raise, by the condition PostgreSQL names. *)
Inductive sql_error :=
| numeric_value_out_of_range
| invalid_text_representation
| not_null_violation (column : string)
| unique_violation (constraint : string)
| foreign_key_violation (constraint : string)
| sequence_generator_limit_exceeded (sequence : string).

Inductive result (E A : Type) :=
| Ok (a : A)
| Raise (e : E).
Arguments Ok {E A} a.
Arguments Raise {E A} e.

Definition bind {E A B} (r : result E A) (k : A -> result E B) : result E B :=
  match r with
  | Ok a => k a
  | Raise e => Raise e
  end.

Definition is_ok {E A} (r : result E A) : bool :=
  match r with Ok _ => true | Raise _ => false end.

(** [integer] is a signed 32 bit type; a value outside it raises. *)
Definition int4_min : Z := - 2147483648.
Definition int4_max : Z := 2147483647.

Definition int4 (z : Z) : result sql_error Z :=
  if (int4_min <=? z) && (z <=? int4_max) then Ok z
  else Raise numeric_value_out_of_range.

(** [nextval(sequence)] for the sequence of a [serial] column, whose last
    value is [last_value]: the sequence is of type [integer], and raises
    once its greatest value has been handed out. *)
Definition nextval (sequence : string) (last_value : Z) : result sql_error Z :=
  if last_value <? int4_max then Ok (last_value + 1)
  else Raise (sequence_generator_limit_exceeded sequence).

(** *** Text *)

Definition digit_char (d : Z) : ascii :=
  ascii_of_nat (48 + Z.to_nat d).

Definition is_digit (c : ascii) : bool :=
  let n := nat_of_ascii c in (48 <=? n)%nat && (n <=? 57)%nat.

Definition digit_value (c : ascii) : Z :=
  Z.of_nat (nat_of_ascii c) - 48.

(** The decimal digits of a natural number [n], most significant first,
    put in front of [acc]. *)
Fixpoint digits_of (fuel : nat) (n : Z) (acc : string) : string :=
  match fuel with
  | O => acc
  | S fuel' =>
      let acc' := String (digit_char (n mod 10)) acc in
      if n <? 10 then acc' else digits_of fuel' (n / 10) acc'
  end.

(** [n::TEXT] for an integer [n]. *)
Definition int_text (n : Z) : string :=
  if n <? 0 then String "-" (digits_of (S (Z.to_nat (Z.log2 (- n)))) (- n) "")
  else digits_of (S (Z.to_nat (Z.log2 n))) n "".

(** [LENGTH(s)]. *)
Definition text_length (s : string) : Z := Z.of_nat (String.length s).

Fixpoint replicate_char (n : nat) (c : ascii) : string :=
  match n with
  | O => ""
  | S n' => String c (replicate_char n' c)
  end.

(** [LPAD(s, len, fill)] for a one character [fill]: [s] is brought to
    [len] characters, by putting [fill] in front of it or by cutting it on
    the right. *)
Definition lpad (s : string) (len : Z) (fill : ascii) : string :=
  if len <=? text_length s then substring 0 (Z.to_nat len) s
  else replicate_char (Z.to_nat (len - text_length s)) fill ++ s.

(** [TO_CHAR(d, 'DDMMYYYY')]. *)
Definition to_char_DDMMYYYY (d : date) : string :=
  lpad (int_text (day d)) 2 "0" ++ lpad (int_text (month d)) 2 "0"
  ++ lpad (int_text (year d)) (Z.max 4 (text_length (int_text (year d)))) "0".

Fixpoint all_digits (s : string) : bool :=
  match s with
  | "" => true
  | String c s' => is_digit c && all_digits s'
  end.

Fixpoint trailing_digits (s : string) : string :=
  match s with
  | "" => ""
  | String c s' => if all_digits s then s else trailing_digits s'
  end.

(** [SUBSTRING(s FROM '[0-9]+$')]: the digits [s] ends with, NULL when it
    ends with none. *)
Definition substring_digits_at_end (s : string) : option string :=
  match trailing_digits s with
  | "" => None
  | t => Some t
  end.

Fixpoint digits_value (s : string) (acc : Z) : Z :=
  match s with
  | "" => acc
  | String c s' => digits_value s' (10 * acc + digit_value c)
  end.

(** [CAST(s AS INT)] for a text without sign or blanks. *)
Definition cast_int (s : string) : result sql_error Z :=
  match s with
  | "" => Raise invalid_text_representation
  | _ => if all_digits s then int4 (digits_value s 0)
         else Raise invalid_text_representation
  end.

(** [s LIKE p || '%'] for a [p] without [%], [_] or backslash. *)
Definition like_prefix (p s : string) : bool := String.prefix p s.

(** The order of [ORDER BY] on text: characters are compared one by one
    from the left, a proper prefix sorts first. *)
Definition text_ltb (a b : string) : bool := String.ltb a b.

Definition text_max (a b : string) : string :=
  if text_ltb a b then b else a.

(** [ORDER BY s DESC LIMIT 1] over the selected texts. *)
Definition order_by_desc_limit_1 (l : list string) : option string :=
  fold_left (fun acc s => match acc with
                          | None => Some s
                          | Some m => Some (text_max m s)
                          end) l None.

End Sql.

(** ** JavaScript numbers that hold an integer *)

Module Js.

(** The positive integer [z] brought to 53 significant bits, to the nearest
    and on a tie to the even one: the value of the Number nearest to [z]. *)
Definition round_to_53_bits (z : Z) : Z :=
  let e := Z.log2 z - 52 in
  if e <=? 0 then z
  else
    let m := Z.shiftr z e in
    let rest := z - Z.shiftl m e in
    let half := Z.shiftl 1 (e - 1) in
    let m' := if (half <? rest) || ((rest =? half) && Z.odd m)
              then m + 1 else m in
    Z.shiftl m' e.

(** The Number that decimal digits writing the integer [z] are read as:
    the value of the nearest one, or [None] for [Infinity], of the sign of
    [z], from [2 ^ 1024] on. *)
Definition number_of_integer (z : Z) : option Z :=
  let x := round_to_53_bits (Z.abs z) in
  if x <? 2 ^ 1024 then Some (Z.sgn z * x) else None.

Fixpoint decimal_length_from (fuel : nat) (x : Z) : Z :=
  match fuel with
  | O => 0
  | S fuel' => if x <? 10 then 1 else 1 + decimal_length_from fuel' (x / 10)
  end.

(** The number of decimal digits of a positive integer. *)
Definition decimal_length (x : Z) : Z :=
  decimal_length_from (S (Z.to_nat (Z.log2 x))) x.

Definition reads_as (x v : Z) : bool :=
  match number_of_integer v with
  | Some y => y =? x
  | None => false
  end.

(** The first digit of the [k] digits [s] with which [s * 10 ^ (n - k)]
    reads as the Number [x] of [len] digits, if there are such: of the two
    multiples of [10 ^ (len - k)] around [x] that do, the nearer to [x]. *)
Definition first_digit_of (x len k : Z) : option Z :=
  let p := 10 ^ (len - k) in
  let s := x / p in
  let first (s : Z) := if s =? 10 ^ k then 1 else s / 10 ^ (k - 1) in
  match reads_as x (s * p), reads_as x ((s + 1) * p) with
  | true, true =>
      let below := x - s * p in
      let above := (s + 1) * p - x in
      if below <? above then Some (first s)
      else if above <? below then Some (first (s + 1))
      else Some (first (if Z.even s then s else s + 1))
  | true, false => Some (first s)
  | false, true => Some (first (s + 1))
  | false, false => None
  end.

Fixpoint shortest_first_digit (fuel : nat) (x len k : Z) : Z :=
  match fuel with
  | O => x / 10 ^ (len - 1)
  | S fuel' =>
      match first_digit_of x len k with
      | Some digit => digit
      | None => shortest_first_digit fuel' x len (k + 1)
      end
  end.

(** The first character of [String(x)] for a Number [x] from [1e21] on,
    which is written with an exponent: the first of the fewest digits that
    still read as [x]. *)
Definition exponent_first_digit (x : Z) : Z :=
  shortest_first_digit 17 x (decimal_length x) 1.

(** [parseInt(String(x))] for a Number [x] that holds an integer: below
    [1e21] the digits of [x] are read back; from there on [String(x)] is a
    digit followed by [.] or [e], at which [parseInt] stops. *)
Definition parseInt_of_number (x : Z) : Z :=
  if Z.abs x <? 10 ^ 21 then x
  else Z.sgn x * exponent_first_digit (Z.abs x).

End Js.

(** ** The schema and its triggers ([migrations/0000_init.sql]) *)

Module Schema.
Import Sql.

(** A row of [users]. *)
Record user_row := UserRow {
  u_id : Z;
  u_email : string;
  u_password_hash : string;
  u_first_name : string;
  u_last_name : string;
  u_profile_image : string
}.

(** A row of [services]. *)
Record service_row := ServiceRow {
  s_id : Z;
  s_code : string;
  s_name : string;
  s_icon_url : string;
  s_tariff : Z
}.

(** A row of [transaction_type_enum]. *)
Record transaction_type_row := TransactionTypeRow {
  tt_id : Z;
  tt_transaction_type : string
}.

(** A row of [user_balance]. *)
Record balance_row := BalanceRow {
  b_user_id : Z;
  b_balance : Z
}.

(** The values an [INSERT INTO user_transactions] supplies; [id] is left to
    its sequence.  [None] is NULL in the three columns an insert of the
    application may leave NULL. *)
Record new_transaction := NewTransaction {
  n_user_id : Z;
  n_invoice_number : option string;
  n_service_id : option Z;
  n_description : string;
  n_total_amount : Z;
  n_created_on : option timestamptz;
  n_transaction_type_id : Z
}.

(** A stored row of [user_transactions]: [invoice_number] is NOT NULL,
    [service_id] and [created_on] are nullable. *)
Record transaction_row := TransactionRow {
  t_id : Z;
  t_user_id : Z;
  t_invoice_number : string;
  t_service_id : option Z;
  t_description : string;
  t_total_amount : Z;
  t_created_on : option timestamptz;
  t_transaction_type_id : Z
}.

(** The database: the tables in insertion order and, for the two [serial]
    keys the ledger uses, the last value of the sequence behind them.  The
    tables are transactional, the sequences are not: a value a sequence has
    handed out is not handed out again, whatever becomes of the statement
    or of the unit of work that drew it. *)
Record db := Db {
  users : list user_row;
  users_id_seq : Z;
  services : list service_row;
  transaction_type_enum : list transaction_type_row;
  user_balance : list balance_row;
  user_transactions : list transaction_row;
  user_transactions_id_seq : Z
}.

Definition empty_db : db := Db [] 0 [] [] [] [] 0.

Definition set_user_balance (d : db) (l : list balance_row) : db :=
  Db (users d) (users_id_seq d) (services d) (transaction_type_enum d)
     l (user_transactions d) (user_transactions_id_seq d).

Definition has_id (ids : list Z) (i : Z) : bool :=
  existsb (Z.eqb i) ids.

(** The outcome [r] of a step, given with the database [d] it leaves
    behind if it has failed. *)
Definition failing_in {E A} (d : db) (r : result E A) : result (E * db) A :=
  match r with
  | Ok a => Ok a
  | Raise e => Raise (e, d)
  end.

(** [d] after [users_id_seq] has handed out [id]. *)
Definition users_id_drawn (d : db) (id : Z) : db :=
  Db (users d) id (services d) (transaction_type_enum d) (user_balance d)
     (user_transactions d) (user_transactions_id_seq d).

(** [d] after [user_transactions_id_seq] has handed out [id]. *)
Definition user_transactions_id_drawn (d : db) (id : Z) : db :=
  Db (users d) (users_id_seq d) (services d) (transaction_type_enum d)
     (user_balance d) (user_transactions d) id.

(** What is left of the unit of work that reached [tx] from [d] when it is
    rolled back: the tables of [d], and the sequences of [tx]. *)
Definition rollback (d tx : db) : db :=
  Db (users d) (users_id_seq tx) (services d) (transaction_type_enum d)
     (user_balance d) (user_transactions d) (user_transactions_id_seq tx).

(** *** [initialize_user_balance] and [trigger_initialize_user_balance] *)

(** [INSERT INTO user_balance (user_id, balance) VALUES (user_id, balance)]
    under [user_balance_user_id_unique] and the foreign key to [users]. *)
Definition insert_user_balance (d : db) (user_id balance : Z)
  : result sql_error db :=
  bind (int4 balance) (fun balance =>
  if has_id (map b_user_id (user_balance d)) user_id
  then Raise (unique_violation "user_balance_user_id_unique")
  else if negb (has_id (map u_id (users d)) user_id)
  then Raise (foreign_key_violation "user_balance_user_id_users_id_fk")
  else Ok (set_user_balance d (user_balance d ++ [BalanceRow user_id balance]))).

(** The trigger function: a balance of 0 for the user just inserted. *)
Definition initialize_user_balance (d : db) (NEW : user_row)
  : result sql_error db :=
  insert_user_balance d (u_id NEW) 0.

(** [INSERT INTO users (email, password_hash, first_name, last_name,
    profile_image) VALUES (...) RETURNING ...]: the key is the next value
    of [users_id_seq], the row is stored, and
    [trigger_initialize_user_balance] runs [AFTER INSERT ... FOR EACH ROW]
    inside the same statement, so that an error of the trigger is an error
    of the insert.  An insert that fails stores nothing, and the key it
    has drawn is spent. *)
Definition insert_users (d : db)
  (email password_hash first_name last_name profile_image : string)
  : result (sql_error * db) (user_row * db) :=
  bind (failing_in d (nextval "users_id_seq" (users_id_seq d))) (fun id =>
  let NEW := UserRow id email password_hash first_name last_name profile_image in
  if has_id (map u_id (users d)) id
  then Raise (unique_violation "users_pkey", users_id_drawn d id)
  else
    let d1 := Db (users d ++ [NEW]) id (services d) (transaction_type_enum d)
                 (user_balance d) (user_transactions d)
                 (user_transactions_id_seq d) in
    bind (failing_in (users_id_drawn d id) (initialize_user_balance d1 NEW))
      (fun d2 => Ok (NEW, d2))).

(** *** [generate_invoice_number] and [trigger_generate_invoice_number] *)

(** [DATE(created_on) = CURRENT_DATE]; NULL, hence not true, for a NULL
    [created_on]. *)
Definition created_on_date_is (current_date : date) (r : transaction_row)
  : bool :=
  match t_created_on r with
  | Some ts => date_eqb (ts_date ts) current_date
  | None => false
  end.

(** The [SELECT invoice_number INTO last_invoice ... LIMIT 1] of the
    function. *)
Definition select_last_invoice (current_date : date)
  (current_date_str : string) (rows : list transaction_row) : option string :=
  order_by_desc_limit_1
    (map t_invoice_number
       (List.filter (fun r => created_on_date_is current_date r
                              && like_prefix ("INV" ++ current_date_str ++ "-")
                                             (t_invoice_number r))
                    rows)).

(** [GREATEST(3, LENGTH(next_sequence::TEXT))]: NULLs are ignored. *)
Definition greatest_3 (len : option Z) : Z :=
  match len with
  | Some l => Z.max 3 l
  | None => 3
  end.

(** The body of [generate_invoice_number], run with [NEW] on the rows the
    table holds at [current_date].  A NULL [next_sequence] makes the
    concatenation, and so the invoice number given to [NEW], NULL. *)
Definition generate_invoice_number (current_date : date)
  (rows : list transaction_row) (NEW : new_transaction)
  : result sql_error new_transaction :=
  let current_date_str := to_char_DDMMYYYY current_date in
  let last_invoice := select_last_invoice current_date current_date_str rows in
  bind (match last_invoice with
        | Some last_invoice =>
            match substring_digits_at_end last_invoice with
            | Some digits =>
                bind (cast_int digits) (fun last_sequence =>
                bind (int4 (last_sequence + 1)) (fun next_sequence =>
                Ok (Some next_sequence)))
            | None => Ok None
            end
        | None => Ok (Some 1)
        end) (fun next_sequence =>
  let min_digits :=
    greatest_3 (option_map (fun n => text_length (int_text n)) next_sequence) in
  let new_invoice_number :=
    option_map (fun n => "INV" ++ current_date_str ++ "-"
                         ++ lpad (int_text n) min_digits "0") next_sequence in
  Ok (NewTransaction (n_user_id NEW) new_invoice_number (n_service_id NEW)
        (n_description NEW) (n_total_amount NEW) (n_created_on NEW)
        (n_transaction_type_id NEW))).

(** [BEFORE INSERT ... FOR EACH ROW WHEN (NEW.invoice_number IS NULL)]. *)
Definition trigger_generate_invoice_number (current_date : date)
  (rows : list transaction_row) (NEW : new_transaction)
  : result sql_error new_transaction :=
  match n_invoice_number NEW with
  | None => generate_invoice_number current_date rows NEW
  | Some _ => Ok NEW
  end.

(** The constraints of [user_transactions] on the row the trigger leaves:
    the NOT NULL of [invoice_number], the primary key and the three foreign
    keys.  There is no other. *)
Definition check_user_transactions (d : db) (id : Z) (NEW : new_transaction)
  : result sql_error transaction_row :=
  match n_invoice_number NEW with
  | None => Raise (not_null_violation "invoice_number")
  | Some invoice_number =>
      if has_id (map t_id (user_transactions d)) id
      then Raise (unique_violation "user_transactions_pkey")
      else if negb (has_id (map u_id (users d)) (n_user_id NEW))
      then Raise (foreign_key_violation "user_transactions_user_id_users_id_fk")
      else if match n_service_id NEW with
              | Some sid => negb (has_id (map s_id (services d)) sid)
              | None => false
              end
      then Raise (foreign_key_violation
                    "user_transactions_service_id_services_id_fk")
      else if negb (has_id (map tt_id (transaction_type_enum d))
                           (n_transaction_type_id NEW))
      then Raise (foreign_key_violation
                    "user_transactions_id_transaction_type_enum_id_fk")
      else Ok (TransactionRow id (n_user_id NEW) invoice_number
                 (n_service_id NEW) (n_description NEW) (n_total_amount NEW)
                 (n_created_on NEW) (n_transaction_type_id NEW))
  end.

(** [INSERT INTO user_transactions (...) VALUES (...) RETURNING ...] at
    [current_date]: the amount is brought to the [integer] of its column,
    the key is the next value of [user_transactions_id_seq], the trigger
    runs on the row so formed, the constraints are checked, then the row is
    stored.  An insert that fails stores nothing, and the key it has
    drawn is spent. *)
Definition insert_user_transactions (current_date : date) (d : db)
  (NEW : new_transaction) : result (sql_error * db) (transaction_row * db) :=
  bind (failing_in d (int4 (n_total_amount NEW))) (fun _ =>
  bind (failing_in d (nextval "user_transactions_id_seq"
                        (user_transactions_id_seq d))) (fun id =>
  let drawn := user_transactions_id_drawn d id in
  bind (failing_in drawn
          (trigger_generate_invoice_number current_date (user_transactions d)
             NEW)) (fun NEW' =>
  bind (failing_in drawn (check_user_transactions d id NEW')) (fun row =>
  Ok (row, Db (users d) (users_id_seq d) (services d) (transaction_type_enum d)
               (user_balance d) (user_transactions d ++ [row]) id))))).

End Schema.

(** ** The ledger operations *)

Module Service.
Import Sql Schema.

(** A JavaScript [Error]; the controllers look at its [message] only. *)
Record js_error := Error { message : string }.

(** The message of the error the database driver throws for a failed
    statement. *)
Definition sql_error_message (e : sql_error) : string :=
  match e with
  | numeric_value_out_of_range => "integer out of range"
  | invalid_text_representation => "invalid input syntax for type integer"
  | not_null_violation c =>
      "null value in column " ++ c ++ " violates not-null constraint"
  | unique_violation c =>
      "duplicate key value violates unique constraint " ++ c
  | foreign_key_violation c =>
      "insert or update on table violates foreign key constraint " ++ c
  | sequence_generator_limit_exceeded s =>
      "nextval: reached maximum value of sequence " ++ s
  end.

(** [await tx.execute(sql`...`)]: a failed statement rejects. *)
Definition execute {A} (r : result (sql_error * db) A)
  : result (js_error * db) A :=
  match r with
  | Ok a => Ok a
  | Raise (e, d) => Raise (Error (sql_error_message e), d)
  end.

(** [SELECT balance FROM user_balance WHERE user_id = userId]. *)
Definition select_balance (d : db) (userId : Z) : option Z :=
  option_map b_balance
    (find (fun b => b_user_id b =? userId) (user_balance d)).

(** [UPDATE user_balance SET balance = new_amount WHERE user_id = userId]. *)
Definition update_balance (d : db) (userId new_amount : Z)
  : result sql_error db :=
  bind (int4 new_amount) (fun new_amount =>
  Ok (set_user_balance d
        (map (fun b => if b_user_id b =? userId
                       then BalanceRow (b_user_id b) new_amount else b)
             (user_balance d)))).

(** [SELECT id FROM transaction_type_enum WHERE transaction_type = kind]. *)
Definition select_transaction_type (d : db) (kind : string) : option Z :=
  option_map tt_id
    (find (fun t => String.eqb (tt_transaction_type t) kind)
          (transaction_type_enum d)).

(** [SELECT ... FROM services WHERE code = service_code]. *)
Definition select_service (d : db) (service_code : string)
  : option service_row :=
  find (fun s => String.eqb (s_code s) service_code) (services d).

(** A member of a request body or query that is a single value, not an
    array (a JSON array, or a key the query repeats):
    - [absent]: the member was not sent ([undefined]);
    - [empty]: [null] or the empty string;
    - [integer z]: a string of decimal digits, with or without a sign, that
      writes the integer [z];
    - [number z]: a JSON number written as the integer [z], which is held
      as the Number nearest to [z];
    - [not_integer le_0]: any other single value (a string that is not
      such digits, a number with a fraction, a boolean, an object), [le_0]
      being what [value <= 0] is for it. *)
Inductive field :=
| absent
| empty
| integer (z : Z)
| number (z : Z)
| not_integer (le_0 : bool).

(** A request member bound to an [integer] parameter of a statement: the
    driver sends a string as it is and a Number as [String] writes it. *)
Definition integer_parameter (v : field) : result js_error Z :=
  match v with
  | integer z => Ok z
  | number z =>
      match Js.number_of_integer z with
      | Some x =>
          if Z.abs x <? 10 ^ 21 then Ok x
          else Raise (Error (sql_error_message invalid_text_representation))
      | None => Raise (Error (sql_error_message invalid_text_representation))
      end
  | _ => Raise (Error (sql_error_message invalid_text_representation))
  end.

(** The message of AccountNotFound is fixed neither by the spec nor by the
    sources that are at hand; no statement below rests on it. *)
Definition AccountNotFound : js_error := Error "User not found".
Definition ServiceNotFound : js_error :=
  Error "Service ataus Layanan tidak ditemukan".
Definition InsufficientBalance : js_error := Error "Balance tidak mencukupi".

(** The ledger entry of a balance change of [amount]: the invoice number
    is left NULL for the allocator, [created_on] is the time of the
    operation. *)
Definition ledger_entry (d : db) (now : timestamptz) (userId : Z)
  (kind : string) (service_id : option Z) (description : string)
  (amount : Z) : result sql_error new_transaction :=
  match select_transaction_type d kind with
  | Some type_id =>
      Ok (NewTransaction userId None service_id description amount
            (Some now) type_id)
  | None => Raise (not_null_violation "transaction_type_id")
  end.

(** Modelled from the spec: [topUpBalance] of
    [lib/routes/transaction/transaction.service.js], which is not among
    the sources.  Credit (spec 4.3): read the balance of the identity,
    fail with AccountNotFound if there is none, write
    [current + amount] back, allocate an invoice number and insert a TOPUP
    entry of that amount; the result is the new balance.  The wording of
    the description is not fixed by the spec. *)
Definition topUpBalance (now : timestamptz) (tx : db) (userId amount : Z)
  : result (js_error * db) (Z * db) :=
  match select_balance tx userId with
  | None => Raise (AccountNotFound, tx)
  | Some current =>
      let new_amount := current + amount in
      bind (execute (failing_in tx (update_balance tx userId new_amount)))
        (fun tx1 =>
      bind (execute (failing_in tx1 (ledger_entry tx1 now userId "TOPUP" None
                                       "Top Up balance" amount))) (fun entry =>
      bind (execute (insert_user_transactions (ts_date now) tx1 entry))
        (fun '(_, tx2) =>
      Ok (new_amount, tx2))))
  end.

(** The summary a debit returns. *)
Record transaction_summary := TransactionSummary {
  ts_invoice_number : string;
  ts_service_code : string;
  ts_service_name : string;
  ts_transaction_type : string;
  ts_total_amount : Z;
  ts_created_on : option timestamptz
}.

(** Modelled from the spec: [createTransaction] of
    [lib/routes/transaction/transaction.service.js], which is not among
    the sources.  Debit (spec 4.3): resolve the service code, fail with
    ServiceNotFound if it is unknown; read the balance, fail with
    InsufficientBalance if [current < tariff]; otherwise write
    [current - tariff] back, allocate an invoice number and insert a
    PAYMENT entry of the tariff that refers to the service and is described
    by its name; the result is the summary of the entry.  A missing balance
    row, on which the spec is silent for a debit, fails as for a credit. *)
Definition createTransaction (now : timestamptz) (tx : db) (userId : Z)
  (service_code : string)
  : result (js_error * db) (transaction_summary * db) :=
  match select_service tx service_code with
  | None => Raise (ServiceNotFound, tx)
  | Some service =>
      match select_balance tx userId with
      | None => Raise (AccountNotFound, tx)
      | Some current =>
          if current <? s_tariff service then Raise (InsufficientBalance, tx)
          else
            let new_amount := current - s_tariff service in
            bind (execute (failing_in tx
                             (update_balance tx userId new_amount)))
              (fun tx1 =>
            bind (execute (failing_in tx1
                             (ledger_entry tx1 now userId "PAYMENT"
                                (Some (s_id service)) (s_name service)
                                (s_tariff service)))) (fun entry =>
            bind (execute (insert_user_transactions (ts_date now) tx1 entry))
              (fun '(row, tx2) =>
            Ok (TransactionSummary (t_invoice_number row) (s_code service)
                  (s_name service) "PAYMENT" (t_total_amount row)
                  (t_created_on row), tx2))))
      end
  end.

(** A record of the history, with the kind joined from
    [transaction_type_enum]. *)
Record history_record := HistoryRecord {
  h_invoice_number : string;
  h_transaction_type : option string;
  h_description : string;
  h_total_amount : Z;
  h_created_on : option timestamptz
}.

Record history := History {
  hist_offset : Z;
  hist_limit : Z;
  hist_records : list history_record
}.

(** [a] comes no later than [b] under [ORDER BY created_on DESC], which
    puts the NULLs first. *)
Definition created_on_desc (a b : option timestamptz) : bool :=
  match a, b with
  | None, _ => true
  | Some _, None => false
  | Some x, Some y =>
      match timestamptz_compare x y with Lt => false | _ => true end
  end.

Definition newer_first (r1 r2 : transaction_row) : Prop :=
  created_on_desc (t_created_on r1) (t_created_on r2) = true.

#[export] Instance newer_first_dec r1 r2 : Decision (newer_first r1 r2).
Proof. unfold newer_first. apply _. Defined.

Definition to_history_record (d : db) (r : transaction_row) : history_record :=
  HistoryRecord (t_invoice_number r)
    (option_map tt_transaction_type
       (find (fun t => tt_id t =? t_transaction_type_id r)
             (transaction_type_enum d)))
    (t_description r) (t_total_amount r) (t_created_on r).

(** Modelled from the spec: [getTransactionHistory] of
    [lib/routes/transaction/transaction.service.js], which is not among
    the sources.  History (spec 4.4): the ledger entries of the identity,
    ordered by creation time descending, of which [offset] are skipped and
    up to [limit] returned, with the window asked for. *)
Definition getTransactionHistory (d : db) (userId offset limit : Z)
  : result js_error history :=
  let rows :=
    merge_sort newer_first
      (List.filter (fun r => t_user_id r =? userId) (user_transactions d)) in
  Ok (History offset limit
        (map (to_history_record d)
           (take (Z.to_nat limit) (drop (Z.to_nat offset) rows)))).

End Service.

(** ** The HTTP boundary *)

Module Http.
Import Sql Schema Service.

(** The [data] member of a response body. *)
Inductive payload :=
| null
| balance_dto (balance : Z)
| transaction_dto (invoice_number service_code service_name
                   transaction_type : string) (total_amount : Z)
                  (created_on : option timestamptz)
| history_dto (offset limit : Z) (records : list history_record).

(** What [res.status(statusCode).json({status, message, data})] sends
    ([lib/api/response.js]). *)
Record response := Response {
  statusCode : Z;
  status : Z;
  res_message : string;
  data : payload
}.

Definition createResponse (statusCode status : Z) (message : string)
  (data : payload) : response :=
  Response statusCode status message data.

Definition success (message : string) (data : payload) : response :=
  createResponse 200 0 message data.

Definition badRequest (message : string) (data : payload) (status : Z)
  : response :=
  createResponse 400 status message data.

(** [error(res, message, statusCode = 500, status = 100, data = null)]. *)
Definition error (message : string) (statusCode status : Z) (data : payload)
  : response :=
  createResponse statusCode status message data.

Definition error_500 (message : string) : response :=
  error message 500 100 null.

Definition amount_message : string :=
  "Paramter amount hanya boleh angka dan tidak boleh lebih kecil dari 0".

(** A validator sees the member as a string: [String(x)] for a Number
    [x], which is written in digits below [1e21] and with an exponent, or
    as [Infinity], from there on. *)
Definition written_in_digits (z : Z) : bool :=
  match Js.number_of_integer z with
  | Some x => Z.abs x <? 10 ^ 21
  | None => false
  end.

(** [notEmpty()]: [undefined] and [null] are seen as the empty string. *)
Definition notEmpty (v : field) : bool :=
  match v with
  | absent | empty => false
  | _ => true
  end.

(** [value >= min] and [value <= max] for a [value] that writes the
    integer [z], as a string or as a Number: it is compared as the Number
    it is read as. *)
Definition not_below (min z : Z) : bool :=
  match Js.number_of_integer z with
  | Some x => min <=? x
  | None => 0 <? z
  end.

Definition not_above (max z : Z) : bool :=
  match Js.number_of_integer z with
  | Some x => x <=? max
  | None => z <? 0
  end.

(** [isInt({ min })]: the string is an integer in digits and not below
    [min]. *)
Definition isInt (min : Z) (v : field) : bool :=
  match v with
  | integer z => not_below min z
  | number z => written_in_digits z && not_below min z
  | _ => false
  end.

(** [value <= 0] of the custom check, on the member as it was sent:
    [undefined] compares as [NaN]; [null] and the empty string as 0. *)
Definition le_0 (v : field) : bool :=
  match v with
  | absent => false
  | empty => true
  | integer value | number value => not_above 0 value
  | not_integer le_0 => le_0
  end.

Definition chain_error (passed : bool) (message : string) : list string :=
  if passed then [] else [message].

(** The errors of [validateTopUp], in the order of its chain: [notEmpty],
    [isInt({ min: 0 })], and the custom check that throws on
    [value <= 0]. *)
Definition validateTopUp (top_up_amount : field) : list string :=
  chain_error (notEmpty top_up_amount) "Top up amount is required"
  ++ chain_error (isInt 0 top_up_amount) amount_message
  ++ chain_error (negb (le_0 top_up_amount)) amount_message.

(** The errors of [validateTransactionHistory]: both members are
    [optional()], which lets a member that was not sent through. *)
Definition validateTransactionHistory (offset limit : field) : list string :=
  chain_error (match offset with absent => true | _ => isInt 0 offset end)
        "Offset must be a non-negative integer"
  ++ chain_error (match limit with absent => true | _ => isInt 1 limit end)
           "Limit must be a positive integer".

(** [handleValidationErrors]: the first error, if any, is answered with
    [badRequest(res, firstError.msg, null, 102)]. *)
Definition handleValidationErrors (errors : list string) : option response :=
  match errors with
  | firstError :: _ => Some (badRequest firstError null 102)
  | [] => None
  end.

(** A JavaScript number that is [NaN], holds an integer, or is
    [Infinity] or [-Infinity]. *)
Inductive js_number :=
| NaN
| Num (z : Z)
| Infinity (negative : bool).

(** The Number that digits writing the integer [z] are read as, by
    [parseInt(digits, 10)] as by [JSON.parse]. *)
Definition parseInt_of_digits (z : Z) : js_number :=
  match Js.number_of_integer z with
  | Some x => Num x
  | None => Infinity (z <? 0)
  end.

(** [parseInt(String(n))] for a Number [n]. *)
Definition parseInt_of_number (n : js_number) : js_number :=
  match n with
  | Num x => Num (Js.parseInt_of_number x)
  | _ => NaN
  end.

(** The value [toInt()] leaves in the query for a member that passed
    [isInt]: the Number [parseInt] reads off the member as a string.  A
    member that was not sent stays [undefined]; the others are answered by
    [handleValidationErrors]. *)
Definition toInt (v : field) : option js_number :=
  match v with
  | integer z => Some (parseInt_of_digits z)
  | number z => Some (parseInt_of_number (parseInt_of_digits z))
  | _ => None
  end.

(** [db_conn.transaction(callback)]: the writes of the callback are
    committed when it returns and undone when it throws, at the state
    [tx] it had reached; the keys its statements drew from the sequences
    stay drawn. *)
Definition transaction {A} (db_conn : db)
  (callback : db -> result (js_error * db) (A * db))
  : result js_error A * db :=
  match callback db_conn with
  | Ok (a, tx) => (Ok a, tx)
  | Raise (e, tx) => (Raise e, rollback db_conn tx)
  end.

Definition toTopUpResponseDTO (balance : Z) : result js_error payload :=
  Ok (balance_dto balance).

Definition toTransactionResponseDTO (t : transaction_summary)
  : result js_error payload :=
  Ok (transaction_dto (ts_invoice_number t) (ts_service_code t)
        (ts_service_name t) (ts_transaction_type t) (ts_total_amount t)
        (ts_created_on t)).

Definition toTransactionHistoryResponseDTO (h : history)
  : result js_error payload :=
  Ok (history_dto (hist_offset h) (hist_limit h) (hist_records h)).

(** [topUp] of the controller, on the state of the database at [now]. *)
Definition topUp (now : timestamptz) (db_conn : db) (userId : Z)
  (top_up_amount : field) : response * db :=
  let '(r, db_conn') :=
    transaction db_conn (fun tx =>
      bind (failing_in tx (integer_parameter top_up_amount)) (fun amount =>
      topUpBalance now tx userId amount)) in
  match r with
  | Raise err =>
      if String.eqb (message err) amount_message
      then (error (message err) 400 102 null, db_conn')
      else if String.eqb (message err) "User not found"
      then (error "User not found" 404 102 null, db_conn')
      else (error_500 "Internal server error", db_conn')
  | Ok result =>
      match toTopUpResponseDTO result with
      | Raise dtoErr => (error_500 "Internal server error", db_conn')
      | Ok topUpResponse =>
          (success "Top Up Balance berhasil" topUpResponse, db_conn')
      end
  end.

(** [createTransaction] of the controller. *)
Definition createTransaction (now : timestamptz) (db_conn : db) (userId : Z)
  (service_code : string) : response * db :=
  let '(r, db_conn') :=
    transaction db_conn
      (fun tx => Service.createTransaction now tx userId service_code) in
  match r with
  | Raise err =>
      if String.eqb (message err) "Service ataus Layanan tidak ditemukan"
      then (error (message err) 400 102 null, db_conn')
      else if String.eqb (message err) "Balance tidak mencukupi"
      then (error (message err) 400 102 null, db_conn')
      else (error_500 "Internal server error", db_conn')
  | Ok result =>
      match toTransactionResponseDTO result with
      | Raise dtoErr => (error_500 "Internal server error", db_conn')
      | Ok transactionResponse =>
          (success "Transaksi berhasil" transactionResponse, db_conn')
      end
  end.

(** [parseInt(v)] for a query member: [undefined] parses to [NaN], and a
    Number is parsed as [String] writes it. *)
Definition parseInt (v : option js_number) : js_number :=
  match v with
  | Some n => parseInt_of_number n
  | None => NaN
  end.

(** [n || d]: [NaN] and [0] are falsy. *)
Definition or_else (n d : js_number) : js_number :=
  match n with
  | NaN => d
  | Num z => if z =? 0 then d else n
  | Infinity _ => n
  end.

(** A number bound to an [integer] parameter of a statement, to which
    the driver sends it as [String] writes it. *)
Definition number_parameter (n : js_number) : result js_error Z :=
  match n with
  | Num z =>
      if Z.abs z <? 10 ^ 21 then Ok z
      else Raise (Error (sql_error_message invalid_text_representation))
  | _ => Raise (Error (sql_error_message invalid_text_representation))
  end.

(** The truth value of a query member: [undefined], [NaN] and [0] are
    falsy. *)
Definition truthy (v : option js_number) : bool :=
  match v with
  | Some (Num z) => negb (z =? 0)
  | Some (Infinity _) => true
  | _ => false
  end.

(** [getTransactionHistory] of the controller, on the validated query. *)
Definition getTransactionHistory (db_conn : db) (userId : Z)
  (query_offset query_limit : option js_number) : response :=
  let offset := or_else (parseInt query_offset) (Num 0) in
  let limit := if truthy query_limit then parseInt query_limit else Num 5 in
  match bind (number_parameter offset) (fun offset =>
        bind (number_parameter limit) (fun limit =>
        Service.getTransactionHistory db_conn userId offset limit)) with
  | Raise err => error_500 "Internal server error"
  | Ok history =>
      match toTransactionHistoryResponseDTO history with
      | Raise dtoErr => error_500 "Internal server error"
      | Ok historyResponse => success "Get History Berhasil" historyResponse
      end
  end.

(** The routes of [transaction.route.js]: validation, then the
    controller. *)
Definition post_topup (now : timestamptz) (db_conn : db) (userId : Z)
  (top_up_amount : field) : response * db :=
  match handleValidationErrors (validateTopUp top_up_amount) with
  | Some res => (res, db_conn)
  | None => topUp now db_conn userId top_up_amount
  end.

Definition get_transaction_history (db_conn : db) (userId : Z)
  (offset limit : field) : response :=
  match handleValidationErrors (validateTransactionHistory offset limit) with
  | Some res => res
  | None => getTransactionHistory db_conn userId (toInt offset) (toInt limit)
  end.

End Http.

(** ** Notions the statements are written with *)

Import Sql Schema.

(** The invoice number of sequence value [n] on the day rendered as
    [current_date_str], as the last lines of [generate_invoice_number]
    build it. *)
Definition seq_text (n : Z) : string :=
  lpad (int_text n) (greatest_3 (Some (text_length (int_text n)))) "0".

Definition invoice_of (current_date_str : string) (n : Z) : string :=
  "INV" ++ current_date_str ++ "-" ++ seq_text n.

Definition with_invoice_number (NEW : new_transaction) (i : option string)
  : new_transaction :=
  NewTransaction (n_user_id NEW) i (n_service_id NEW) (n_description NEW)
    (n_total_amount NEW) (n_created_on NEW) (n_transaction_type_id NEW).

Definition with_created_on (NEW : new_transaction) (c : option timestamptz)
  : new_transaction :=
  NewTransaction (n_user_id NEW) (n_invoice_number NEW) (n_service_id NEW)
    (n_description NEW) (n_total_amount NEW) c (n_transaction_type_id NEW).

(** The inserts of [news], one after the other, at [current_date]. *)
Fixpoint insert_all (current_date : date) (d : db) (news : list new_transaction)
  : result (sql_error * db) db :=
  match news with
  | [] => Ok d
  | NEW :: news' =>
      bind (insert_user_transactions current_date d NEW) (fun '(_, d') =>
      insert_all current_date d' news')
  end.

(** An entry that leaves its invoice number to the allocator and is
    created on [current_date]. *)
Definition created_today (current_date : date) (NEW : new_transaction) : Prop :=
  n_invoice_number NEW = None
  /\ exists ts, n_created_on NEW = Some ts /\ ts_date ts = current_date.

(** The values of [NEW] other than its invoice number pass the constraints
    of [user_transactions] in [d]. *)
Definition references_ok (d : db) (NEW : new_transaction) : Prop :=
  int4 (n_total_amount NEW) = Ok (n_total_amount NEW)
  /\ has_id (map u_id (users d)) (n_user_id NEW) = true
  /\ (forall sid, n_service_id NEW = Some sid ->
        has_id (map s_id (services d)) sid = true)
  /\ has_id (map tt_id (transaction_type_enum d)) (n_transaction_type_id NEW)
     = true.

(** No stored key is ahead of its sequence. *)
Definition keys_from_sequence (d : db) : Prop :=
  Forall (fun r => t_id r <= user_transactions_id_seq d) (user_transactions d).

Definition users_keys_from_sequence (d : db) : Prop :=
  Forall (fun u => u_id u <= users_id_seq d) (users d).

(** Every balance belongs to a stored user. *)
Definition balances_of_users (d : db) : Prop :=
  Forall (fun b => has_id (map u_id (users d)) (b_user_id b) = true)
         (user_balance d).

(** The rows of the ledger [d'] holds beyond those of [d]. *)
Definition rows_added (d d' : db) : list transaction_row :=
  drop (length (user_transactions d)) (user_transactions d').

(** A ledger with one user, the two kinds and one service, on the day of
    the example in the comment of [generate_invoice_number]. *)
Definition a_day : date := Date 2023 8 17.
Definition a_time : timestamptz := Timestamptz a_day 43200000000.

Definition a_db : db :=
  Db [UserRow 1 "user@nutech.com" "hash" "User" "Nutech" "default.jpg"] 1
     [ServiceRow 1 "PULSA" "Pulsa" "pulsa.png" 40000]
     [TransactionTypeRow 1 "TOPUP"; TransactionTypeRow 2 "PAYMENT"]
     [BalanceRow 1 0] [] 0.

Definition a_topup : new_transaction :=
  NewTransaction 1 None None "Top Up balance" 10000 (Some a_time) 1.

Definition upto (n : nat) : list Z := map Z.of_nat (seq 1 n).

(** The rows the scan of [current_date] keeps. *)
Definition selected (current_date : date) (r : transaction_row) : bool :=
  created_on_date_is current_date r
  && like_prefix ("INV" ++ to_char_DDMMYYYY current_date ++ "-")
                 (t_invoice_number r).

(** What the scan finds once [j] entries were allocated on the day: the
    greatest text among the first [j] invoice numbers. *)
Definition last_allocated (current_date : date) (j : Z) : option string :=
  if j =? 0 then None
  else Some (invoice_of (to_char_DDMMYYYY current_date) (Z.min j 999)).

(** The sequence value the allocator gives the entry after [j]. *)
Definition next_allocated (j : Z) : Z := Z.min (j + 1) 1000.

(** The tables of [d'] hold the rows of those of [d]; the last values of
    the sequences are left aside. *)
Definition same_rows (d d' : db) : Prop :=
  users d' = users d /\ services d' = services d
  /\ transaction_type_enum d' = transaction_type_enum d
  /\ user_balance d' = user_balance d
  /\ user_transactions d' = user_transactions d.

(** The sequences of [d'] are those of [d], but for one key the ledger
    may have drawn. *)
Definition one_key_drawn_at_most (d d' : db) : Prop :=
  users_id_seq d' = users_id_seq d
  /\ user_transactions_id_seq d <= user_transactions_id_seq d'
     <= user_transactions_id_seq d + 1.

Definition same_references (d d' : db) : Prop :=
  users d' = users d /\ services d' = services d
  /\ transaction_type_enum d' = transaction_type_enum d
  /\ user_balance d' = user_balance d.

(** The invoice numbers of [n] entries created on the day after [j]
    others. *)
Definition allocated_from (current_date : date) (j : Z) (n : nat) : list string :=
  map (fun i => invoice_of (to_char_DDMMYYYY current_date)
                  (next_allocated (j + Z.of_nat i))) (seq 0 n).

(** The ledger of [a_day] after one top-up, and a second top-up that
    brings the invoice number of the first. *)
Definition a_db_1 : db :=
  match insert_user_transactions a_day a_db a_topup with
  | Ok (_, d) => d
  | Raise _ => a_db
  end.

Definition a_topup_again : new_transaction :=
  with_invoice_number a_topup (Some "INV17082023-001").

(** An entry the scan of [current_date] cannot count: its [created_on] is
    NULL or of another day. *)
Definition not_of_day (current_date : date) (r : transaction_row) : Prop :=
  t_created_on r = None
  \/ exists ts, t_created_on r = Some ts /\ ts_date ts <> current_date.

(** The first entry of [a_day], stored without [created_on]. *)
Definition a_row_without_created_on : transaction_row :=
  TransactionRow 1 1 "INV17082023-001" None "Top Up balance" 10000 None 1.

(** [SELECT * FROM user_balance WHERE user_id = id]. *)
Definition balances_of (d : db) (id : Z) : list balance_row :=
  List.filter (fun b => b_user_id b =? id) (user_balance d).

(** A request to the ledger by the identity [userId]. *)
Inductive ledger_request :=
| Credit (userId : Z) (top_up_amount : Service.field)
| Debit (userId : Z) (service_code : string).

Definition serve (now : timestamptz) (d : db) (r : ledger_request)
  : Http.response * db :=
  match r with
  | Credit userId top_up_amount => Http.post_topup now d userId top_up_amount
  | Debit userId service_code =>
      Http.createTransaction now d userId service_code
  end.

(** The states of the database after each of the requests, served one
    after the other at the times they come with. *)
Fixpoint serve_all (d : db) (requests : list (timestamptz * ledger_request))
  : list db :=
  match requests with
  | [] => []
  | (now, r) :: requests' =>
      let d' := snd (serve now d r) in d' :: serve_all d' requests'
  end.

Definition no_overdraft (d : db) : Prop :=
  Forall (fun b => 0 <= b_balance b) (user_balance d).

(** A top-up, a payment it covers and a second payment it does not, by
    the user of [a_db]. *)
Definition a_session : list (timestamptz * ledger_request) :=
  [(a_time, Credit 1 (Service.integer 50000)); (a_time, Debit 1 "PULSA");
   (a_time, Debit 1 "PULSA")].

(** [x] is strictly before [y]. *)
Definition ts_before (x y : timestamptz) : Prop :=
  year (ts_date x) < year (ts_date y)
  \/ (year (ts_date x) = year (ts_date y)
      /\ (month (ts_date x) < month (ts_date y)
          \/ (month (ts_date x) = month (ts_date y)
              /\ (day (ts_date x) < day (ts_date y)
                  \/ (day (ts_date x) = day (ts_date y)
                      /\ ts_time x < ts_time y))))).

(** The order of the records returned. *)
Definition record_newer_first (a b : Service.history_record) : Prop :=
  Service.created_on_desc (Service.h_created_on a) (Service.h_created_on b) = true.

(** The ledger entries of [userId], unordered. *)
Definition entries_of (d : db) (userId : Z) : list transaction_row :=
  List.filter (fun r => t_user_id r =? userId) (user_transactions d).

(** The integer a member writes, [default] for a member that does not
    write one. *)
Definition field_or (v : Service.field) (default : Z) : Z :=
  match v with
  | Service.integer z | Service.number z => z
  | _ => default
  end.

(** A member that writes no integer, or one that a Number holds as it
    is: an integer between [- (2 ^ 53)] and [2 ^ 53]. *)
Definition safe_integer (v : Service.field) : Prop :=
  match v with
  | Service.integer z | Service.number z => Z.abs z < 2 ^ 53
  | _ => True
  end.

(** The ledger of the user of [a_db] after a top-up at noon and a payment
    one second later. *)
Definition a_later_time : timestamptz := Timestamptz a_day 43201000000.

Definition a_db_2 : db :=
  snd (Http.createTransaction a_later_time
         (snd (Http.post_topup a_time a_db 1 (Service.integer 50000))) 1 "PULSA").



(** Every stored user has exactly one balance row. *)
Definition one_balance_each (d : db) : Prop :=
  Forall (fun u => exists balance,
            balances_of d (u_id u) = [BalanceRow (u_id u) balance])
         (users d).

Definition accounts_consistent (d : db) : Prop :=
  users_keys_from_sequence d /\ balances_of_users d /\ one_balance_each d.

(** ** The controllers, for any service behind them *)

Module Controller.
Import Service Http.

Definition TypeError (property : string) : js_error :=
  Error ("Cannot read properties of undefined (reading '" ++ property ++ "')").

(** [toTopUpResponseDTO(result)] on whatever the service resolved to:
    reading [result.balance] throws when [result] is [null] or
    [undefined], which [None] stands for. *)
Definition toTopUpResponseDTO (resolved : option Z) : result js_error payload :=
  match resolved with
  | Some balance => Ok (balance_dto balance)
  | None => Raise (TypeError "balance")
  end.

Definition toTransactionResponseDTO (resolved : option transaction_summary)
  : result js_error payload :=
  match resolved with
  | Some t => Http.toTransactionResponseDTO t
  | None => Raise (TypeError "invoice_number")
  end.

(** [topUp] of the controller over the service function it calls. *)
Definition topUp
  (topUpBalance : db -> Z -> field
                  -> result (js_error * db) (option Z * db))
  (db_conn : db) (userId : Z) (top_up_amount : field) : response * db :=
  let '(r, db_conn') :=
    transaction db_conn (fun tx => topUpBalance tx userId top_up_amount) in
  match r with
  | Raise err =>
      if String.eqb (message err) amount_message
      then (error (message err) 400 102 null, db_conn')
      else if String.eqb (message err) "User not found"
      then (error "User not found" 404 102 null, db_conn')
      else (error_500 "Internal server error", db_conn')
  | Ok resolved =>
      match toTopUpResponseDTO resolved with
      | Raise dtoErr => (error_500 "Internal server error", db_conn')
      | Ok topUpResponse =>
          (success "Top Up Balance berhasil" topUpResponse, db_conn')
      end
  end.

(** [createTransaction] of the controller over the service function it
    calls. *)
Definition createTransaction
  (createTransaction : db -> Z -> string
                       -> result (js_error * db)
                            (option transaction_summary * db))
  (db_conn : db) (userId : Z) (service_code : string) : response * db :=
  let '(r, db_conn') :=
    transaction db_conn (fun tx => createTransaction tx userId service_code) in
  match r with
  | Raise err =>
      if String.eqb (message err) "Service ataus Layanan tidak ditemukan"
      then (error (message err) 400 102 null, db_conn')
      else if String.eqb (message err) "Balance tidak mencukupi"
      then (error (message err) 400 102 null, db_conn')
      else (error_500 "Internal server error", db_conn')
  | Ok resolved =>
      match toTransactionResponseDTO resolved with
      | Raise dtoErr => (error_500 "Internal server error", db_conn')
      | Ok transactionResponse =>
          (success "Transaksi berhasil" transactionResponse, db_conn')
      end
  end.

(** The service functions of the ledger as the controllers above call
    them. *)
Definition topUpBalance_at (now : timestamptz) (tx : db) (userId : Z)
  (top_up_amount : field) : result (js_error * db) (option Z * db) :=
  bind (bind (failing_in tx (integer_parameter top_up_amount)) (fun amount =>
              topUpBalance now tx userId amount))
       (fun '(balance, tx') => Ok (Some balance, tx')).

Definition createTransaction_at (now : timestamptz) (tx : db) (userId : Z)
  (service_code : string)
  : result (js_error * db) (option transaction_summary * db) :=
  bind (Service.createTransaction now tx userId service_code)
       (fun '(summary, tx') => Ok (Some summary, tx')).

Definition toTransactionHistoryResponseDTO (resolved : option history)
  : result js_error payload :=
  match resolved with
  | Some h => Http.toTransactionHistoryResponseDTO h
  | None => Raise (TypeError "offset")
  end.

(** [getTransactionHistory] of the controller over the service function it
    calls, which is given the offset and the limit as the Numbers the
    controller has made of the query. *)
Definition getTransactionHistory
  (getTransactionHistory : db -> Z -> js_number -> js_number
                           -> result js_error (option history))
  (db_conn : db) (userId : Z) (query_offset query_limit : option js_number)
  : response :=
  let offset := or_else (parseInt query_offset) (Num 0) in
  let limit := if truthy query_limit then parseInt query_limit else Num 5 in
  match getTransactionHistory db_conn userId offset limit with
  | Raise err => error_500 "Internal server error"
  | Ok resolved =>
      match toTransactionHistoryResponseDTO resolved with
      | Raise dtoErr => error_500 "Internal server error"
      | Ok historyResponse => success "Get History Berhasil" historyResponse
      end
  end.

Definition getTransactionHistory_at (db_conn : db) (userId : Z)
  (offset limit : js_number) : result js_error (option history) :=
  bind (bind (number_parameter offset) (fun offset =>
              bind (number_parameter limit) (fun limit =>
              Service.getTransactionHistory db_conn userId offset limit)))
       (fun h => Ok (Some h)).

End Controller.

(** ** Authentication ([lib/middleware/auth.js]) *)

Module Auth.
Import Service Http.

(** [s.split(' ')]: the parts of [s] between its spaces, of which there is
    always at least one. *)
Fixpoint split_space (s : string) : list string :=
  match s with
  | "" => [""]
  | String c s' =>
      if Ascii.eqb c " " then "" :: split_space s'
      else match split_space s' with
           | part :: parts => String c part :: parts
           | [] => [String c ""]
           end
  end.

(** [unauthorized(res, message = 'Unauthorized', status = 108)]. *)
Definition unauthorized (message : string) (status : Z) : response :=
  createResponse 401 status message null.

(** [extractTokenFromHeader] on [req.headers.authorization], [None] for a
    request without the header; the result is [None] for [null]. *)
Definition extractTokenFromHeader (authorization : option string)
  : option string :=
  match authorization with
  | None => None
  | Some "" => None
  | Some authHeader =>
      match split_space authHeader with
      | [scheme; token] =>
          if String.eqb scheme "Bearer" then Some token else None
      | _ => None
      end
  end.

(** [!token]: [null] and the empty string are falsy. *)
Definition no_token (token : option string) : bool :=
  match token with
  | None => true
  | Some "" => true
  | Some _ => false
  end.

Section Authenticate.

(** The payload of a token and [verifyToken] of [lib/util/jwt.js], which
    rests on the [jsonwebtoken] package. *)
Variable payload : Type.
Variable verifyToken : string -> result js_error payload.

(** [authenticate]: either the answer it sends, or the context
    [{ user, token }] it leaves in [req.middleware.auth] for [next()]. *)
Definition authenticate (authorization : option string)
  : response + payload * string :=
  let token := extractTokenFromHeader authorization in
  if no_token token
  then inl (unauthorized "Token tidak tidak valid atau kadaluwarsa" 108)
  else match token with
       | Some token =>
           match verifyToken token with
           | Ok user => inr (user, token)
           | Raise err =>
               inl (unauthorized "Token tidak tidak valid atau kadaluwarsa" 108)
           end
       | None =>
           inl (unauthorized "Token tidak tidak valid atau kadaluwarsa" 108)
       end.

(** [req.middleware.auth.user.userId]. *)
Variable userId : payload -> Z.

(** The routes of [transaction.route.js]: [authenticate], the validation
    rules with [handleValidationErrors], then the controller. *)
Definition POST_topup (now : timestamptz) (d : db)
  (authorization : option string) (top_up_amount : field) : response * db :=
  match authenticate authorization with
  | inl res => (res, d)
  | inr (user, _) => post_topup now d (userId user) top_up_amount
  end.

Definition GET_transaction_history (d : db) (authorization : option string)
  (offset limit : field) : response :=
  match authenticate authorization with
  | inl res => res
  | inr (user, _) => get_transaction_history d (userId user) offset limit
  end.

End Authenticate.

End Auth.

(** A text without spaces. *)
Fixpoint no_space (s : string) : bool :=
  match s with
  | "" => true
  | String c s' => negb (Ascii.eqb c " ") && no_space s'
  end.

(** ** Registration ([membership.service.js], [membership.controller.js]) *)

Module Membership.
Import Service Http.

(** [s.includes(part)]. *)
Definition includes (s part : string) : bool :=
  match String.index 0 part s with
  | Some _ => true
  | None => false
  end.

(** [!v] for a member of the body that is a string or missing. *)
Definition falsy (v : option string) : bool :=
  match v with
  | None => true
  | Some "" => true
  | Some _ => false
  end.

Definition string_of (v : option string) : string :=
  match v with
  | Some s => s
  | None => ""
  end.

(** The body of [POST /registration]. *)
Record user_data := UserData {
  email : option string;
  password : option string;
  first_name : option string;
  last_name : option string
}.

(** What [createUser] returns. *)
Record created_user := CreatedUser {
  id : Z;
  created_email : string;
  firstName : string;
  lastName : string;
  profileImage : string
}.

Section CreateUser.

(** [String.prototype.toLowerCase], [bcrypt.hash], the number
    [parseInt(process.env.BCRYPT_SALT_ROUNDS || '10', 10)] and the default
    image URL built from the environment. *)
Variable toLowerCase : string -> string.
Variable bcrypt_hash : string -> Z -> string.
Variable BCRYPT_SALT_ROUNDS : js_number.
Variable defaultProfileImage : string.

Definition getSaltRounds : result js_error Z :=
  match BCRYPT_SALT_ROUNDS with
  | Num saltRounds =>
      if (saltRounds <? 4) || (31 <? saltRounds)
      then Raise (Error "BCRYPT_SALT_ROUNDS must be a number between 4 and 31")
      else Ok saltRounds
  | _ => Raise (Error "BCRYPT_SALT_ROUNDS must be a number between 4 and 31")
  end.

(** [SELECT id FROM users WHERE email = e LIMIT 1] has a row. *)
Definition email_taken (tx : db) (e : string) : bool :=
  existsb (fun u => String.eqb (u_email u) e) (users tx).

Definition createUser (tx : db) (userData : user_data)
  : result (js_error * db) (created_user * db) :=
  if falsy (email userData) || falsy (password userData)
     || falsy (first_name userData) || falsy (last_name userData)
  then Raise (Error "Email, password, first name, and last name are required",
              tx)
  else if email_taken tx (toLowerCase (string_of (email userData)))
  then Raise (Error "Email sudah terdaftar", tx)
  else
    bind (failing_in tx getSaltRounds) (fun saltRounds =>
    let hashedPassword :=
      bcrypt_hash (string_of (password userData)) saltRounds in
    bind (execute (insert_users tx (toLowerCase (string_of (email userData)))
                     hashedPassword (string_of (first_name userData))
                     (string_of (last_name userData)) defaultProfileImage))
      (fun '(newUser, tx') =>
    Ok (CreatedUser (u_id newUser) (u_email newUser) (u_first_name newUser)
          (u_last_name newUser) (u_profile_image newUser), tx'))).

(** [register] of the controller. *)
Definition register (db_conn : db) (body : user_data) : response * db :=
  let '(r, db_conn') := transaction db_conn (fun tx => createUser tx body) in
  match r with
  | Raise txErr =>
      if String.eqb (message txErr) "Email sudah terdaftar"
      then (badRequest "Email sudah terdaftar" null 102, db_conn')
      else if includes (message txErr) "required"
              || includes (message txErr) "Invalid"
              || includes (message txErr) "must be"
      then (badRequest (message txErr) null 102, db_conn')
      else (error_500 "Internal server error", db_conn')
  | Ok user =>
      (Response 200 0 "Registrasi berhasil silahkan login" null, db_conn')
  end.

End CreateUser.

End Membership.

(** A registration body with its four members, none empty. *)
Definition complete (body : Membership.user_data) : Prop :=
  Membership.falsy (Membership.email body) = false
  /\ Membership.falsy (Membership.password body) = false
  /\ Membership.falsy (Membership.first_name body) = false
  /\ Membership.falsy (Membership.last_name body) = false.

(** A registration body and stand-ins for the functions and settings
    [createUser] is given. *)
Definition a_body : Membership.user_data :=
  Membership.UserData (Some "new@nutech.com") (Some "Passw0rd!") (Some "New")
    (Some "User").

Definition a_body_without_password : Membership.user_data :=
  Membership.UserData (Some "new@nutech.com") (Some "") (Some "New")
    (Some "User").

Definition a_hash (password : string) (saltRounds : Z) : string :=
  "$2b$" ++ password.

Definition a_register (rounds : Http.js_number) (d : db)
  (body : Membership.user_data) : Http.response * db :=
  Membership.register (fun s => s) a_hash rounds "default.jpg" d body.

(** ** The price list ([information.service.js], [information.dto.js],
    [information.controller.js]) *)

Module Information.
Import Service Http.

(** A row of [SELECT code, name, icon_url, tariff FROM services]. *)
Record service_columns := ServiceColumns {
  code : string;
  name : string;
  icon_url : string;
  tariff : Z
}.

Record service_dto := ServiceDTO {
  service_code : string;
  service_name : string;
  service_icon : string;
  service_tariff : Z
}.

(** [ORDER BY id ASC]. *)
Definition by_id (a b : service_row) : Prop := s_id a <= s_id b.

#[export] Instance by_id_dec a b : Decision (by_id a b).
Proof. unfold by_id. apply _. Defined.

Definition getAllServices (db_conn : db) : list service_columns :=
  map (fun s => ServiceColumns (s_code s) (s_name s) (s_icon_url s)
                  (s_tariff s))
      (merge_sort by_id (services db_conn)).

Definition toServiceDTO (service : service_columns) : service_dto :=
  ServiceDTO (code service) (name service) (icon_url service)
    (tariff service).

(** What [getServices] sends: the fields of the response body with the
    list of services as [data]. *)
Record services_response := ServicesResponse {
  statusCode : Z;
  status : Z;
  message : string;
  data : list service_dto
}.

(** [getServices] of the controller: [success(res, 'Sukses', ...)] of the
    mapped rows. *)
Definition getServices (db_conn : db) : services_response :=
  ServicesResponse 200 0 "Sukses" (map toServiceDTO (getAllServices db_conn)).

End Information.

(** Two entries of [a_day], numbered 999 and 1000. *)
Definition a_row_999 : transaction_row :=
  TransactionRow 999 1 "INV17082023-999" None "Top Up balance" 10000
    (Some a_time) 1.

Definition a_row_1000 : transaction_row :=
  TransactionRow 1000 1 "INV17082023-1000" None "Top Up balance" 10000
    (Some a_time) 1.

(** ** Login ([membership.service.js], [membership.controller.js]) *)

Module Login.
Import Service Http.

(** What [authenticateUser] returns. *)
Record authenticated_user := AuthenticatedUser {
  user_id : Z;
  user_email : string;
  user_first_name : string;
  user_lastName : string;
  user_profileImage : string
}.

(** The payload [login] has signed. *)
Record token_payload := TokenPayload {
  userId : Z;
  payload_email : string;
  firstName : string;
  payload_lastName : string
}.

(** What [login] sends: the fields of the response body, with the token
    of [data] or [None] for a [null] data. *)
Record login_response := LoginResponse {
  statusCode : Z;
  status : Z;
  message : string;
  token : option string
}.

Section Login.

(** [String.prototype.toLowerCase], [bcrypt.compare] and [generateToken]
    of [lib/util/jwt.js], which returns a [Result] and does not throw. *)
Variable toLowerCase : string -> string.
Variable bcrypt_compare : string -> string -> bool.
Variable generateToken : token_payload -> result js_error string.

(** [SELECT ... FROM users WHERE email = e LIMIT 1]. *)
Definition select_user (tx : db) (e : string) : option user_row :=
  find (fun u => String.eqb (u_email u) e) (users tx).

Definition authenticateUser (tx : db) (email password : option string)
  : result (js_error * db) (authenticated_user * db) :=
  if Membership.falsy email || Membership.falsy password
  then Raise (Error "Email and password are required", tx)
  else
    match select_user tx (toLowerCase (Membership.string_of email)) with
    | None => Raise (Error "Invalid email or password", tx)
    | Some user =>
        if bcrypt_compare (Membership.string_of password)
             (u_password_hash user)
        then Ok (AuthenticatedUser (u_id user) (u_email user)
                   (u_first_name user) (u_last_name user)
                   (u_profile_image user), tx)
        else Raise (Error "Invalid email or password", tx)
    end.

(** [login] of the controller. *)
Definition login (db_conn : db) (email password : option string)
  : login_response * db :=
  let '(r, db_conn') :=
    transaction db_conn (fun tx => authenticateUser tx email password) in
  match r with
  | Raise txErr =>
      if String.eqb (Service.message txErr) "Invalid email or password"
         || String.eqb (Service.message txErr)
              "Email and password are required"
      then (LoginResponse 401 103 "Username atau password salah" None,
            db_conn')
      else (LoginResponse 500 100 "Internal server error" None, db_conn')
  | Ok user =>
      match generateToken (TokenPayload (user_id user) (user_email user)
                             (user_first_name user) (user_lastName user)) with
      | Ok token => (LoginResponse 200 0 "Login Sukses" (Some token), db_conn')
      | Raise tokenErr =>
          (LoginResponse 500 100 "Failed to generate authentication token"
             None, db_conn')
      end
  end.

End Login.

End Login.

(** ** Text *)

Section Text.

Lemma nextval_in_range sequence last_value :
  last_value < int4_max -> nextval sequence last_value = Ok (last_value + 1).
Proof.
  intros H. unfold nextval.
  destruct (Z.ltb_spec last_value int4_max); [reflexivity|lia].
Qed.

Lemma nextval_exhausted sequence last_value :
  int4_max <= last_value ->
  nextval sequence last_value
  = Raise (sequence_generator_limit_exceeded sequence).
Proof.
  intros H. unfold nextval.
  destruct (Z.ltb_spec last_value int4_max); [lia|reflexivity].
Qed.

Lemma int4_in_range z :
  int4_min <= z <= int4_max -> int4 z = Ok z.
Proof.
  intros [Hlo Hhi]. unfold int4.
  apply Z.leb_le in Hlo. apply Z.leb_le in Hhi.
  now rewrite Hlo, Hhi.
Qed.

Lemma ascii_compare_refl c : Ascii.compare c c = Eq.
Proof. unfold Ascii.compare. apply N.compare_refl. Qed.

Lemma append_assoc (a b c : string) : (a ++ b) ++ c = a ++ b ++ c.
Proof. induction a as [|x a IH]; simpl; [reflexivity | now rewrite IH]. Qed.

Lemma like_prefix_append p s : like_prefix p (p ++ s) = true.
Proof.
  unfold like_prefix. induction p as [|c p IH]; simpl.
  - now destruct s.
  - destruct (ascii_dec c c) as [_|Hne]; [exact IH | now destruct Hne].
Qed.

Lemma text_ltb_append p a b : text_ltb (p ++ a) (p ++ b) = text_ltb a b.
Proof.
  unfold text_ltb, String.ltb.
  induction p as [|c p IH]; simpl; [reflexivity|].
  now rewrite ascii_compare_refl.
Qed.

Lemma text_max_append p a b : text_max (p ++ a) (p ++ b) = p ++ text_max a b.
Proof.
  unfold text_max. rewrite text_ltb_append. now destruct (text_ltb a b).
Qed.

Lemma all_digits_dash a b : all_digits (a ++ String "-" b) = false.
Proof.
  induction a as [|c a IH]; simpl; [reflexivity|].
  rewrite IH. apply andb_false_r.
Qed.

Lemma trailing_digits_all s : all_digits s = true -> trailing_digits s = s.
Proof. destruct s as [|c s]; simpl; [reflexivity|]. now intros ->. Qed.

Lemma trailing_digits_dash a b :
  all_digits b = true -> trailing_digits (a ++ String "-" b) = b.
Proof.
  intros Hb. induction a as [|c a IH].
  - cbn [append trailing_digits all_digits]. simpl is_digit.
    now apply trailing_digits_all.
  - cbn [append trailing_digits all_digits].
    rewrite all_digits_dash, andb_false_r. exact IH.
Qed.

Lemma substring_digits_at_end_dash a b :
  all_digits b = true -> b <> "" ->
  substring_digits_at_end (a ++ String "-" b) = Some b.
Proof.
  intros Hb Hne. unfold substring_digits_at_end.
  rewrite trailing_digits_dash by assumption.
  destruct b; [now destruct Hne | reflexivity].
Qed.

End Text.

(** ** The sequence values up to 1000 *)

Section SequenceTexts.

Lemma in_upto n z : 1 <= z <= Z.of_nat n -> In z (upto n).
Proof.
  intros Hz. unfold upto. apply in_map_iff. exists (Z.to_nat z). split.
  - lia.
  - apply in_seq. lia.
Qed.

Lemma upto_forall (P : Z -> bool) n :
  forallb P (upto n) = true ->
  forall z, 1 <= z <= Z.of_nat n -> P z = true.
Proof.
  intros H z Hz. rewrite forallb_forall in H. apply H, in_upto, Hz.
Qed.

(** Three digits order like the numbers they write. *)
Lemma seq_text_increasing m :
  1 <= m <= 998 -> text_ltb (seq_text m) (seq_text (m + 1)) = true.
Proof.
  apply (upto_forall (fun m => text_ltb (seq_text m) (seq_text (m + 1))) 998).
  vm_compute. reflexivity.
Qed.

(** Four digits do not: ["1000"] sorts before ["999"]. *)
Lemma seq_text_1000_before_999 :
  text_max (seq_text 999) (seq_text 1000) = seq_text 999.
Proof. vm_compute. reflexivity. Qed.

Lemma seq_text_digits m :
  1 <= m <= 1000 ->
  all_digits (seq_text m) = true /\ seq_text m <> ""
  /\ cast_int (seq_text m) = Ok m.
Proof.
  intros Hm.
  pose (P := fun m => all_digits (seq_text m)
                      && negb (String.eqb (seq_text m) "")
                      && match cast_int (seq_text m) with
                         | Ok v => v =? m
                         | Raise _ => false
                         end).
  assert (HP : P m = true).
  { apply (upto_forall P 1000); [vm_compute; reflexivity | lia]. }
  unfold P in HP. apply andb_prop in HP as [HP H3].
  apply andb_prop in HP as [H1 H2].
  split; [exact H1|]. split.
  - intros Heq. rewrite Heq in H2. discriminate.
  - destruct (cast_int (seq_text m)) as [v|]; [|discriminate].
    apply Z.eqb_eq in H3. now subst.
Qed.

Lemma substring_digits_at_end_invoice str m :
  1 <= m <= 1000 ->
  substring_digits_at_end (invoice_of str m) = Some (seq_text m).
Proof.
  intros Hm. destruct (seq_text_digits m Hm) as (Hd & Hne & _).
  unfold invoice_of.
  change ("INV" ++ str ++ "-" ++ seq_text m)
    with ("INV" ++ str ++ String "-" (seq_text m)).
  rewrite <- append_assoc.
  now apply substring_digits_at_end_dash.
Qed.

Lemma invoice_of_prefix str n :
  like_prefix ("INV" ++ str ++ "-") (invoice_of str n) = true.
Proof.
  unfold invoice_of.
  replace ("INV" ++ str ++ "-" ++ seq_text n)
    with (("INV" ++ str ++ "-") ++ seq_text n).
  - apply like_prefix_append.
  - now rewrite !append_assoc.
Qed.

Lemma text_max_invoice str a b :
  text_max (invoice_of str a) (invoice_of str b)
  = "INV" ++ str ++ "-" ++ text_max (seq_text a) (seq_text b).
Proof.
  unfold invoice_of.
  replace ("INV" ++ str ++ "-" ++ seq_text a)
    with (("INV" ++ str ++ "-") ++ seq_text a) by now rewrite !append_assoc.
  replace ("INV" ++ str ++ "-" ++ seq_text b)
    with (("INV" ++ str ++ "-") ++ seq_text b) by now rewrite !append_assoc.
  rewrite text_max_append. now rewrite !append_assoc.
Qed.

End SequenceTexts.

(** ** The allocator *)

Section Allocator.

Variable current_date : date.

Local Abbreviation current_date_str := (to_char_DDMMYYYY current_date).

Lemma select_last_invoice_app rows r :
  select_last_invoice current_date current_date_str (rows ++ [r])
  = if selected current_date r
    then Some (match select_last_invoice current_date current_date_str rows with
               | Some m => text_max m (t_invoice_number r)
               | None => t_invoice_number r
               end)
    else select_last_invoice current_date current_date_str rows.
Proof.
  unfold select_last_invoice, order_by_desc_limit_1, selected.
  rewrite List.filter_app. cbn [List.filter].
  destruct (created_on_date_is current_date r
            && like_prefix _ (t_invoice_number r)).
  - rewrite map_app, fold_left_app. cbn [map fold_left].
    now destruct (fold_left _ _ None).
  - now rewrite app_nil_r.
Qed.

Lemma date_eqb_refl d : date_eqb d d = true.
Proof. unfold date_eqb. now rewrite !Z.eqb_refl. Qed.

Lemma date_eqb_eq a b : date_eqb a b = true -> a = b.
Proof.
  unfold date_eqb. destruct a, b; simpl. intros H.
  apply andb_prop in H as [H H3]. apply andb_prop in H as [H1 H2].
  apply Z.eqb_eq in H1, H2, H3. now subst.
Qed.

(** The first allocation of a day in which the scan finds nothing. *)
Lemma generate_invoice_number_first rows NEW :
  select_last_invoice current_date current_date_str rows = None ->
  generate_invoice_number current_date rows NEW
  = Ok (with_invoice_number NEW (Some (invoice_of current_date_str 1))).
Proof.
  intros H. unfold generate_invoice_number.
  rewrite H. reflexivity.
Qed.

(** The allocation that follows a last invoice ending in the digits of
    [m]. *)
Lemma generate_invoice_number_next rows NEW last_invoice digits m :
  select_last_invoice current_date current_date_str rows = Some last_invoice ->
  substring_digits_at_end last_invoice = Some digits ->
  cast_int digits = Ok m ->
  m + 1 <= int4_max -> int4_min <= m + 1 ->
  generate_invoice_number current_date rows NEW
  = Ok (with_invoice_number NEW (Some (invoice_of current_date_str (m + 1)))).
Proof.
  intros Hsel Hsub Hcast Hhi Hlo.
  unfold generate_invoice_number.
  rewrite Hsel, Hsub, Hcast. cbn [bind failing_in].
  rewrite int4_in_range by lia. reflexivity.
Qed.

Lemma generate_invoice_number_after rows NEW j :
  0 <= j ->
  select_last_invoice current_date current_date_str rows
  = last_allocated current_date j ->
  generate_invoice_number current_date rows NEW
  = Ok (with_invoice_number NEW
          (Some (invoice_of current_date_str (next_allocated j)))).
Proof.
  intros Hj Hsel. unfold last_allocated in Hsel. unfold next_allocated.
  destruct (Z.eqb_spec j 0) as [->|Hne].
  - now apply generate_invoice_number_first.
  - assert (Hm : 1 <= Z.min j 999 <= 1000) by lia.
    replace (Z.min (j + 1) 1000) with (Z.min j 999 + 1) by lia.
    eapply generate_invoice_number_next.
    + exact Hsel.
    + now apply substring_digits_at_end_invoice.
    + now apply seq_text_digits.
    + unfold int4_max. lia.
    + unfold int4_min. lia.
Qed.

Lemma last_allocated_step j :
  0 <= j ->
  match last_allocated current_date j with
  | Some m => text_max m (invoice_of current_date_str (next_allocated j))
  | None => invoice_of current_date_str (next_allocated j)
  end = invoice_of current_date_str (Z.min (j + 1) 999).
Proof.
  intros Hj. unfold last_allocated, next_allocated.
  destruct (Z.eqb_spec j 0) as [->|Hne]; [reflexivity|].
  rewrite text_max_invoice. unfold invoice_of. do 3 f_equal.
  destruct (Z_lt_le_dec j 999) as [Hlt|Hge].
  - replace (Z.min j 999) with j by lia.
    replace (Z.min (j + 1) 1000) with (j + 1) by lia.
    replace (Z.min (j + 1) 999) with (j + 1) by lia.
    unfold text_max. now rewrite seq_text_increasing by lia.
  - replace (Z.min j 999) with 999 by lia.
    replace (Z.min (j + 1) 1000) with 1000 by lia.
    replace (Z.min (j + 1) 999) with 999 by lia.
    apply seq_text_1000_before_999.
Qed.

End Allocator.

(** ** A day of allocations *)

Section DayRun.

Variable current_date : date.

Local Abbreviation current_date_str := (to_char_DDMMYYYY current_date).

Lemma references_ok_same d d' NEW :
  same_references d d' -> references_ok d NEW -> references_ok d' NEW.
Proof.
  intros (Hu & Hs & Ht & _). unfold references_ok. now rewrite Hu, Hs, Ht.
Qed.

Lemma has_id_above (ids : list Z) s :
  Forall (fun i => i <= s) ids -> has_id ids (s + 1) = false.
Proof.
  induction 1 as [|i ids Hi _ IH]; [reflexivity|].
  unfold has_id in *. cbn [existsb]. rewrite IH, orb_false_r.
  apply Z.eqb_neq. lia.
Qed.

Lemma key_is_fresh d :
  keys_from_sequence d ->
  has_id (map t_id (user_transactions d)) (user_transactions_id_seq d + 1)
  = false.
Proof.
  intros H. apply has_id_above. unfold keys_from_sequence in H.
  rewrite Forall_map. exact H.
Qed.

Lemma check_user_transactions_ok d NEW s :
  keys_from_sequence d -> references_ok d NEW ->
  n_invoice_number NEW = Some s ->
  check_user_transactions d (user_transactions_id_seq d + 1) NEW
  = Ok (TransactionRow (user_transactions_id_seq d + 1) (n_user_id NEW) s
          (n_service_id NEW) (n_description NEW) (n_total_amount NEW)
          (n_created_on NEW) (n_transaction_type_id NEW)).
Proof.
  intros Hk (_ & Hu & Hs & Ht) Hinv. unfold check_user_transactions.
  rewrite Hinv, (key_is_fresh d Hk), Hu, Ht. cbn [negb].
  destruct (n_service_id NEW) as [sid|]; [|reflexivity].
  now rewrite (Hs sid eq_refl).
Qed.

Lemma keys_from_sequence_insert d row :
  keys_from_sequence d ->
  t_id row = user_transactions_id_seq d + 1 ->
  keys_from_sequence
    (Db (users d) (users_id_seq d) (services d) (transaction_type_enum d)
        (user_balance d) (user_transactions d ++ [row])
        (user_transactions_id_seq d + 1)).
Proof.
  intros Hk Hid. unfold keys_from_sequence in *. cbn.
  apply Forall_app. split.
  - eapply List.Forall_impl; [|exact Hk]. cbn. intros; lia.
  - constructor; [lia | constructor].
Qed.

(** One entry of the day, after [j] others. *)
Lemma insert_created_today d NEW j :
  0 <= j -> keys_from_sequence d -> user_transactions_id_seq d < int4_max ->
  references_ok d NEW ->
  created_today current_date NEW ->
  select_last_invoice current_date current_date_str (user_transactions d)
  = last_allocated current_date j ->
  exists row d',
    insert_user_transactions current_date d NEW = Ok (row, d')
    /\ t_invoice_number row = invoice_of current_date_str (next_allocated j)
    /\ t_created_on row = n_created_on NEW
    /\ user_transactions d' = (user_transactions d ++ [row])%list
    /\ user_transactions_id_seq d' = user_transactions_id_seq d + 1
    /\ same_references d d' /\ keys_from_sequence d'
    /\ select_last_invoice current_date current_date_str (user_transactions d')
       = last_allocated current_date (j + 1).
Proof.
  intros Hj Hk Hseq Hrefs (Hnull & ts & Hts & Hdate) Hsel.
  unfold insert_user_transactions, trigger_generate_invoice_number.
  rewrite (proj1 Hrefs), (nextval_in_range _ _ Hseq). cbn [bind failing_in].
  rewrite Hnull.
  rewrite (generate_invoice_number_after current_date _ NEW j Hj Hsel).
  cbn [bind failing_in].
  rewrite (check_user_transactions_ok d _
             (invoice_of current_date_str (next_allocated j)) Hk);
    [|exact Hrefs|reflexivity].
  cbn [bind failing_in]. eexists _, _. split; [reflexivity|].
  unfold same_references.
  cbn [user_transactions t_invoice_number t_created_on users services
       transaction_type_enum user_balance user_transactions_id_seq].
  repeat split; try reflexivity.
  - now apply keys_from_sequence_insert.
  - rewrite (select_last_invoice_app current_date). unfold selected.
    unfold created_on_date_is, with_invoice_number.
    cbn [t_invoice_number t_created_on n_created_on].
    rewrite Hts, Hdate, date_eqb_refl.
    rewrite invoice_of_prefix. cbn [andb].
    rewrite Hsel.
    rewrite (last_allocated_step current_date j Hj).
    unfold last_allocated. destruct (Z.eqb_spec (j + 1) 0); [lia|reflexivity].
Qed.

Lemma allocated_from_S j n :
  allocated_from current_date j (S n)
  = invoice_of current_date_str (next_allocated j)
    :: allocated_from current_date (j + 1) n.
Proof.
  unfold allocated_from. cbn [seq map]. rewrite Z.add_0_r. f_equal.
  rewrite <- seq_shift, map_map. apply map_ext. intros i.
  do 2 f_equal. lia.
Qed.

Lemma insert_all_created_today news : forall d j,
  0 <= j -> keys_from_sequence d ->
  user_transactions_id_seq d + Z.of_nat (length news) <= int4_max ->
  Forall (references_ok d) news ->
  Forall (created_today current_date) news ->
  select_last_invoice current_date current_date_str (user_transactions d)
  = last_allocated current_date j ->
  exists d' added,
    insert_all current_date d news = Ok d'
    /\ user_transactions d' = (user_transactions d ++ added)%list
    /\ map t_invoice_number added
       = allocated_from current_date j (length news)
    /\ same_references d d' /\ keys_from_sequence d'
    /\ select_last_invoice current_date current_date_str (user_transactions d')
       = last_allocated current_date (j + Z.of_nat (length news)).
Proof.
  induction news as [|NEW news IH]; intros d j Hj Hk Hseq Hrefs Htoday Hsel.
  - exists d, []. cbn. rewrite app_nil_r, Z.add_0_r.
    repeat split; try reflexivity; assumption.
  - inversion Hrefs as [|? ? Href Hrefs']; subst.
    inversion Htoday as [|? ? Hnew Htoday']; subst.
    cbn [length] in Hseq.
    destruct (insert_created_today d NEW j Hj Hk ltac:(lia) Href Hnew Hsel)
      as (row & d1 & Hins & Hinv & _ & Hrows & Hseq1 & Hsame & Hk1 & Hsel1).
    destruct (IH d1 (j + 1)) as (d' & added & Hall & Hrows' & Hinvs & Hsame'
                                 & Hk' & Hsel'); try assumption; [lia|lia| |].
    { eapply List.Forall_impl; [|exact Hrefs'].
      intros n. now apply references_ok_same. }
    exists d', (row :: added). cbn [insert_all]. rewrite Hins. cbn [bind failing_in].
    split; [exact Hall|]. split; [|split; [|split; [|split]]].
    + rewrite Hrows', Hrows, <- app_assoc. reflexivity.
    + cbn [map length]. rewrite allocated_from_S, Hinv, Hinvs. reflexivity.
    + destruct Hsame as (?&?&?&?), Hsame' as (?&?&?&?).
      unfold same_references. repeat split; congruence.
    + exact Hk'.
    + rewrite Hsel'. f_equal. cbn [length]. lia.
Qed.

End DayRun.

(** ** The invoice numbers of a day *)

Section InvoiceNumbers.

Lemma allocated_from_lookup current_date j n i :
  (i < n)%nat ->
  allocated_from current_date j n !! i
  = Some (invoice_of (to_char_DDMMYYYY current_date)
            (next_allocated (j + Z.of_nat i))).
Proof.
  intros Hi. unfold allocated_from.
  rewrite list_lookup_fmap, lookup_seq_lt by exact Hi. reflexivity.
Qed.

Lemma a_topups_ok n :
  Forall (references_ok a_db) (repeat a_topup n)
  /\ Forall (created_today a_day) (repeat a_topup n).
Proof.
  split; apply Forall_forall; intros x Hx;
    apply list_elem_of_In, repeat_spec in Hx; subst x.
  - unfold references_ok. repeat split; try reflexivity. discriminate.
  - split; [reflexivity|]. exists a_time. split; reflexivity.
Qed.

(** The ledger of [a_day] after [n] top-ups: the inserts succeed and the
    invoice numbers are the ones [allocated_from] lists. *)
Lemma a_day_of_topups n :
  Z.of_nat n <= int4_max ->
  exists d',
    insert_all a_day a_db (repeat a_topup n) = Ok d'
    /\ map t_invoice_number (user_transactions d') = allocated_from a_day 0 n
    /\ select_last_invoice a_day (to_char_DDMMYYYY a_day) (user_transactions d')
       = last_allocated a_day (Z.of_nat n).
Proof.
  intros Hn. destruct (a_topups_ok n) as [Hrefs Htoday].
  destruct (insert_all_created_today a_day (repeat a_topup n) a_db 0)
    as (d' & added & Hall & Hrows & Hinv & _ & _ & Hsel);
    try assumption; [lia | constructor | | reflexivity |].
  { rewrite repeat_length. cbn [a_db user_transactions_id_seq]. lia. }
  exists d'. rewrite repeat_length in Hinv, Hsel.
  rewrite Hrows in Hsel |- *. cbn [a_db user_transactions app] in Hsel |- *.
  now rewrite Hinv, Hsel.
Qed.

(** C1, at 1001 entries of one day: the invoice numbers the allocator
    gives the entries of one calendar date are not pairwise distinct, nor
    increasing.  The scan takes the greatest stored text, which stays
    [-999] once [-1000] is stored, so that the 1000th and the 1001st entry
    of the day both carry [INV17082023-1000]. *)
Theorem invoice_number_repeated_on_a_day :
  exists d' r1000 r1001,
    insert_all a_day a_db (repeat a_topup 1001) = Ok d'
    /\ user_transactions d' !! 999%nat = Some r1000
    /\ user_transactions d' !! 1000%nat = Some r1001
    /\ t_invoice_number r1000 = "INV17082023-1000"
    /\ t_invoice_number r1001 = "INV17082023-1000".
Proof.
  destruct (a_day_of_topups 1001) as (d' & Hall & Hinv & _);
    [unfold int4_max; lia|].
  assert (H999 : map t_invoice_number (user_transactions d') !! 999%nat
                 = Some "INV17082023-1000").
  { rewrite Hinv, allocated_from_lookup by lia. vm_compute. reflexivity. }
  assert (H1000 : map t_invoice_number (user_transactions d') !! 1000%nat
                  = Some "INV17082023-1000").
  { rewrite Hinv, allocated_from_lookup by lia. vm_compute. reflexivity. }
  rewrite list_lookup_fmap in H999, H1000.
  destruct (user_transactions d' !! 999%nat) as [r1|] eqn:E1; [|discriminate].
  destruct (user_transactions d' !! 1000%nat) as [r2|] eqn:E2; [|discriminate].
  exists d', r1, r2. cbn [fmap option_fmap option_map] in H999, H1000.
  injection H999 as H999. injection H1000 as H1000.
  split; [exact Hall|]. split; [exact E1|]. split; [exact E2|].
  split; [exact H999 | exact H1000].
Qed.

(** C8, from 1000 entries of one day on: the sequence value no longer
    grows by one per entry.  Whatever the number [1000 + k] of entries the
    day has, as far as the keys of the ledger reach, the allocator renders
    the sequence value of the next one as [1000]. *)
Theorem sequence_stays_at_1000 (k : nat) :
  Z.of_nat (1000 + k) <= int4_max ->
  exists d',
    insert_all a_day a_db (repeat a_topup (1000 + k)) = Ok d'
    /\ length (user_transactions d') = (1000 + k)%nat
    /\ generate_invoice_number a_day (user_transactions d') a_topup
       = Ok (with_invoice_number a_topup (Some "INV17082023-1000")).
Proof.
  intros Hk.
  destruct (a_day_of_topups (1000 + k) Hk) as (d' & Hall & Hinv & Hsel).
  exists d'. split; [exact Hall|]. split.
  - rewrite <- (length_map t_invoice_number), Hinv.
    unfold allocated_from. now rewrite length_map, length_seq.
  - rewrite (generate_invoice_number_after a_day _ a_topup
               (Z.of_nat (1000 + k))); [|lia|exact Hsel].
    unfold next_allocated.
    replace (Z.min (Z.of_nat (1000 + k) + 1) 1000) with 1000 by lia.
    vm_compute. reflexivity.
Qed.

Lemma sequence_stays_at_1000_witness :
  Z.of_nat (1000 + 7) <= int4_max
  /\ exists d',
       insert_all a_day a_db (repeat a_topup (1000 + 7)) = Ok d'
       /\ length (user_transactions d') = (1000 + 7)%nat
       /\ generate_invoice_number a_day (user_transactions d') a_topup
          = Ok (with_invoice_number a_topup (Some "INV17082023-1000")).
Proof.
  assert (H : Z.of_nat (1000 + 7) <= int4_max) by (unfold int4_max; lia).
  split; [exact H|]. exact (sequence_stays_at_1000 7 H).
Defined.

End InvoiceNumbers.

(** ** What the trigger looks at *)

Section Trigger.

Variable current_date : date.

Local Abbreviation current_date_str := (to_char_DDMMYYYY current_date).

(** The allocator reads the table through its scan only. *)
Lemma generate_invoice_number_scan rows rows' NEW :
  select_last_invoice current_date current_date_str rows
  = select_last_invoice current_date current_date_str rows' ->
  generate_invoice_number current_date rows NEW
  = generate_invoice_number current_date rows' NEW.
Proof. intros H. unfold generate_invoice_number. now rewrite H. Qed.

(** It gives every [NEW] the same invoice number and changes nothing
    else. *)
Lemma generate_invoice_number_values rows NEW NEW' :
  generate_invoice_number current_date rows NEW'
  = bind (generate_invoice_number current_date rows NEW) (fun n =>
    Ok (with_invoice_number NEW' (n_invoice_number n))).
Proof.
  unfold generate_invoice_number.
  destruct (select_last_invoice current_date current_date_str rows)
    as [last_invoice|]; [|reflexivity].
  destruct (substring_digits_at_end last_invoice) as [digits|]; [|reflexivity].
  destruct (cast_int digits) as [last_sequence|]; [|reflexivity].
  cbn [bind failing_in]. destruct (int4 (last_sequence + 1)); reflexivity.
Qed.

Lemma select_last_invoice_skip before r after :
  created_on_date_is current_date r = false ->
  select_last_invoice current_date current_date_str (before ++ r :: after)
  = select_last_invoice current_date current_date_str (before ++ after).
Proof.
  intros Hr. unfold select_last_invoice.
  rewrite !List.filter_app. cbn [List.filter]. now rewrite Hr.
Qed.

Lemma select_last_invoice_none rows :
  Forall (fun r => created_on_date_is current_date r = false) rows ->
  select_last_invoice current_date current_date_str rows = None.
Proof.
  intros H. unfold select_last_invoice.
  replace (List.filter _ rows) with (@nil transaction_row); [reflexivity|].
  induction H as [|r rows Hr _ IH]; [reflexivity|].
  cbn [List.filter]. now rewrite Hr.
Qed.

(** The constraints do not look at [created_on]. *)
Lemma check_user_transactions_created_on d id NEW c :
  check_user_transactions d id (with_created_on NEW c)
  = bind (check_user_transactions d id NEW) (fun row =>
    Ok (TransactionRow (t_id row) (t_user_id row) (t_invoice_number row)
          (t_service_id row) (t_description row) (t_total_amount row) c
          (t_transaction_type_id row))).
Proof.
  unfold check_user_transactions, with_created_on.
  cbn [n_invoice_number n_total_amount n_user_id n_service_id
       n_transaction_type_id n_description n_created_on].
  destruct (n_invoice_number NEW); [|reflexivity].
  repeat match goal with |- context [if ?b then _ else _] => destruct b end;
    reflexivity.
Qed.

Lemma trigger_created_on rows NEW c :
  trigger_generate_invoice_number current_date rows (with_created_on NEW c)
  = bind (trigger_generate_invoice_number current_date rows NEW) (fun n =>
    Ok (with_created_on n c)).
Proof.
  unfold trigger_generate_invoice_number.
  cbn [with_created_on n_invoice_number].
  destruct (n_invoice_number NEW) eqn:E; [reflexivity|].
  rewrite (generate_invoice_number_values rows NEW (with_created_on NEW c)).
  destruct (generate_invoice_number current_date rows NEW) as [n|] eqn:G;
    [|reflexivity].
  cbn [bind failing_in]. f_equal.
  rewrite (generate_invoice_number_values rows NEW NEW) in G.
  destruct (generate_invoice_number current_date rows NEW); [|discriminate].
  cbn [bind failing_in] in G. injection G as <-. reflexivity.
Qed.

End Trigger.

(** ** Inserts into the ledger *)

Section LedgerInserts.

(** C9: the allocator runs only for an insert whose invoice number is
    NULL.  For an insert that supplies the invoice number [s] the trigger
    does not fire, the row stored carries [s] as it came, and whether the
    insert is accepted depends neither on the text supplied (no format
    check) nor on the invoice numbers already stored (no collision
    check): with any other text it fares the same. *)
Theorem supplied_invoice_number_stored_as_is
  (current_date : date) (d : db) (NEW : new_transaction) (s : string) :
  n_invoice_number NEW = Some s ->
  trigger_generate_invoice_number current_date (user_transactions d) NEW
  = Ok NEW
  /\ (forall row d',
        insert_user_transactions current_date d NEW = Ok (row, d') ->
        t_invoice_number row = s
        /\ user_transactions d' = (user_transactions d ++ [row])%list)
  /\ (forall s',
        is_ok (insert_user_transactions current_date d
                 (with_invoice_number NEW (Some s')))
        = is_ok (insert_user_transactions current_date d NEW)).
Proof.
  intros Hs. split; [|split].
  - unfold trigger_generate_invoice_number. now rewrite Hs.
  - intros row d'. unfold insert_user_transactions,
      trigger_generate_invoice_number, check_user_transactions.
    destruct (int4 (n_total_amount NEW)); [|discriminate].
    cbn [bind failing_in].
    destruct (nextval _ _) as [id|]; [|discriminate]. cbn [bind failing_in].
    rewrite Hs. cbn [bind failing_in]. rewrite Hs.
    repeat match goal with
           | |- context [if ?b then _ else _] => destruct b
           end; try discriminate.
    intros H. injection H as <- <-. split; reflexivity.
  - intros s'. unfold insert_user_transactions,
      trigger_generate_invoice_number, check_user_transactions,
      with_invoice_number.
    cbn [n_invoice_number n_total_amount n_user_id n_service_id
         n_transaction_type_id bind failing_in].
    destruct (int4 (n_total_amount NEW)); [|reflexivity].
    cbn [bind failing_in].
    destruct (nextval _ _) as [id|]; [|reflexivity].
    rewrite Hs.
    cbn [n_invoice_number n_total_amount n_user_id n_service_id
         n_transaction_type_id n_description n_created_on bind failing_in].
    rewrite Hs.
    repeat match goal with
           | |- context [if ?b then _ else _] => destruct b
           end; reflexivity.
Qed.

Lemma supplied_invoice_number_stored_as_is_witness :
  n_invoice_number a_topup_again = Some "INV17082023-001"
  /\ map t_invoice_number (user_transactions a_db_1) = ["INV17082023-001"]
  /\ is_ok (insert_user_transactions a_day a_db_1 a_topup_again) = true
  /\ trigger_generate_invoice_number a_day (user_transactions a_db_1)
       a_topup_again = Ok a_topup_again.
Proof.
  split; [reflexivity|]. split; [vm_compute; reflexivity|].
  split; [vm_compute; reflexivity|].
  apply (supplied_invoice_number_stored_as_is a_day a_db_1 a_topup_again
           "INV17082023-001"). reflexivity.
Defined.

(** C2, as the schema has it: [invoice_number] is NOT NULL and nothing
    more.  An insert that supplies an invoice number and is accepted is
    accepted once more right after, as long as the sequence has a key
    left, and the ledger then holds two entries with that invoice number;
    distinct numbers rest on the allocator alone. *)
Theorem invoice_number_not_unique
  (current_date : date) (d d1 : db) (NEW : new_transaction) (s : string)
  (row1 : transaction_row) :
  keys_from_sequence d ->
  n_invoice_number NEW = Some s ->
  insert_user_transactions current_date d NEW = Ok (row1, d1) ->
  user_transactions_id_seq d1 < int4_max ->
  exists row2 d2,
    insert_user_transactions current_date d1 NEW = Ok (row2, d2)
    /\ user_transactions d2 = (user_transactions d ++ [row1; row2])%list
    /\ t_id row1 <> t_id row2
    /\ t_invoice_number row1 = s /\ t_invoice_number row2 = s.
Proof.
  intros Hk Hs Hins Hseq1.
  assert (Hseq : user_transactions_id_seq d < int4_max).
  { revert Hins. unfold insert_user_transactions, nextval.
    destruct (int4 (n_total_amount NEW)); [|discriminate]. cbn [bind failing_in].
    destruct (Z.ltb_spec (user_transactions_id_seq d) int4_max);
      [trivial|discriminate]. }
  assert (Hrefs : references_ok d NEW).
  { revert Hins. unfold insert_user_transactions,
      trigger_generate_invoice_number, check_user_transactions, references_ok.
    rewrite (nextval_in_range _ _ Hseq). unfold int4.
    destruct ((int4_min <=? n_total_amount NEW)
              && (n_total_amount NEW <=? int4_max)); [|discriminate].
    cbn [bind failing_in]. rewrite Hs. cbn [bind failing_in]. rewrite Hs.
    destruct (has_id (map t_id (user_transactions d)) _); [discriminate|].
    destruct (has_id (map u_id (users d)) _); [|discriminate]. cbn [negb].
    destruct (n_service_id NEW) as [sid|].
    - destruct (has_id (map s_id (services d)) sid) eqn:Es; [|discriminate].
      cbn [negb].
      destruct (has_id (map tt_id (transaction_type_enum d)) _);
        [|discriminate].
      intros _. repeat split; try reflexivity. now intros ? [= <-].
    - destruct (has_id (map tt_id (transaction_type_enum d)) _);
        [|discriminate].
      intros _. repeat split; try reflexivity. discriminate. }
  unfold insert_user_transactions, trigger_generate_invoice_number in Hins.
  rewrite (proj1 Hrefs), (nextval_in_range _ _ Hseq) in Hins.
  cbn [bind failing_in] in Hins. rewrite Hs in Hins. cbn [bind failing_in] in Hins.
  rewrite (check_user_transactions_ok d NEW s Hk Hrefs Hs) in Hins.
  cbn [bind failing_in] in Hins. injection Hins as <- <-.
  pose proof (keys_from_sequence_insert d
                (TransactionRow (user_transactions_id_seq d + 1) (n_user_id NEW)
                   s (n_service_id NEW) (n_description NEW)
                   (n_total_amount NEW) (n_created_on NEW)
                   (n_transaction_type_id NEW)) Hk eq_refl) as Hk1.
  unfold insert_user_transactions, trigger_generate_invoice_number.
  rewrite (proj1 Hrefs), (nextval_in_range _ _ Hseq1). cbn [bind failing_in].
  rewrite Hs. cbn [bind failing_in].
  rewrite (check_user_transactions_ok _ NEW s Hk1); [|exact Hrefs|exact Hs].
  cbn [bind failing_in]. eexists _, _. split; [reflexivity|].
  cbn [user_transactions user_transactions_id_seq t_id t_invoice_number].
  rewrite <- app_assoc. repeat split; try reflexivity. lia.
Qed.

Lemma invoice_number_not_unique_witness :
  exists row1 d1 row2 d2,
    insert_user_transactions a_day a_db_1 a_topup_again = Ok (row1, d1)
    /\ insert_user_transactions a_day d1 a_topup_again = Ok (row2, d2)
    /\ t_id row1 <> t_id row2
    /\ t_invoice_number row1 = "INV17082023-001"
    /\ t_invoice_number row2 = "INV17082023-001".
Proof.
  eexists _, _.
  assert (Hins : insert_user_transactions a_day a_db_1 a_topup_again
                 = Ok (TransactionRow 2 1 "INV17082023-001" None
                         "Top Up balance" 10000 (Some a_time) 1,
                       Db (users a_db) 1 (services a_db)
                          (transaction_type_enum a_db) (user_balance a_db)
                          (user_transactions a_db_1
                           ++ [TransactionRow 2 1 "INV17082023-001" None
                                 "Top Up balance" 10000 (Some a_time) 1]) 2)).
  { vm_compute. reflexivity. }
  assert (Hk : keys_from_sequence a_db_1).
  { vm_compute. repeat constructor. discriminate. }
  assert (Hseq : 2 < int4_max) by reflexivity.
  destruct (invoice_number_not_unique a_day a_db_1 _ a_topup_again
              "INV17082023-001" _ Hk eq_refl Hins Hseq)
    as (row2 & d2 & H2 & _ & Hne & H1s & H2s).
  exists row2, d2. repeat split; assumption.
Defined.

(** The claim of C2 fails on the schema: after an allocated top-up, an
    insert that supplies the number just allocated is accepted, and two
    stored entries share [INV17082023-001]. *)
Lemma invoice_number_shared_by_two_entries :
  exists row d',
    insert_user_transactions a_day a_db_1 a_topup_again = Ok (row, d')
    /\ map t_id (user_transactions d') = [1; 2]
    /\ map t_invoice_number (user_transactions d')
       = ["INV17082023-001"; "INV17082023-001"].
Proof.
  eexists _, _. split; [vm_compute; reflexivity|].
  split; vm_compute; reflexivity.
Qed.

End LedgerInserts.

(** ** Entries without a creation time *)

Section NullCreatedOn.

Lemma not_of_day_unselected current_date r :
  not_of_day current_date r -> created_on_date_is current_date r = false.
Proof.
  unfold created_on_date_is. intros [->|(ts & -> & Hne)]; [reflexivity|].
  destruct (date_eqb (ts_date ts) current_date) eqn:E; [|reflexivity].
  now apply date_eqb_eq in E.
Qed.

(** C10: [created_on] is nullable and has no default, and the scan of the
    allocator keeps the rows whose [created_on] is of the current date.
    So an insert is accepted with a NULL [created_on] as with any other
    and the row stored keeps the NULL; a stored row [r] with a NULL
    [created_on] can be taken out of the table without a change to what
    the allocator gives, on whatever date it runs; and when the other
    entries are without [created_on] too, or of other days, the next
    sequence value is 1 again. *)
Theorem null_created_on_hidden_from_allocator
  (current_date : date) (before after : list transaction_row)
  (r : transaction_row) (NEW : new_transaction) :
  t_created_on r = None ->
  (forall d,
     is_ok (insert_user_transactions current_date d (with_created_on NEW None))
     = is_ok (insert_user_transactions current_date d NEW)
     /\ forall row d',
          insert_user_transactions current_date d (with_created_on NEW None)
          = Ok (row, d') -> t_created_on row = None)
  /\ (forall any_date,
        generate_invoice_number any_date (before ++ r :: after)%list NEW
        = generate_invoice_number any_date (before ++ after)%list NEW)
  /\ (Forall (not_of_day current_date) (before ++ after)%list ->
      generate_invoice_number current_date (before ++ r :: after)%list NEW
      = Ok (with_invoice_number NEW
              (Some ("INV" ++ to_char_DDMMYYYY current_date ++ "-001")))).
Proof.
  intros Hr. split; [|split].
  - intros d. unfold insert_user_transactions.
    change (n_total_amount (with_created_on NEW None))
      with (n_total_amount NEW).
    destruct (int4 (n_total_amount NEW));
      [|split; [reflexivity|discriminate]].
    destruct (nextval _ _) as [id|]; [|split; [reflexivity|discriminate]].
    cbn [bind failing_in]. rewrite trigger_created_on.
    destruct (trigger_generate_invoice_number current_date
                (user_transactions d) NEW) as [n|]; [|split; [reflexivity|]].
    + cbn [bind failing_in]. rewrite check_user_transactions_created_on.
      destruct (check_user_transactions d _ n) as [row0|]; cbn [bind is_ok].
      * split; [reflexivity|]. intros row d' H. injection H as <- _.
        reflexivity.
      * split; [reflexivity|]. discriminate.
    + cbn [bind failing_in]. discriminate.
  - intros any_date. apply generate_invoice_number_scan.
    apply select_last_invoice_skip. unfold created_on_date_is.
    now rewrite Hr.
  - intros Hall.
    rewrite (generate_invoice_number_first current_date); [reflexivity|].
    apply select_last_invoice_none.
    apply Forall_app in Hall as [Hb Ha]. apply Forall_app. split.
    + eapply List.Forall_impl; [|exact Hb].
      intros x. apply not_of_day_unselected.
    + constructor.
      * apply not_of_day_unselected. now left.
      * eapply List.Forall_impl; [|exact Ha].
        intros x. apply not_of_day_unselected.
Qed.

Lemma null_created_on_hidden_from_allocator_witness :
  insert_user_transactions a_day a_db (with_created_on a_topup None)
  = Ok (a_row_without_created_on,
        Db (users a_db) 1 (services a_db) (transaction_type_enum a_db)
           (user_balance a_db) [a_row_without_created_on] 1)
  /\ generate_invoice_number a_day [a_row_without_created_on] a_topup
     = Ok (with_invoice_number a_topup (Some "INV17082023-001")).
Proof.
  split; [vm_compute; reflexivity|].
  apply (null_created_on_hidden_from_allocator a_day [] []
           a_row_without_created_on a_topup eq_refl).
  constructor.
Defined.

End NullCreatedOn.

(** ** Accounts *)

Section Accounts.

Lemma has_id_false_filter (rows : list balance_row) id :
  has_id (map b_user_id rows) id = false ->
  List.filter (fun b => b_user_id b =? id) rows = [].
Proof.
  unfold has_id. induction rows as [|b rows IH]; [reflexivity|].
  cbn [map existsb List.filter]. intros H.
  apply orb_false_elim in H as [Hb Hrows].
  rewrite Z.eqb_sym, Hb. now apply IH.
Qed.

Lemma has_id_app ids ids' i :
  has_id (ids ++ ids') i = has_id ids i || has_id ids' i.
Proof. unfold has_id. apply existsb_app. Qed.



End Accounts.

(** ** The unit of work of a balance change *)

Section UnitOfWork.

Import Service.

(** The error of a failed statement carries none of the messages the
    controllers single out. *)
Lemma sql_error_message_generic e :
  String.eqb (sql_error_message e) Http.amount_message = false
  /\ String.eqb (sql_error_message e) "User not found" = false
  /\ String.eqb (sql_error_message e) "Service ataus Layanan tidak ditemukan"
     = false
  /\ String.eqb (sql_error_message e) "Balance tidak mencukupi" = false.
Proof. destruct e; repeat split; reflexivity. Qed.

Lemma insert_user_transactions_effect current_date d NEW row d' :
  insert_user_transactions current_date d NEW = Ok (row, d') ->
  user_transactions d' = (user_transactions d ++ [row])%list
  /\ user_balance d' = user_balance d
  /\ t_user_id row = n_user_id NEW
  /\ t_total_amount row = n_total_amount NEW
  /\ t_service_id row = n_service_id NEW
  /\ t_created_on row = n_created_on NEW.
Proof.
  unfold insert_user_transactions.
  destruct (int4 (n_total_amount NEW)); [|discriminate].
  cbn [bind failing_in].
  destruct (nextval _ _) as [id|]; [|discriminate]. cbn [bind failing_in].
  destruct (trigger_generate_invoice_number current_date
              (user_transactions d) NEW) as [n|] eqn:Et; [|discriminate].
  cbn [bind failing_in].
  assert (Hn : n_user_id n = n_user_id NEW
               /\ n_total_amount n = n_total_amount NEW
               /\ n_service_id n = n_service_id NEW
               /\ n_created_on n = n_created_on NEW).
  { revert Et. unfold trigger_generate_invoice_number.
    destruct (n_invoice_number NEW).
    - intros [= <-]. repeat split.
    - rewrite (generate_invoice_number_values current_date _ NEW NEW).
      destruct (generate_invoice_number current_date (user_transactions d) NEW);
        [|discriminate].
      cbn [bind]. intros [= <-]. repeat split. }
  destruct Hn as (Hu & Ha & Hs & Hc).
  unfold check_user_transactions.
  destruct (n_invoice_number n); [|discriminate].
  repeat match goal with
         | |- context [if ?b then _ else _] => destruct b
         end; try discriminate.
  intros [= <- <-]. cbn. repeat split; assumption.
Qed.

(** An insert into the ledger that fails has drawn one key at most. *)
Lemma insert_user_transactions_raise current_date d NEW e tx :
  insert_user_transactions current_date d NEW = Raise (e, tx) ->
  same_rows d tx /\ one_key_drawn_at_most d tx.
Proof.
  unfold insert_user_transactions, nextval, same_rows, one_key_drawn_at_most.
  destruct (int4 (n_total_amount NEW)); cbn [bind failing_in];
    [|intros [= _ <-]; repeat split; lia].
  destruct (Z.ltb_spec (user_transactions_id_seq d) int4_max);
    cbn [bind failing_in]; [|intros [= _ <-]; repeat split; lia].
  destruct (trigger_generate_invoice_number _ _ _) as [n|];
    cbn [bind failing_in];
    [|intros [= _ <-]; cbn; repeat split; lia].
  destruct (check_user_transactions _ _ _); cbn [bind failing_in];
    [discriminate|intros [= _ <-]; cbn; repeat split; lia].
Qed.

Lemma update_balance_effect d userId new_amount d' :
  update_balance d userId new_amount = Ok d' ->
  user_transactions d' = user_transactions d
  /\ user_balance d'
     = map (fun b => if b_user_id b =? userId
                     then BalanceRow (b_user_id b) new_amount else b)
           (user_balance d).
Proof.
  unfold update_balance, int4.
  destruct ((int4_min <=? new_amount) && (new_amount <=? int4_max));
    [|discriminate].
  cbn [bind]. intros [= <-]. split; reflexivity.
Qed.

Lemma update_balance_sequences d userId new_amount d' :
  update_balance d userId new_amount = Ok d' ->
  users_id_seq d' = users_id_seq d
  /\ user_transactions_id_seq d' = user_transactions_id_seq d.
Proof.
  unfold update_balance, int4.
  destruct ((int4_min <=? new_amount) && (new_amount <=? int4_max));
    [|discriminate].
  cbn [bind]. intros [= <-]. split; reflexivity.
Qed.

Lemma select_balance_updated d userId current new_amount d' :
  select_balance d userId = Some current ->
  user_balance d'
  = map (fun b => if b_user_id b =? userId
                  then BalanceRow (b_user_id b) new_amount else b)
        (user_balance d) ->
  select_balance d' userId = Some new_amount.
Proof.
  unfold select_balance. intros Hsel ->.
  induction (user_balance d) as [|b bs IH]; [discriminate|].
  cbn [find map] in *.
  destruct (b_user_id b =? userId) eqn:E.
  - cbn [find b_user_id]. now rewrite E.
  - rewrite E. now apply IH.
Qed.

Lemma execute_ok {A} (r : result (sql_error * db) A) a :
  execute r = Ok a -> r = Ok a.
Proof. destruct r as [|[e tx]]; cbn; [now intros [= ->] | discriminate]. Qed.

Lemma execute_raise {A} (r : result (sql_error * db) A) err tx :
  execute r = Raise (err, tx) ->
  exists e, err = Error (sql_error_message e) /\ r = Raise (e, tx).
Proof.
  destruct r as [|[e tx']]; cbn; [discriminate | intros [= <- <-]; eauto].
Qed.

Lemma failing_in_ok {E A} d (r : result E A) a :
  failing_in d r = Ok a -> r = Ok a.
Proof. destruct r; cbn; [now intros [= ->] | discriminate]. Qed.

Lemma failing_in_raise {E A} d (r : result E A) e tx :
  failing_in d r = Raise (e, tx) -> r = Raise e /\ tx = d.
Proof. destruct r; cbn; [discriminate | now intros [= -> ->]]. Qed.

Lemma rollback_same d : rollback d d = d.
Proof. now destruct d. Qed.

Lemma rollback_rows d tx : same_rows d (rollback d tx).
Proof. repeat split. Qed.

(** What a debit that returns has done. *)
Lemma createTransaction_ok now d userId service_code summary d' :
  createTransaction now d userId service_code = Ok (summary, d') ->
  exists service current row,
    select_service d service_code = Some service
    /\ select_balance d userId = Some current
    /\ s_tariff service <= current
    /\ select_balance d' userId = Some (current - s_tariff service)
    /\ user_transactions d' = (user_transactions d ++ [row])%list
    /\ t_user_id row = userId /\ t_total_amount row = s_tariff service
    /\ t_service_id row = Some (s_id service)
    /\ ts_invoice_number summary = t_invoice_number row
    /\ user_balance d'
       = map (fun b => if b_user_id b =? userId
                       then BalanceRow (b_user_id b)
                              (current - s_tariff service) else b)
             (user_balance d).
Proof.
  unfold createTransaction.
  destruct (select_service d service_code) as [service|]; [|discriminate].
  destruct (select_balance d userId) as [current|] eqn:Eb; [|discriminate].
  destruct (Z.ltb_spec current (s_tariff service)) as [|Hle]; [discriminate|].
  destruct (execute (failing_in d
                       (update_balance d userId (current - s_tariff service))))
    as [tx1|] eqn:E1; [|discriminate].
  cbn [bind]. apply execute_ok, failing_in_ok in E1.
  destruct (execute (failing_in tx1
                       (ledger_entry tx1 now userId "PAYMENT"
                          (Some (s_id service)) (s_name service)
                          (s_tariff service)))) as [entry|] eqn:E2;
    [|discriminate].
  cbn [bind]. apply execute_ok, failing_in_ok in E2.
  destruct (execute (insert_user_transactions (ts_date now) tx1 entry))
    as [[row tx2]|] eqn:E3; [|discriminate].
  cbn [bind]. apply execute_ok in E3. intros [= <- <-].
  apply update_balance_effect in E1 as [Hrows1 Hbal1].
  apply insert_user_transactions_effect in E3
    as (Hrows2 & Hbal2 & Hu & Ha & Hs & _).
  unfold ledger_entry in E2.
  destruct (select_transaction_type tx1 "PAYMENT"); [|discriminate].
  injection E2 as <-. cbn in Hu, Ha, Hs.
  exists service, current, row. repeat split; try assumption.
  - eapply select_balance_updated; [exact Eb|]. now rewrite Hbal2.
  - now rewrite Hrows2, Hrows1.
  - now rewrite Hbal2.
Qed.

(** What a failed debit throws, and how far it has come. *)
Lemma createTransaction_raise now d userId service_code err tx :
  createTransaction now d userId service_code = Raise (err, tx) ->
  one_key_drawn_at_most d tx
  /\ ((err = ServiceNotFound /\ tx = d /\ select_service d service_code = None)
      \/ (exists service,
            select_service d service_code = Some service
            /\ ((err = AccountNotFound /\ tx = d
                 /\ select_balance d userId = None)
                \/ exists current,
                     select_balance d userId = Some current
                     /\ ((err = InsufficientBalance /\ tx = d
                          /\ current < s_tariff service)
                         \/ (s_tariff service <= current
                             /\ exists e,
                                  err = Error (sql_error_message e)))))).
Proof.
  assert (Hsame : one_key_drawn_at_most d d) by (split; lia).
  unfold createTransaction.
  destruct (select_service d service_code) as [service|];
    [|intros [= <- <-]; split; [exact Hsame|]; now left].
  intros H.
  enough (Hgoal : one_key_drawn_at_most d tx
                  /\ ((err = AccountNotFound /\ tx = d
                       /\ select_balance d userId = None)
                      \/ exists current,
                           select_balance d userId = Some current
                           /\ ((err = InsufficientBalance /\ tx = d
                                /\ current < s_tariff service)
                               \/ (s_tariff service <= current
                                   /\ exists e,
                                        err = Error (sql_error_message e))))).
  { destruct Hgoal as [Hkeys Hcase]. split; [exact Hkeys|].
    right. exists service. split; [reflexivity | exact Hcase]. }
  destruct (select_balance d userId) as [current|];
    [|injection H as <- <-; split; [exact Hsame|]; now left].
  enough (Hgoal : one_key_drawn_at_most d tx
                  /\ ((err = InsufficientBalance /\ tx = d
                       /\ current < s_tariff service)
                      \/ (s_tariff service <= current
                          /\ exists e, err = Error (sql_error_message e)))).
  { destruct Hgoal as [Hkeys Hcase]. split; [exact Hkeys|].
    right. exists current. split; [reflexivity | exact Hcase]. }
  destruct (Z.ltb_spec current (s_tariff service)) as [Hlt|Hle].
  { injection H as <- <-. split; [exact Hsame|]. now left. }
  enough (Hgoal : one_key_drawn_at_most d tx
                  /\ exists e, err = Error (sql_error_message e)).
  { destruct Hgoal as [Hkeys Hcase]. split; [exact Hkeys|]. now right. }
  destruct (execute (failing_in d
                       (update_balance d userId (current - s_tariff service))))
    as [tx1|[err1 tx']] eqn:E1.
  2:{ injection H as <- <-.
      apply execute_raise in E1 as (e & -> & E1).
      apply failing_in_raise in E1 as [_ ->]. split; [exact Hsame|eauto]. }
  cbn [bind] in H. apply execute_ok, failing_in_ok in E1.
  apply update_balance_sequences in E1 as [Hseq1 Hseq2].
  destruct (execute (failing_in tx1
                       (ledger_entry tx1 now userId "PAYMENT"
                          (Some (s_id service)) (s_name service)
                          (s_tariff service)))) as [entry|[err2 tx']] eqn:E2.
  2:{ injection H as <- <-.
      apply execute_raise in E2 as (e & -> & E2).
      apply failing_in_raise in E2 as [_ ->].
      split; [split; lia | eauto]. }
  cbn [bind] in H.
  destruct (execute (insert_user_transactions (ts_date now) tx1 entry))
    as [[row tx2]|[err3 tx']] eqn:E3; [discriminate|].
  injection H as <- <-.
  apply execute_raise in E3 as (e & -> & E3).
  apply insert_user_transactions_raise in E3 as [_ [Hu Ht]].
  split; [split; lia | eauto].
Qed.

End UnitOfWork.

(** ** The answers of the controllers *)

Section Controllers.

Import Service.

(** C3: a debit that fails leaves the balance and the ledger as they
    were.  Whatever the answer of [createTransaction], if it is not the
    success answer every table holds the rows it held before the request,
    the balance and the ledger among them, and of the sequences only the
    one of the ledger may have moved, by the one key a failed insert has
    drawn; an unknown service code and a balance below the tariff are such
    failures, each with its message, and leave the database as it was
    altogether; and the success answer comes with both writes, the
    balance lowered by the tariff and one new entry of that amount. *)
Theorem failed_debit_leaves_no_trace
  (now : timestamptz) (d : db) (userId : Z) (service_code : string)
  (res : Http.response) (d' : db) :
  Http.createTransaction now d userId service_code = (res, d') ->
  (Http.statusCode res <> 200 ->
   same_rows d d' /\ one_key_drawn_at_most d d')
  /\ (select_service d service_code = None ->
      res = Http.error "Service ataus Layanan tidak ditemukan" 400 102 Http.null
      /\ d' = d)
  /\ (forall service current,
        select_service d service_code = Some service ->
        select_balance d userId = Some current ->
        current < s_tariff service ->
        res = Http.error "Balance tidak mencukupi" 400 102 Http.null
        /\ d' = d)
  /\ (Http.statusCode res = 200 ->
      exists service current row,
        select_service d service_code = Some service
        /\ select_balance d userId = Some current
        /\ select_balance d' userId = Some (current - s_tariff service)
        /\ user_transactions d' = (user_transactions d ++ [row])%list
        /\ t_user_id row = userId /\ t_total_amount row = s_tariff service).
Proof.
  unfold Http.createTransaction, Http.transaction.
  destruct (createTransaction now d userId service_code)
    as [[summary tx]|[err tx]] eqn:E.
  - cbn [Http.toTransactionResponseDTO]. intros [= <- <-].
    apply createTransaction_ok in E
      as (service & current & row & Hs & Hb & Hle & Hb' & Hrows & Hu & Ha & _).
    cbn [Http.statusCode Http.success Http.createResponse].
    split; [intros H; now destruct H|].
    split; [intros Hnone; congruence|].
    split.
    + intros service' current' Hs' Hb'' Hlt.
      rewrite Hs in Hs'. rewrite Hb in Hb''.
      injection Hs' as <-. injection Hb'' as <-. lia.
    + intros _. exists service, current, row. repeat split; assumption.
  - intros Hres.
    assert (Hd : d' = rollback d tx) by (revert Hres; now destruct
      (String.eqb (message err) "Service ataus Layanan tidak ditemukan"),
      (String.eqb (message err) "Balance tidak mencukupi"); intros [= _ <-]).
    subst d'.
    apply createTransaction_raise in E as [Hkeys Hcase].
    split; [intros _; split; [apply rollback_rows | exact Hkeys]|].
    destruct Hcase
      as [(-> & -> & Hs)
         |(service & Hs & [(-> & -> & Hb)
                          |(current & Hb & [(-> & -> & Hlt)
                                           |(Hle & e & ->)])])];
      rewrite ?rollback_same in *;
      cbn [message AccountNotFound ServiceNotFound InsufficientBalance] in Hres.
    + cbn in Hres. injection Hres as <-.
      split; [now split|]. split; [congruence|discriminate].
    + cbn in Hres. injection Hres as <-.
      split; [congruence|]. split; [congruence|discriminate].
    + cbn in Hres. injection Hres as <-.
      split; [congruence|]. split; [now split|discriminate].
    + destruct (sql_error_message_generic e) as (_ & _ & He1 & He2).
      rewrite He1, He2 in Hres. injection Hres as <-.
      split; [congruence|]. split; [|discriminate].
      intros service' current' Hs' Hb' Hlt.
      rewrite Hs in Hs'. rewrite Hb in Hb'.
      injection Hs' as <-. injection Hb' as <-. lia.
Qed.

(** A debit of the service of [a_db] by its user, whose balance is 0. *)
Lemma failed_debit_leaves_no_trace_witness :
  Http.createTransaction a_time a_db 1 "PULSA"
  = (Http.error "Balance tidak mencukupi" 400 102 Http.null, a_db).
Proof.
  destruct (Http.createTransaction a_time a_db 1 "PULSA") as [res d'] eqn:E.
  destruct (failed_debit_leaves_no_trace a_time a_db 1 "PULSA" res d' E)
    as (_ & _ & H & _).
  destruct (H (ServiceRow 1 "PULSA" "Pulsa" "pulsa.png" 40000) 0
              eq_refl eq_refl) as [-> ->]; [cbn; lia|reflexivity].
Defined.

End Controllers.

(** ** Integers held in Numbers *)

Section Numbers.

Lemma round_to_53_bits_safe z :
  0 <= z < 2 ^ 53 -> Js.round_to_53_bits z = z.
Proof.
  intros Hz. unfold Js.round_to_53_bits.
  destruct (Z.leb_spec (Z.log2 z - 52) 0) as [|He]; [reflexivity|].
  assert (Z.log2 z < 53); [|lia].
  destruct (Z.eq_dec z 0) as [->|]; [reflexivity|].
  apply Z.log2_lt_pow2; lia.
Qed.

Lemma round_to_53_bits_pos z : 0 < z -> 0 < Js.round_to_53_bits z.
Proof.
  intros Hz. unfold Js.round_to_53_bits.
  destruct (Z.leb_spec (Z.log2 z - 52) 0) as [|He]; [exact Hz|].
  set (e := Z.log2 z - 52) in *.
  rewrite Z.shiftl_mul_pow2 by lia.
  assert (Hp : 0 < 2 ^ e) by (apply Z.pow_pos_nonneg; lia).
  assert (Hm : 0 < Z.shiftr z e).
  { rewrite Z.shiftr_div_pow2 by lia. apply Z.div_str_pos. split; [exact Hp|].
    transitivity (2 ^ Z.log2 z); [|apply Z.log2_spec; exact Hz].
    apply Z.pow_le_mono_r; lia. }
  apply Z.mul_pos_pos; [|exact Hp].
  destruct (_ || _); lia.
Qed.

Lemma number_of_integer_safe z :
  Z.abs z < 2 ^ 53 -> Js.number_of_integer z = Some z.
Proof.
  intros Hz. unfold Js.number_of_integer.
  rewrite round_to_53_bits_safe by lia.
  destruct (Z.ltb_spec (Z.abs z) (2 ^ 1024)) as [_|H].
  - f_equal. lia.
  - assert (2 ^ 53 <= 2 ^ 1024) by (apply Z.pow_le_mono_r; lia). lia.
Qed.

Lemma number_of_integer_pos z x :
  0 < z -> Js.number_of_integer z = Some x -> 0 < x.
Proof.
  intros Hz. unfold Js.number_of_integer.
  destruct (_ <? _); [|discriminate]. intros [= <-].
  rewrite Z.abs_eq by lia. rewrite Z.sgn_pos by exact Hz.
  pose proof (round_to_53_bits_pos z Hz). lia.
Qed.

Lemma number_of_integer_neg z x :
  z < 0 -> Js.number_of_integer z = Some x -> x < 0.
Proof.
  intros Hz. unfold Js.number_of_integer.
  destruct (_ <? _); [|discriminate]. intros [= <-].
  rewrite Z.sgn_neg by exact Hz.
  pose proof (round_to_53_bits_pos (Z.abs z)). lia.
Qed.

Lemma number_of_integer_0 : Js.number_of_integer 0 = Some 0.
Proof. reflexivity. Qed.

(** Reading an integer as a Number keeps its place with respect to 0 and
    to 1. *)
Lemma not_below_0 z : Http.not_below 0 z = (0 <=? z).
Proof.
  unfold Http.not_below.
  destruct (Z.lt_trichotomy z 0) as [Hz|[->|Hz]]; [| reflexivity |].
  - destruct (Js.number_of_integer z) as [x|] eqn:Ex.
    + pose proof (number_of_integer_neg z x Hz Ex).
      destruct (Z.leb_spec 0 x), (Z.leb_spec 0 z); lia || reflexivity.
    + destruct (Z.ltb_spec 0 z), (Z.leb_spec 0 z); lia || reflexivity.
  - destruct (Js.number_of_integer z) as [x|] eqn:Ex.
    + pose proof (number_of_integer_pos z x Hz Ex).
      destruct (Z.leb_spec 0 x), (Z.leb_spec 0 z); lia || reflexivity.
    + destruct (Z.ltb_spec 0 z), (Z.leb_spec 0 z); lia || reflexivity.
Qed.

Lemma not_below_1 z : Http.not_below 1 z = (1 <=? z).
Proof.
  unfold Http.not_below.
  destruct (Z.lt_trichotomy z 0) as [Hz|[->|Hz]]; [| reflexivity |].
  - destruct (Js.number_of_integer z) as [x|] eqn:Ex.
    + pose proof (number_of_integer_neg z x Hz Ex).
      destruct (Z.leb_spec 1 x), (Z.leb_spec 1 z); lia || reflexivity.
    + destruct (Z.ltb_spec 0 z), (Z.leb_spec 1 z); lia || reflexivity.
  - destruct (Js.number_of_integer z) as [x|] eqn:Ex.
    + pose proof (number_of_integer_pos z x Hz Ex).
      destruct (Z.leb_spec 1 x), (Z.leb_spec 1 z); lia || reflexivity.
    + destruct (Z.ltb_spec 0 z), (Z.leb_spec 1 z); lia || reflexivity.
Qed.

Lemma not_above_0 z : Http.not_above 0 z = (z <=? 0).
Proof.
  unfold Http.not_above.
  destruct (Z.lt_trichotomy z 0) as [Hz|[->|Hz]]; [| reflexivity |].
  - destruct (Js.number_of_integer z) as [x|] eqn:Ex.
    + pose proof (number_of_integer_neg z x Hz Ex).
      destruct (Z.leb_spec x 0), (Z.leb_spec z 0); lia || reflexivity.
    + destruct (Z.ltb_spec z 0), (Z.leb_spec z 0); lia || reflexivity.
  - destruct (Js.number_of_integer z) as [x|] eqn:Ex.
    + pose proof (number_of_integer_pos z x Hz Ex).
      destruct (Z.leb_spec x 0), (Z.leb_spec z 0); lia || reflexivity.
    + destruct (Z.ltb_spec z 0), (Z.leb_spec z 0); lia || reflexivity.
Qed.

Lemma parseInt_of_number_digits x :
  Z.abs x < 10 ^ 21 -> Js.parseInt_of_number x = x.
Proof.
  intros Hx. unfold Js.parseInt_of_number.
  destruct (Z.ltb_spec (Z.abs x) (10 ^ 21)); [reflexivity|lia].
Qed.

End Numbers.

(** ** Credits *)

Section Credits.

Import Service.

(** What a credit that returns has done. *)
Lemma topUpBalance_ok now d userId amount new_amount d' :
  topUpBalance now d userId amount = Ok (new_amount, d') ->
  exists current row,
    select_balance d userId = Some current
    /\ new_amount = current + amount
    /\ user_balance d'
       = map (fun b => if b_user_id b =? userId
                       then BalanceRow (b_user_id b) new_amount else b)
             (user_balance d)
    /\ user_transactions d' = (user_transactions d ++ [row])%list
    /\ t_user_id row = userId /\ t_total_amount row = amount.
Proof.
  unfold topUpBalance.
  destruct (select_balance d userId) as [current|] eqn:Eb; [|discriminate].
  destruct (execute (failing_in d (update_balance d userId (current + amount))))
    as [tx1|] eqn:E1; [|discriminate].
  cbn [bind]. apply execute_ok, failing_in_ok in E1.
  destruct (execute (failing_in tx1
                       (ledger_entry tx1 now userId "TOPUP" None
                          "Top Up balance" amount))) as [entry|] eqn:E2;
    [|discriminate].
  cbn [bind]. apply execute_ok, failing_in_ok in E2.
  destruct (execute (insert_user_transactions (ts_date now) tx1 entry))
    as [[row tx2]|] eqn:E3; [|discriminate].
  cbn [bind]. apply execute_ok in E3. intros [= <- <-].
  apply update_balance_effect in E1 as [Hrows1 Hbal1].
  apply insert_user_transactions_effect in E3
    as (Hrows2 & Hbal2 & Hu & Ha & _).
  unfold ledger_entry in E2.
  destruct (select_transaction_type tx1 "TOPUP"); [|discriminate].
  injection E2 as <-. cbn in Hu, Ha.
  exists current, row. repeat split; try assumption; try reflexivity.
  - now rewrite Hbal2.
  - now rewrite Hrows2, Hrows1.
Qed.

(** What a failed credit throws, and how far it has come. *)
Lemma topUpBalance_raise now d userId amount err tx :
  topUpBalance now d userId amount = Raise (err, tx) ->
  one_key_drawn_at_most d tx
  /\ ((err = AccountNotFound /\ tx = d /\ select_balance d userId = None)
      \/ (exists current e,
            select_balance d userId = Some current
            /\ err = Error (sql_error_message e))).
Proof.
  assert (Hsame : one_key_drawn_at_most d d) by (split; lia).
  unfold topUpBalance.
  destruct (select_balance d userId) as [current|];
    [|intros [= <- <-]; split; [exact Hsame|]; now left].
  intros H.
  enough (Hgoal : one_key_drawn_at_most d tx
                  /\ exists e, err = Error (sql_error_message e)).
  { destruct Hgoal as [Hkeys [e He]]. split; [exact Hkeys|].
    right. exists current, e. now split. }
  destruct (execute (failing_in d (update_balance d userId (current + amount))))
    as [tx1|[err1 tx']] eqn:E1.
  2:{ injection H as <- <-.
      apply execute_raise in E1 as (e & -> & E1).
      apply failing_in_raise in E1 as [_ ->]. split; [exact Hsame|eauto]. }
  cbn [bind] in H. apply execute_ok, failing_in_ok in E1.
  apply update_balance_sequences in E1 as [Hseq1 Hseq2].
  destruct (execute (failing_in tx1
                       (ledger_entry tx1 now userId "TOPUP" None
                          "Top Up balance" amount)))
    as [entry|[err2 tx']] eqn:E2.
  2:{ injection H as <- <-.
      apply execute_raise in E2 as (e & -> & E2).
      apply failing_in_raise in E2 as [_ ->].
      split; [split; lia | eauto]. }
  cbn [bind] in H.
  destruct (execute (insert_user_transactions (ts_date now) tx1 entry))
    as [[row tx2]|[err3 tx']] eqn:E3; [discriminate|].
  injection H as <- <-.
  apply execute_raise in E3 as (e & -> & E3).
  apply insert_user_transactions_raise in E3 as [_ [Hu Ht]].
  split; [split; lia | eauto].
Qed.

(** The amounts [validateTopUp] lets through. *)
Lemma validateTopUp_passes top_up_amount :
  Http.validateTopUp top_up_amount = [] ->
  exists amount, integer_parameter top_up_amount = Ok amount /\ 0 < amount.
Proof.
  unfold Http.validateTopUp, Http.chain_error, Http.isInt, Http.notEmpty,
    Http.le_0, Http.written_in_digits.
  destruct top_up_amount as [| |z|z|b]; try discriminate;
    cbn beta iota; rewrite not_below_0, not_above_0.
  - destruct (Z.leb_spec 0 z); [|discriminate].
    destruct (Z.leb_spec z 0); [discriminate|].
    intros _. exists z. split; [reflexivity | lia].
  - cbn [integer_parameter app].
    destruct (Js.number_of_integer z) as [x|] eqn:Ex; [|discriminate].
    destruct (Z.abs x <? 10 ^ 21); [|discriminate].
    destruct (Z.leb_spec 0 z); [|discriminate].
    destruct (Z.leb_spec z 0); [discriminate|].
    intros _. exists x. split; [reflexivity|].
    apply (number_of_integer_pos z); [lia | exact Ex].
Qed.

End Credits.

(** ** Sequences of credits and debits *)

Section NoOverdraft.

Import Service.

Lemma select_balance_in d userId current :
  select_balance d userId = Some current ->
  exists b, In b (user_balance d) /\ b_balance b = current.
Proof.
  unfold select_balance.
  destruct (find _ (user_balance d)) as [b|] eqn:E; [|discriminate].
  intros [= <-]. apply find_some in E as [Hin _]. eauto.
Qed.

Lemma select_balance_no_overdraft d userId current :
  no_overdraft d -> select_balance d userId = Some current -> 0 <= current.
Proof.
  intros Hd Hsel. apply select_balance_in in Hsel as (b & Hin & <-).
  unfold no_overdraft in Hd. rewrite List.Forall_forall in Hd. now apply Hd.
Qed.

Lemma no_overdraft_update d d' userId new_amount :
  no_overdraft d -> 0 <= new_amount ->
  user_balance d'
  = map (fun b => if b_user_id b =? userId
                  then BalanceRow (b_user_id b) new_amount else b)
        (user_balance d) ->
  no_overdraft d'
  /\ map b_user_id (user_balance d') = map b_user_id (user_balance d).
Proof.
  unfold no_overdraft. intros Hd Hnew ->. split.
  - induction Hd as [|b bs Hb _ IH]; [constructor|].
    cbn [map]. constructor; [|exact IH].
    now destruct (b_user_id b =? userId).
  - rewrite map_map. apply map_ext. intros b.
    now destruct (b_user_id b =? userId).
Qed.

Lemma select_balance_same_ids d d' userId :
  map b_user_id (user_balance d') = map b_user_id (user_balance d) ->
  is_Some (select_balance d userId) -> is_Some (select_balance d' userId).
Proof.
  unfold select_balance. intros Hids.
  generalize dependent (user_balance d'). 
  induction (user_balance d) as [|b bs IH]; intros l' Hids [x Hx];
    [discriminate|].
  destruct l' as [|b' bs']; [discriminate|].
  cbn [map] in Hids. injection Hids as Hid Hids.
  cbn [find] in *. rewrite Hid.
  destruct (b_user_id b =? userId); [now eexists|].
  apply IH; [exact Hids | now exists x].
Qed.

(** One request keeps the balances at or above 0 and the balance rows in
    place. *)
Lemma serve_no_overdraft now d r :
  no_overdraft d ->
  no_overdraft (snd (serve now d r))
  /\ map b_user_id (user_balance (snd (serve now d r)))
     = map b_user_id (user_balance d).
Proof.
  intros Hd.
  assert (Hrolled_back : forall tx res1 res2 res3 (b1 b2 : bool),
            user_balance
              (snd (if b1 then (res1, rollback d tx)
                    else if b2 then (res2, rollback d tx)
                    else (res3 : Http.response, rollback d tx)))
            = user_balance d)
    by (now intros ? ? ? ? [] []).
  destruct r as [userId top_up_amount|userId service_code]; cbn [serve].
  - unfold Http.post_topup.
    destruct (Http.validateTopUp top_up_amount) as [|msg errors] eqn:Ev;
      cbn [Http.handleValidationErrors]; [|now split].
    apply validateTopUp_passes in Ev as (amount & Hamount & Hpos).
    unfold Http.topUp, Http.transaction. rewrite Hamount. cbn [bind failing_in].
    destruct (topUpBalance now d userId amount)
      as [[new_amount tx]|[err tx]] eqn:E.
    + cbn [Http.toTopUpResponseDTO snd].
      apply topUpBalance_ok in E as (current & row & Hb & -> & Hbal & _).
      eapply no_overdraft_update; [exact Hd| |exact Hbal].
      pose proof (select_balance_no_overdraft d userId current Hd Hb). lia.
    + unfold no_overdraft in *. rewrite !Hrolled_back. now split.
  - unfold Http.createTransaction, Http.transaction.
    destruct (createTransaction now d userId service_code)
      as [[summary tx]|[err tx]] eqn:E.
    + cbn [Http.toTransactionResponseDTO snd].
      apply createTransaction_ok in E
        as (service & current & row & _ & Hb & Hle & _ & _ & _ & _ & _ & _
            & Hbal).
      eapply no_overdraft_update; [exact Hd| |exact Hbal]. lia.
    + unfold no_overdraft in *. rewrite !Hrolled_back. now split.
Qed.

(** C5: no sequence of credit and debit requests overdraws a balance.
    From a database whose balances are at or above 0, as the zero balance
    of a new identity is, every state the requests lead through has all
    its balances at or above 0, and an identity that has its balance row
    keeps it, with an amount at or above 0. *)
Theorem balance_never_negative
  (d : db) (requests : list (timestamptz * ledger_request)) :
  no_overdraft d ->
  Forall no_overdraft (serve_all d requests)
  /\ forall userId,
       is_Some (select_balance d userId) ->
       Forall (fun d' => exists current,
                 select_balance d' userId = Some current /\ 0 <= current)
              (serve_all d requests).
Proof.
  revert d. induction requests as [|[now r] requests IH]; intros d Hd.
  - split; [constructor|]. intros; constructor.
  - cbn [serve_all].
    destruct (serve_no_overdraft now d r Hd) as [Hd' Hids].
    destruct (IH _ Hd') as [IH1 IH2].
    split; [now constructor|]. intros userId Hsome.
    pose proof (select_balance_same_ids d _ userId Hids Hsome) as [c Hc].
    constructor.
    + exists c. split; [exact Hc|].
      eapply select_balance_no_overdraft; eassumption.
    + apply IH2. now exists c.
Qed.

Lemma balance_never_negative_witness :
  no_overdraft a_db
  /\ map (fun d' => select_balance d' 1) (serve_all a_db a_session)
     = [Some 50000; Some 10000; Some 10000]
  /\ Forall no_overdraft (serve_all a_db a_session).
Proof.
  assert (H : no_overdraft a_db) by (repeat constructor; cbn; lia).
  split; [exact H|]. split; [vm_compute; reflexivity|].
  exact (proj1 (balance_never_negative a_db a_session H)).
Defined.

End NoOverdraft.

(** ** The history *)

Section History.

Import Service.

Lemma timestamptz_compare_Lt x y :
  timestamptz_compare x y = Lt <-> ts_before x y.
Proof.
  destruct x as [[y1 m1 d1] t1], y as [[y2 m2 d2] t2].
  unfold timestamptz_compare, date_compare, ts_before.
  cbn [ts_date ts_time year month day].
  destruct (Z.compare_spec y1 y2); [|split; [lia|reflexivity]
                                    |split; [discriminate|lia]].
  destruct (Z.compare_spec m1 m2); [|split; [lia|reflexivity]
                                    |split; [discriminate|lia]].
  destruct (Z.compare_spec d1 d2); [|split; [lia|reflexivity]
                                    |split; [discriminate|lia]].
  destruct (Z.compare_spec t1 t2);
    [split; [discriminate|lia] |split; [lia|reflexivity]
    |split; [discriminate|lia]].
Qed.

(** [created_on_desc a b] says that [a] is NULL, or that neither is and
    [a] is not before [b]. *)
Lemma created_on_desc_spec a b :
  created_on_desc a b = true
  <-> match a, b with
      | None, _ => True
      | Some _, None => False
      | Some x, Some y => ~ ts_before x y
      end.
Proof.
  unfold created_on_desc. destruct a as [x|], b as [y|]; try easy.
  rewrite <- timestamptz_compare_Lt.
  destruct (timestamptz_compare x y); split; try easy.
Qed.

#[local] Instance newer_first_total : Total newer_first.
Proof.
  intros r1 r2. unfold newer_first. rewrite !created_on_desc_spec.
  destruct (t_created_on r1) as [x|], (t_created_on r2) as [y|]; auto.
  unfold ts_before. lia.
Qed.

#[local] Instance newer_first_transitive : Transitive newer_first.
Proof.
  intros r1 r2 r3. unfold newer_first. rewrite !created_on_desc_spec.
  destruct (t_created_on r1) as [x|], (t_created_on r2) as [y|],
    (t_created_on r3) as [z|]; try easy.
  unfold ts_before. lia.
Qed.

Lemma safe_below_1e21 z : Z.abs z < 2 ^ 53 -> Z.abs z < 10 ^ 21.
Proof.
  intros H. eapply Z.lt_trans; [exact H|]. reflexivity.
Qed.

(** What [toInt] and the [parseInt] of the controller make of a member
    that writes an integer a Number holds as it is. *)
Lemma parseInt_toInt_safe v :
  safe_integer v ->
  match v with
  | integer z | number z => Http.parseInt (Http.toInt v) = Http.Num z
  | _ => Http.parseInt (Http.toInt v) = Http.NaN
  end.
Proof.
  destruct v as [| |z|z|b]; try reflexivity; cbn [safe_integer]; intros Hz;
    unfold Http.toInt, Http.parseInt, Http.parseInt_of_digits;
    rewrite (number_of_integer_safe z Hz);
    cbn [Http.parseInt_of_number];
    rewrite ?(parseInt_of_number_digits z (safe_below_1e21 z Hz));
    reflexivity.
Qed.

Lemma validateTransactionHistory_passes offset limit :
  Http.validateTransactionHistory offset limit = [] ->
  (offset = absent \/ exists z, (offset = integer z \/ offset = number z)
                                /\ 0 <= z)
  /\ (limit = absent \/ exists z, (limit = integer z \/ limit = number z)
                                  /\ 1 <= z).
Proof.
  unfold Http.validateTransactionHistory, Http.chain_error, Http.isInt.
  destruct offset as [| |o|o|bo], limit as [| |l|l|bl]; try discriminate;
    cbn beta iota; rewrite ?not_below_0, ?not_below_1;
    repeat match goal with
           | |- context [Http.written_in_digits ?z] =>
               destruct (Http.written_in_digits z)
           end; try discriminate; cbn [andb];
    repeat match goal with
           | |- context [?a <=? ?b] => destruct (Z.leb_spec a b)
           end; try discriminate; intros _; split; eauto 6.
Qed.

(** The offset and the limit the controller makes of a query that passed
    validation, when a Number holds its members as they are: the integers
    the query writes, 0 and 5 for what it leaves out. *)
Lemma query_numbers_of_safe_integers offset limit :
  Http.validateTransactionHistory offset limit = [] ->
  safe_integer offset -> safe_integer limit ->
  Http.or_else (Http.parseInt (Http.toInt offset)) (Http.Num 0)
  = Http.Num (field_or offset 0)
  /\ (if Http.truthy (Http.toInt limit)
      then Http.parseInt (Http.toInt limit) else Http.Num 5)
     = Http.Num (field_or limit 5)
  /\ 0 <= field_or offset 0 < 2 ^ 53 /\ 1 <= field_or limit 5 < 2 ^ 53.
Proof.
  intros Hvalid Hsafe_offset Hsafe_limit.
  apply validateTransactionHistory_passes in Hvalid as [Hoff Hlim].
  split; [|split; [|split]].
  - pose proof (parseInt_toInt_safe offset Hsafe_offset) as Hp.
    destruct Hoff as [->|(z & [-> | ->] & Hz)]; [reflexivity| |];
      rewrite Hp; cbn [Http.or_else field_or];
      destruct (Z.eqb_spec z 0); congruence.
  - pose proof (parseInt_toInt_safe limit Hsafe_limit) as Hp.
    destruct Hlim as [->|(z & [-> | ->] & Hz)]; [reflexivity| |];
      rewrite Hp; cbn [safe_integer] in Hsafe_limit;
      unfold Http.toInt, Http.parseInt_of_digits;
      rewrite (number_of_integer_safe z Hsafe_limit);
      cbn [Http.parseInt_of_number Http.truthy field_or];
      rewrite ?(parseInt_of_number_digits z (safe_below_1e21 z Hsafe_limit));
      destruct (Z.eqb_spec z 0); [lia|reflexivity|lia|reflexivity].
  - destruct Hoff as [->|(z & [-> | ->] & Hz)];
      cbn [field_or safe_integer] in *; lia.
  - destruct Hlim as [->|(z & [-> | ->] & Hz)];
      cbn [field_or safe_integer] in *; lia.
Qed.

Lemma number_parameter_safe z :
  Z.abs z < 2 ^ 53 -> Http.number_parameter (Http.Num z) = Ok z.
Proof.
  intros Hz. unfold Http.number_parameter.
  pose proof (safe_below_1e21 z Hz).
  destruct (Z.ltb_spec (Z.abs z) (10 ^ 21)); [reflexivity|lia].
Qed.

(** The history read for a query whose members a Number holds as they
    are.  When such a query passes validation the answer is the success
    answer; it reports offset 0 and limit 5 for the members that were not
    sent; its records are the window of [limit] entries after the first
    [offset] of the entries of the identity put newest first, so they are
    themselves newest first and at most [limit]; and an offset at or
    beyond the number of entries gives the empty list of records, in a
    success answer still. *)
Lemma history_window_newest_first
  (d : db) (userId : Z) (offset limit : field) :
  Http.validateTransactionHistory offset limit = [] ->
  safe_integer offset -> safe_integer limit ->
  exists rows records,
    Http.get_transaction_history d userId offset limit
    = Http.success "Get History Berhasil"
        (Http.history_dto (field_or offset 0) (field_or limit 5) records)
    /\ rows ≡ₚ entries_of d userId
    /\ StronglySorted newer_first rows
    /\ records
       = map (to_history_record d)
           (take (Z.to_nat (field_or limit 5))
                 (drop (Z.to_nat (field_or offset 0)) rows))
    /\ StronglySorted record_newer_first records
    /\ (length records <= Z.to_nat (field_or limit 5))%nat
    /\ ((length (entries_of d userId) <= Z.to_nat (field_or offset 0))%nat ->
        records = []).
Proof.
  intros Hvalid Hsafe_offset Hsafe_limit.
  unfold Http.get_transaction_history. rewrite Hvalid.
  cbn [Http.handleValidationErrors].
  destruct (query_numbers_of_safe_integers offset limit Hvalid Hsafe_offset
              Hsafe_limit) as (Hoffset & Hlimit & Hoff & Hlim).
  set (rows := merge_sort newer_first (entries_of d userId)).
  exists rows.
  exists (map (to_history_record d)
            (take (Z.to_nat (field_or limit 5))
                  (drop (Z.to_nat (field_or offset 0)) rows))).
  assert (Hperm : rows ≡ₚ entries_of d userId)
    by apply merge_sort_Permutation.
  assert (Hsorted : StronglySorted newer_first rows)
    by apply (StronglySorted_merge_sort newer_first).
  split.
  { unfold Http.getTransactionHistory. rewrite Hoffset, Hlimit.
    rewrite !number_parameter_safe by lia. reflexivity. }
  split; [exact Hperm|]. split; [exact Hsorted|]. split; [reflexivity|].
  split; [|split].
  - apply (StronglySorted_fmap (to_history_record d) newer_first).
    + intros x y Hxy. exact Hxy.
    + rewrite <- (take_drop (Z.to_nat (field_or offset 0)) rows) in Hsorted.
      apply StronglySorted_app_1_r in Hsorted.
      rewrite <- (take_drop (Z.to_nat (field_or limit 5))
                    (drop (Z.to_nat (field_or offset 0)) rows)) in Hsorted.
      now apply StronglySorted_app_1_l in Hsorted.
  - rewrite length_map, length_take. lia.
  - intros Hlen. rewrite drop_ge; [now rewrite take_nil|].
    now rewrite Hperm.
Qed.

(** The controller of the history over the service of the spec. *)
Lemma getTransactionHistory_controller d userId query_offset query_limit :
  Http.getTransactionHistory d userId query_offset query_limit
  = Controller.getTransactionHistory Controller.getTransactionHistory_at d
      userId query_offset query_limit.
Proof.
  unfold Http.getTransactionHistory, Controller.getTransactionHistory,
    Controller.getTransactionHistory_at.
  destruct (Http.number_parameter
              (Http.or_else (Http.parseInt query_offset) (Http.Num 0)));
    [|reflexivity].
  cbn [bind failing_in].
  destruct (Http.number_parameter
              (if Http.truthy query_limit then Http.parseInt query_limit
               else Http.Num 5)); reflexivity.
Qed.

(** X21: what the controller of the history asks the service for.  For a
    query that passed validation and whose offset and limit are below
    [2 ^ 53], whatever the service, it is called with the offset and the
    limit the query writes, 0 and 5 standing in for what the query leaves
    out; an error it throws is answered 500 with [Internal server error],
    as is a result that is [null], and any other result is answered 200
    with the offset, the limit and the records it holds. *)
Theorem history_query_passed_on
  (service : db -> Z -> Http.js_number -> Http.js_number
             -> result js_error (option history))
  (d : db) (userId : Z) (offset limit : field) :
  Http.validateTransactionHistory offset limit = [] ->
  safe_integer offset -> safe_integer limit ->
  Controller.getTransactionHistory service d userId (Http.toInt offset)
    (Http.toInt limit)
  = match service d userId (Http.Num (field_or offset 0))
            (Http.Num (field_or limit 5)) with
    | Ok (Some h) =>
        Http.Response 200 0 "Get History Berhasil"
          (Http.history_dto (hist_offset h) (hist_limit h) (hist_records h))
    | Ok None | Raise _ =>
        Http.Response 500 100 "Internal server error" Http.null
    end.
Proof.
  intros Hvalid Hsafe_offset Hsafe_limit.
  destruct (query_numbers_of_safe_integers offset limit Hvalid Hsafe_offset
              Hsafe_limit) as (Hoffset & Hlimit & _).
  unfold Controller.getTransactionHistory. rewrite Hoffset, Hlimit.
  destruct (service d userId (Http.Num (field_or offset 0))
              (Http.Num (field_or limit 5))) as [[h|]|err]; reflexivity.
Qed.

Lemma history_query_passed_on_witness :
  Controller.getTransactionHistory
    (fun _ _ offset limit =>
       match offset, limit with
       | Http.Num o, Http.Num l => Ok (Some (History o l []))
       | _, _ => Ok None
       end)
    a_db 1 (Http.toInt (integer 20)) (Http.toInt absent)
  = Http.Response 200 0 "Get History Berhasil" (Http.history_dto 20 5 []).
Proof.
  rewrite (history_query_passed_on _ a_db 1 (integer 20) absent);
    [reflexivity | reflexivity | | exact I].
  cbn [safe_integer]. reflexivity.
Defined.

(** What [toInt] leaves in the query for the digits of [10 ^ 21], and what
    [parseInt] of the controller then reads. *)
Lemma toInt_1e21 :
  Http.toInt (integer (10 ^ 21)) = Some (Http.Num (10 ^ 21)).
Proof. vm_compute. reflexivity. Qed.

Lemma parseInt_1e21 :
  Http.parseInt (Some (Http.Num (10 ^ 21))) = Http.Num 1.
Proof. vm_compute. reflexivity. Qed.

(** C6, at the offset [1000000000000000000000]: the history read does not
    skip [offset] entries, and gives entries where the offset is beyond
    their number.  The digits pass [isInt({ min: 0 })]; [toInt] leaves the
    Number [1e21] in the query, which [parseInt] of the controller reads
    as [String] writes it, with an exponent, that is as 1.  Whatever the
    service, it is asked what the query with offset 1 asks; with the
    history of the spec the answer reports offset 1, and its records are
    the entries of the identity after the newest one: not none, when the
    identity has two entries or more. *)
Theorem history_offset_read_as_exponent (d : db) (userId : Z) :
  Http.validateTransactionHistory (integer (10 ^ 21)) absent = []
  /\ (forall service,
        Controller.getTransactionHistory service d userId
          (Http.toInt (integer (10 ^ 21))) (Http.toInt absent)
        = Controller.getTransactionHistory service d userId
            (Http.toInt (integer 1)) (Http.toInt absent))
  /\ Http.get_transaction_history d userId (integer (10 ^ 21)) absent
     = Http.success "Get History Berhasil"
         (Http.history_dto 1 5
            (map (to_history_record d)
               (take 5 (drop 1 (merge_sort newer_first
                                  (entries_of d userId))))))
  /\ ((2 <= length (entries_of d userId))%nat ->
      map (to_history_record d)
        (take 5 (drop 1 (merge_sort newer_first (entries_of d userId))))
      <> []).
Proof.
  assert (Hvalid : Http.validateTransactionHistory (integer (10 ^ 21)) absent
                   = []) by (vm_compute; reflexivity).
  split; [exact Hvalid|]. split; [|split].
  - intros service. unfold Controller.getTransactionHistory.
    rewrite toInt_1e21, parseInt_1e21. reflexivity.
  - unfold Http.get_transaction_history. rewrite Hvalid.
    cbn [Http.handleValidationErrors].
    unfold Http.getTransactionHistory.
    rewrite toInt_1e21, parseInt_1e21. reflexivity.
  - intros Hlen.
    pose proof (merge_sort_Permutation newer_first (entries_of d userId))
      as Hperm.
    apply Permutation_length in Hperm.
    destruct (merge_sort newer_first (entries_of d userId))
      as [|r1 [|r2 rows]]; cbn [length] in Hperm; try lia.
    discriminate.
Qed.

(** The user of [a_db_2] has two entries; asked for the history from
    offset [10 ^ 21], the answer holds the older of the two. *)
Lemma history_offset_read_as_exponent_witness :
  length (entries_of a_db_2 1) = 2%nat
  /\ Http.get_transaction_history a_db_2 1 (integer (10 ^ 21)) absent
     = Http.success "Get History Berhasil"
         (Http.history_dto 1 5
            [HistoryRecord "INV17082023-001" (Some "TOPUP") "Top Up balance"
               50000 (Some a_time)]).
Proof.
  split; [vm_compute; reflexivity|].
  rewrite (proj1 (proj2 (proj2 (history_offset_read_as_exponent a_db_2 1)))).
  vm_compute. reflexivity.
Defined.

End History.

(** ** Sequence values of any size *)

Section SequenceDigits.

Lemma digit_char_code d :
  0 <= d < 10 -> nat_of_ascii (digit_char d) = (48 + Z.to_nat d)%nat.
Proof.
  intros Hd. unfold digit_char. apply nat_ascii_embedding. lia.
Qed.

Lemma digit_value_char d : 0 <= d < 10 -> digit_value (digit_char d) = d.
Proof.
  intros Hd. unfold digit_value. rewrite digit_char_code by exact Hd. lia.
Qed.

Lemma is_digit_char d : 0 <= d < 10 -> is_digit (digit_char d) = true.
Proof.
  intros Hd. unfold is_digit. rewrite digit_char_code by exact Hd.
  apply andb_true_intro. split; apply Nat.leb_le; lia.
Qed.

Lemma all_digits_digits_of fuel : forall n acc,
  0 <= n -> all_digits (digits_of fuel n acc) = all_digits acc.
Proof.
  induction fuel as [|fuel IH]; intros n acc Hn; [reflexivity|].
  cbn [digits_of].
  assert (Hd : is_digit (digit_char (n mod 10)) = true)
    by (apply is_digit_char, Z.mod_pos_bound; lia).
  destruct (n <? 10).
  - cbn [all_digits]. now rewrite Hd.
  - rewrite IH by (apply Z.div_pos; lia). cbn [all_digits]. now rewrite Hd.
Qed.

Lemma digits_value_digits_of fuel : forall n acc,
  0 <= n < 10 ^ Z.of_nat fuel ->
  digits_value (digits_of fuel n acc) 0 = digits_value acc n.
Proof.
  induction fuel as [|fuel IH]; intros n acc Hn.
  - cbn in Hn. cbn [digits_of]. f_equal. lia.
  - cbn [digits_of]. destruct (Z.ltb_spec n 10) as [Hlt|Hge].
    + cbn [digits_value]. rewrite Z.mod_small by lia.
      rewrite digit_value_char by lia. f_equal.
    + rewrite IH.
      * cbn [digits_value].
        rewrite digit_value_char by (apply Z.mod_pos_bound; lia).
        f_equal. pose proof (Z.div_mod n 10). lia.
      * split; [apply Z.div_pos; lia|].
        apply Z.div_lt_upper_bound; [lia|].
        rewrite Nat2Z.inj_succ, Z.pow_succ_r in Hn by lia. lia.
Qed.

Lemma length_digits_of fuel n acc :
  (String.length acc < String.length (digits_of (S fuel) n acc))%nat.
Proof.
  revert n acc. induction fuel as [|fuel IH]; intros n acc.
  - cbn [digits_of]. destruct (n <? 10); cbn [String.length]; lia.
  - change (digits_of (S (S fuel)) n acc)
      with (let acc' := String (digit_char (n mod 10)) acc in
            if n <? 10 then acc' else digits_of (S fuel) (n / 10) acc').
    cbn zeta. destruct (n <? 10); [cbn [String.length]; lia|].
    specialize (IH (n / 10) (String (digit_char (n mod 10)) acc)).
    cbn [String.length] in IH. lia.
Qed.

Lemma enough_fuel n :
  0 <= n -> n < 10 ^ Z.of_nat (S (Z.to_nat (Z.log2 n))).
Proof.
  intros Hn. destruct (Z.eq_dec n 0) as [->|Hne]; [reflexivity|].
  rewrite Nat2Z.inj_succ, Z2Nat.id by apply Z.log2_nonneg.
  destruct (Z.log2_spec n) as [_ Hlt]; [lia|].
  eapply Z.lt_le_trans; [exact Hlt|].
  apply Z.pow_le_mono_l. pose proof (Z.log2_nonneg n). lia.
Qed.

Lemma int_text_digits n :
  0 <= n ->
  all_digits (int_text n) = true /\ digits_value (int_text n) 0 = n
  /\ (0 < String.length (int_text n))%nat.
Proof.
  intros Hn. unfold int_text.
  destruct (Z.ltb_spec n 0) as [|_]; [lia|].
  split; [|split].
  - now rewrite all_digits_digits_of.
  - rewrite digits_value_digits_of; [reflexivity|].
    split; [exact Hn | now apply enough_fuel].
  - pose proof (length_digits_of (Z.to_nat (Z.log2 n)) n ""). cbn in *. lia.
Qed.

Lemma int_text_long n :
  1000 <= n -> (3 < String.length (int_text n))%nat.
Proof.
  intros Hn. unfold int_text.
  destruct (Z.ltb_spec n 0) as [|_]; [lia|].
  assert (Hlog : 9 <= Z.log2 n).
  { change 9 with (Z.log2 1000). apply Z.log2_le_mono. lia. }
  destruct (Z.to_nat (Z.log2 n)) as [|[|[|fuel]]] eqn:E; try lia.
  assert (H1 : (n <? 10) = false) by (apply Z.ltb_ge; lia).
  assert (H2 : (n / 10 <? 10) = false).
  { apply Z.ltb_ge. apply Z.div_le_lower_bound; lia. }
  assert (H3 : (n / 10 / 10 <? 10) = false).
  { apply Z.ltb_ge. apply Z.div_le_lower_bound; [lia|].
    apply Z.div_le_lower_bound; lia. }
  change (digits_of (S (S (S (S fuel)))) n "")
    with (if n <? 10 then String (digit_char (n mod 10)) ""
          else if n / 10 <? 10
          then String (digit_char (n / 10 mod 10))
                 (String (digit_char (n mod 10)) "")
          else if n / 10 / 10 <? 10
          then String (digit_char (n / 10 / 10 mod 10))
                 (String (digit_char (n / 10 mod 10))
                    (String (digit_char (n mod 10)) ""))
          else digits_of (S fuel) (n / 10 / 10 / 10)
                 (String (digit_char (n / 10 / 10 mod 10))
                    (String (digit_char (n / 10 mod 10))
                       (String (digit_char (n mod 10)) "")))).
  rewrite H1, H2, H3.
  pose proof (length_digits_of fuel (n / 10 / 10 / 10)
                (String (digit_char (n / 10 / 10 mod 10))
                   (String (digit_char (n / 10 mod 10))
                      (String (digit_char (n mod 10)) "")))) as H.
  cbn [String.length] in H. lia.
Qed.

Lemma substring_all s : substring 0 (String.length s) s = s.
Proof. induction s as [|c s IH]; cbn; [reflexivity | now rewrite IH]. Qed.

Lemma length_replicate_char n c : String.length (replicate_char n c) = n.
Proof. induction n as [|n IH]; cbn; [reflexivity | now rewrite IH]. Qed.

Lemma length_append (a b : string) :
  String.length (a ++ b) = (String.length a + String.length b)%nat.
Proof. induction a as [|c a IH]; cbn; [reflexivity | now rewrite IH]. Qed.

Lemma all_digits_zeros n s :
  all_digits (replicate_char n "0" ++ s) = all_digits s.
Proof. induction n as [|n IH]; cbn; [reflexivity | exact IH]. Qed.

Lemma digits_value_zeros n s :
  digits_value (replicate_char n "0" ++ s) 0 = digits_value s 0.
Proof. induction n as [|n IH]; cbn; [reflexivity | exact IH]. Qed.

(** The text of a sequence value is its decimal text behind the zeros
    that bring it to three characters. *)
Lemma seq_text_zeros n :
  seq_text n
  = replicate_char (3 - String.length (int_text n)) "0" ++ int_text n.
Proof.
  unfold seq_text, greatest_3, lpad, text_length.
  destruct (Z.leb_spec (Z.max 3 (Z.of_nat (String.length (int_text n))))
              (Z.of_nat (String.length (int_text n)))) as [Hle|Hgt].
  - replace (Z.to_nat (Z.max 3 (Z.of_nat (String.length (int_text n)))))
      with (String.length (int_text n)) by lia.
    rewrite substring_all.
    replace (3 - String.length (int_text n))%nat with 0%nat by lia.
    reflexivity.
  - f_equal. f_equal. lia.
Qed.

End SequenceDigits.

(** ** The allocator on any sequence value *)

Section AllocatorAtLarge.

Lemma invoice_of_read_back (current_date_str : string) (n : Z) :
  0 <= n <= int4_max ->
  substring_digits_at_end (invoice_of current_date_str n) = Some (seq_text n)
  /\ cast_int (seq_text n) = Ok n.
Proof.
  intros Hn. destruct (int_text_digits n) as (Hall & Hval & Hlen); [lia|].
  assert (Hd : all_digits (seq_text n) = true)
    by now rewrite seq_text_zeros, all_digits_zeros.
  assert (Hne : seq_text n <> "").
  { rewrite seq_text_zeros. intros Heq.
    apply (f_equal String.length) in Heq.
    rewrite length_append in Heq. cbn in Heq. lia. }
  split.
  - unfold invoice_of.
    change ("INV" ++ current_date_str ++ "-" ++ seq_text n)
      with ("INV" ++ current_date_str ++ String "-" (seq_text n)).
    rewrite <- append_assoc.
    now apply substring_digits_at_end_dash.
  - unfold cast_int. rewrite Hd.
    destruct (seq_text n) eqn:E; [now destruct Hne|]. rewrite <- E.
    rewrite seq_text_zeros, digits_value_zeros, Hval.
    apply int4_in_range. unfold int4_min. lia.
Qed.

Lemma invoice_of_injective (current_date_str : string) (a b : Z) :
  0 <= a <= int4_max -> 0 <= b <= int4_max ->
  invoice_of current_date_str a = invoice_of current_date_str b -> a = b.
Proof.
  intros Ha Hb Heq.
  destruct (invoice_of_read_back current_date_str a Ha) as [Sa Ca].
  destruct (invoice_of_read_back current_date_str b Hb) as [Sb Cb].
  rewrite Heq, Sb in Sa. injection Sa as Sa. rewrite Sa, Ca in Cb.
  now injection Cb.
Qed.

(** X1: what the allocator writes it reads back.  For every sequence
    value [n] an [integer] can hold, the invoice number of [n] on any day
    ends in digits, [SUBSTRING(... FROM '[0-9]+$')] takes exactly the text
    of [n] out of it, and [CAST(... AS INT)] of that text is [n]; so two
    sequence values never give the same invoice number on one day. *)
Theorem invoice_sequence_read_back (current_date_str : string) (n : Z) :
  0 <= n <= int4_max ->
  substring_digits_at_end (invoice_of current_date_str n) = Some (seq_text n)
  /\ cast_int (seq_text n) = Ok n
  /\ forall m, 0 <= m <= int4_max ->
       invoice_of current_date_str m = invoice_of current_date_str n -> m = n.
Proof.
  intros Hn.
  destruct (invoice_of_read_back current_date_str n Hn) as [Hsub Hcast].
  split; [exact Hsub|]. split; [exact Hcast|].
  intros m Hm Heq. now apply (invoice_of_injective current_date_str).
Qed.

Lemma invoice_sequence_read_back_witness :
  substring_digits_at_end (invoice_of "17082023" 2147483647)
  = Some (seq_text 2147483647)
  /\ cast_int (seq_text 2147483647) = Ok 2147483647.
Proof.
  destruct (invoice_sequence_read_back "17082023" 2147483647)
    as (Hsub & Hcast & _); [unfold int4_max; lia|].
  split; [exact Hsub | exact Hcast].
Defined.

(** X2: the padding.  A sequence value below 1000 is written with exactly
    three digits; from 1000 on it is written as its plain decimal text,
    neither padded nor cut. *)
Theorem sequence_padded_to_three_digits (n : Z) :
  (0 <= n <= 999 -> String.length (seq_text n) = 3%nat)
  /\ (1000 <= n -> seq_text n = int_text n).
Proof.
  split.
  - intros Hn.
    assert (H : (String.length (seq_text (n + 1 - 1)) =? 3)%nat = true).
    { apply (upto_forall
               (fun m => (String.length (seq_text (m - 1)) =? 3)%nat) 1000);
        [vm_compute; reflexivity | lia]. }
    replace (n + 1 - 1) with n in H by lia. now apply Nat.eqb_eq in H.
  - intros Hn. rewrite seq_text_zeros.
    pose proof (int_text_long n Hn).
    replace (3 - String.length (int_text n))%nat with 0%nat by lia.
    reflexivity.
Qed.

Lemma sequence_padded_to_three_digits_witness :
  String.length (seq_text 7) = 3%nat /\ seq_text 12345 = int_text 12345.
Proof.
  split.
  - apply (proj1 (sequence_padded_to_three_digits 7)). lia.
  - apply (proj2 (sequence_padded_to_three_digits 12345)). lia.
Defined.

(** X4: one counter for everybody.  The number the allocator gives does
    not depend on the entry it is given to, be it its identity, its kind
    or its amount, and the allocator changes no other column of the
    entry. *)
Theorem allocation_ignores_the_entry
  (current_date : date) (rows : list transaction_row)
  (NEW1 NEW2 : new_transaction) :
  match generate_invoice_number current_date rows NEW1,
        generate_invoice_number current_date rows NEW2 with
  | Ok n1, Ok n2 =>
      n_invoice_number n1 = n_invoice_number n2
      /\ n1 = with_invoice_number NEW1 (n_invoice_number n1)
      /\ n2 = with_invoice_number NEW2 (n_invoice_number n2)
  | Raise e1, Raise e2 => e1 = e2
  | _, _ => False
  end.
Proof.
  pose proof (generate_invoice_number_values current_date rows NEW1 NEW1)
    as H1.
  rewrite (generate_invoice_number_values current_date rows NEW1 NEW2).
  destruct (generate_invoice_number current_date rows NEW1) as [n|e];
    cbn [bind failing_in] in *; [|reflexivity].
  injection H1 as H1. repeat split. exact H1.
Qed.



End AllocatorAtLarge.

(** ** The first thousand entries of a day *)

Section FirstThousand.



End FirstThousand.

(** ** Accounts over time *)

Section AccountsInvariant.

Lemma balance_key_is_fresh d :
  users_keys_from_sequence d -> balances_of_users d ->
  has_id (map b_user_id (user_balance d)) (users_id_seq d + 1) = false.
Proof.
  unfold balances_of_users, users_keys_from_sequence. intros Hk Hb.
  induction Hb as [|b bs Hb0 _ IH]; [reflexivity|].
  unfold has_id in *. cbn [map existsb]. rewrite IH, orb_false_r.
  apply Z.eqb_neq. intros Heq.
  apply existsb_exists in Hb0 as (i & Hi & Hib).
  apply Z.eqb_eq in Hib. apply in_map_iff in Hi as (u & Hu & Hin).
  rewrite List.Forall_forall in Hk. specialize (Hk u Hin). cbn in Hk. lia.
Qed.

Lemma insert_users_accepted d email password_hash first_name last_name
  profile_image :
  users_keys_from_sequence d -> balances_of_users d ->
  users_id_seq d < int4_max ->
  insert_users d email password_hash first_name last_name profile_image
  = Ok (UserRow (users_id_seq d + 1) email password_hash first_name last_name
          profile_image,
        Db (users d ++ [UserRow (users_id_seq d + 1) email password_hash
                          first_name last_name profile_image])
           (users_id_seq d + 1) (services d) (transaction_type_enum d)
           (user_balance d ++ [BalanceRow (users_id_seq d + 1) 0])
           (user_transactions d) (user_transactions_id_seq d)).
Proof.
  intros Hk Hb Hseq.
  unfold insert_users, initialize_user_balance, insert_user_balance.
  rewrite (nextval_in_range _ _ Hseq). cbn [bind failing_in].
  rewrite (has_id_above (map u_id (users d)) (users_id_seq d))
    by (rewrite Forall_map; exact Hk).
  cbn [u_id user_balance users bind failing_in].
  change (int4 0) with (@Ok sql_error Z 0). cbn [bind failing_in].
  rewrite (balance_key_is_fresh d Hk Hb).
  rewrite map_app, has_id_app. cbn [map u_id].
  replace (has_id [users_id_seq d + 1] (users_id_seq d + 1)) with true
    by (unfold has_id; cbn; now rewrite Z.eqb_refl).
  rewrite orb_true_r. reflexivity.
Qed.

Lemma insert_users_exhausted d email password_hash first_name last_name
  profile_image :
  int4_max <= users_id_seq d ->
  insert_users d email password_hash first_name last_name profile_image
  = Raise (sequence_generator_limit_exceeded "users_id_seq", d).
Proof.
  intros Hseq. unfold insert_users. now rewrite (nextval_exhausted _ _ Hseq).
Qed.

(** The database [INSERT INTO users] leaves when it is accepted. *)
Lemma accounts_after_insert (d : db) (u : user_row) :
  accounts_consistent d -> u_id u = users_id_seq d + 1 ->
  let d' := Db (users d ++ [u]) (users_id_seq d + 1) (services d)
               (transaction_type_enum d)
               (user_balance d ++ [BalanceRow (users_id_seq d + 1) 0])
               (user_transactions d) (user_transactions_id_seq d) in
  balances_of d' (users_id_seq d + 1) = [BalanceRow (users_id_seq d + 1) 0]
  /\ (forall id, id <> users_id_seq d + 1 ->
        balances_of d' id = balances_of d id)
  /\ accounts_consistent d'.
Proof.
  intros (Hk & Hb & Hone) Hid d'. subst d'.
  unfold balances_of. cbn [user_balance].
  assert (Hother : forall id, id <> users_id_seq d + 1 ->
            List.filter (fun b => b_user_id b =? id)
              (user_balance d ++ [BalanceRow (users_id_seq d + 1) 0])
            = List.filter (fun b => b_user_id b =? id) (user_balance d)).
  { intros id Hne. rewrite List.filter_app. cbn [List.filter b_user_id].
    destruct (Z.eqb_spec (users_id_seq d + 1) id); [congruence|].
    apply app_nil_r. }
  assert (Hnew : List.filter (fun b => b_user_id b =? users_id_seq d + 1)
                   (user_balance d ++ [BalanceRow (users_id_seq d + 1) 0])
                 = [BalanceRow (users_id_seq d + 1) 0]).
  { rewrite List.filter_app,
      (has_id_false_filter _ _ (balance_key_is_fresh d Hk Hb)).
    cbn [List.filter b_user_id app]. now rewrite Z.eqb_refl. }
  split; [exact Hnew|]. split; [exact Hother|].
  unfold accounts_consistent, users_keys_from_sequence, balances_of_users,
    one_balance_each, balances_of in *.
  cbn [users users_id_seq user_balance].
  split; [|split].
  - apply Forall_app. split.
    + eapply List.Forall_impl; [|exact Hk]. cbn. intros; lia.
    + repeat constructor. lia.
  - apply Forall_app. split.
    + eapply List.Forall_impl; [|exact Hb]. cbn. intros b Hbu.
      rewrite map_app, has_id_app, Hbu. reflexivity.
    + repeat constructor. cbn [b_user_id].
      rewrite map_app, has_id_app. cbn [map]. rewrite Hid.
      unfold has_id at 2. cbn. now rewrite Z.eqb_refl, orb_true_r.
  - apply Forall_app. split.
    + rewrite List.Forall_forall in Hk, Hone |- *. intros v Hv.
      specialize (Hk v Hv). cbn in Hk.
      rewrite Hother by lia. now apply Hone.
    + repeat constructor. exists 0. rewrite Hid. exact Hnew.
Qed.

(** X7: registrations keep one balance per user.  In a database where the
    user keys come from the sequence, every balance belongs to a user and
    every user has exactly one balance row, [INSERT INTO users] is
    accepted as long as the sequence has a key left, gives the new user
    the next key and a single balance row of 0, leaves the balance rows of
    everybody else as they were, and the database it leaves is such a
    database again; once the sequence has handed out its greatest value
    the insert is rejected. *)
Theorem registration_keeps_one_balance_each
  (d : db) (email password_hash first_name last_name profile_image : string) :
  accounts_consistent d ->
  (users_id_seq d < int4_max ->
   exists u d',
    insert_users d email password_hash first_name last_name profile_image
    = Ok (u, d')
    /\ u_id u = users_id_seq d + 1
    /\ balances_of d' (u_id u) = [BalanceRow (u_id u) 0]
    /\ (forall id, id <> u_id u -> balances_of d' id = balances_of d id)
    /\ accounts_consistent d')
  /\ (int4_max <= users_id_seq d ->
      insert_users d email password_hash first_name last_name profile_image
      = Raise (sequence_generator_limit_exceeded "users_id_seq", d)).
Proof.
  intros Hacc. pose proof Hacc as (Hk & Hb & _). split.
  - intros Hseq.
    eexists _, _. split; [now apply insert_users_accepted|].
    destruct (accounts_after_insert d
                (UserRow (users_id_seq d + 1) email password_hash first_name
                   last_name profile_image) Hacc eq_refl)
      as (Hnew & Hother & Hacc').
    cbn [u_id]. split; [reflexivity|]. split; [exact Hnew|].
    split; [exact Hother | exact Hacc'].
  - apply insert_users_exhausted.
Qed.

Lemma registration_keeps_one_balance_each_witness :
  accounts_consistent a_db
  /\ exists u d',
       insert_users a_db "new@nutech.com" "hash" "New" "User" "default.jpg"
       = Ok (u, d')
       /\ balances_of d' 1 = [BalanceRow 1 0]
       /\ balances_of d' 2 = [BalanceRow 2 0].
Proof.
  assert (H : accounts_consistent a_db).
  { split; [|split]; repeat constructor; cbn; try lia. now exists 0. }
  split; [exact H|].
  destruct (proj1 (registration_keeps_one_balance_each a_db "new@nutech.com"
                     "hash" "New" "User" "default.jpg" H) eq_refl)
    as (u & d' & Hins & Hid & Hnew & Hother & _).
  exists u, d'. split; [exact Hins|]. split.
  - rewrite Hother; [reflexivity|]. rewrite Hid. cbn. lia.
  - rewrite Hid in Hnew. exact Hnew.
Defined.

End AccountsInvariant.

(** ** Validation *)

Section Validation.

Import Service.

(** X8: what [POST /topup] lets through.  Only an integer amount above 0
    reaches the controller: a string of digits that writes one, or a JSON
    number that does and is below [1e21], where a Number is still written
    in digits.  An amount that is missing, [null] or the empty string is
    answered 400 with status 102 and [Top up amount is required]; anything
    else that is not such an integer, zero included, is answered 400 with
    status 102 and the message on the amount; in both cases nothing is
    written. *)
Theorem topup_amount_gate
  (now : timestamptz) (d : db) (userId : Z) (top_up_amount : field) :
  Http.post_topup now d userId top_up_amount
  = match top_up_amount with
    | absent | empty =>
        (Http.badRequest "Top up amount is required" Http.null 102, d)
    | not_integer _ =>
        (Http.badRequest Http.amount_message Http.null 102, d)
    | integer amount =>
        if amount <=? 0
        then (Http.badRequest Http.amount_message Http.null 102, d)
        else Http.topUp now d userId top_up_amount
    | number amount =>
        if (amount <=? 0) || negb (Http.written_in_digits amount)
        then (Http.badRequest Http.amount_message Http.null 102, d)
        else Http.topUp now d userId top_up_amount
    end.
Proof.
  unfold Http.post_topup, Http.validateTopUp, Http.chain_error, Http.isInt,
    Http.notEmpty, Http.le_0.
  destruct top_up_amount as [| |amount|amount|[|]]; try reflexivity;
    cbn beta iota; rewrite not_below_0, not_above_0.
  - destruct (Z.leb_spec amount 0) as [Hle|Hgt].
    + destruct (Z.leb_spec 0 amount); reflexivity.
    + destruct (Z.leb_spec 0 amount); [reflexivity|lia].
  - destruct (Http.written_in_digits amount); cbn [andb negb orb].
    + rewrite orb_false_r. destruct (Z.leb_spec amount 0) as [Hle|Hgt].
      * destruct (Z.leb_spec 0 amount); reflexivity.
      * destruct (Z.leb_spec 0 amount); [reflexivity|lia].
    + rewrite orb_true_r. reflexivity.
Qed.

(** X9: what [GET /transaction/history] lets through.  The query passes
    exactly when the offset is missing or an integer from 0 on and the
    limit is missing or an integer from 1 on, written in digits.  A bad
    offset is answered 400 with status 102 and the message on the offset,
    whatever the limit; a bad limit after a good offset with the message
    on the limit. *)
Theorem history_query_gate (d : db) (userId : Z) (offset limit : field) :
  let offset_ok := match offset with
                   | absent => true
                   | integer z => 0 <=? z
                   | number z => Http.written_in_digits z && (0 <=? z)
                   | empty | not_integer _ => false
                   end in
  let limit_ok := match limit with
                  | absent => true
                  | integer z => 1 <=? z
                  | number z => Http.written_in_digits z && (1 <=? z)
                  | empty | not_integer _ => false
                  end in
  Http.get_transaction_history d userId offset limit
  = if negb offset_ok
    then Http.badRequest "Offset must be a non-negative integer" Http.null 102
    else if negb limit_ok
    then Http.badRequest "Limit must be a positive integer" Http.null 102
    else Http.getTransactionHistory d userId (Http.toInt offset)
           (Http.toInt limit).
Proof.
  unfold Http.get_transaction_history, Http.validateTransactionHistory,
    Http.chain_error, Http.isInt.
  destruct offset as [| |o|o|bo], limit as [| |l|l|bl]; cbn beta iota;
    rewrite ?not_below_0, ?not_below_1; cbn [negb];
    repeat match goal with
           | |- context [Http.written_in_digits ?z] =>
               destruct (Http.written_in_digits z)
           end; cbn [andb negb];
    repeat match goal with
           | |- context [?a <=? ?b] => destruct (a <=? b)
           end; reflexivity.
Qed.

End Validation.

(** ** The controllers and the errors of the service *)

Section AnyService.

Import Service.

Lemma topUp_controller now d userId top_up_amount :
  Http.topUp now d userId top_up_amount
  = Controller.topUp (Controller.topUpBalance_at now) d userId top_up_amount.
Proof.
  unfold Http.topUp, Controller.topUp, Controller.topUpBalance_at,
    Http.transaction.
  destruct (bind (failing_in d (integer_parameter top_up_amount))
              (fun amount => topUpBalance now d userId amount))
    as [[balance tx]|[err tx]]; reflexivity.
Qed.

Lemma createTransaction_controller now d userId service_code :
  Http.createTransaction now d userId service_code
  = Controller.createTransaction (Controller.createTransaction_at now) d userId
      service_code.
Proof.
  unfold Http.createTransaction, Controller.createTransaction,
    Controller.createTransaction_at, Http.transaction.
  destruct (createTransaction now d userId service_code)
    as [[summary tx]|[err tx]]; reflexivity.
Qed.

(** X10: [topUp] and the errors of its unit of work, whatever the service
    does.  When the unit of work throws, having reached [tx], the tables
    hold the rows they held before the request, the sequences are where
    the unit of work left them, and the answer is one of three: 400 with
    the message on the amount, 404 with [User not found], or 500 with
    [Internal server error]; so the message of any other error never
    reaches the caller. *)
Theorem topUp_failure_answers
  (topUpBalance : db -> Z -> field
                  -> result (js_error * db) (option Z * db))
  (d tx : db) (userId : Z) (top_up_amount : field) (err : js_error) :
  topUpBalance d userId top_up_amount = Raise (err, tx) ->
  snd (Controller.topUp topUpBalance d userId top_up_amount) = rollback d tx
  /\ same_rows d (snd (Controller.topUp topUpBalance d userId top_up_amount))
  /\ fst (Controller.topUp topUpBalance d userId top_up_amount)
     = if String.eqb (message err) Http.amount_message
       then Http.Response 400 102 Http.amount_message Http.null
       else if String.eqb (message err) "User not found"
       then Http.Response 404 102 "User not found" Http.null
       else Http.Response 500 100 "Internal server error" Http.null.
Proof.
  intros Herr. unfold Controller.topUp, Http.transaction. rewrite Herr.
  destruct (String.eqb_spec (message err) Http.amount_message) as [->|_];
    [split; [|split]; [reflexivity | apply rollback_rows | reflexivity]|].
  destruct (String.eqb (message err) "User not found");
    (split; [|split]; [reflexivity | apply rollback_rows | reflexivity]).
Qed.

Lemma topUp_failure_answers_witness :
  fst (Controller.topUp
         (fun tx _ _ =>
            Raise (Error "connect ECONNREFUSED 10.0.0.5:5432", tx))
         a_db 1 (integer 10000))
  = Http.Response 500 100 "Internal server error" Http.null
  /\ user_balance
       (snd (Controller.topUp
               (fun tx _ _ =>
                  Raise (Error "connect ECONNREFUSED 10.0.0.5:5432", tx))
               a_db 1 (integer 10000)))
     = [BalanceRow 1 0].
Proof.
  destruct (topUp_failure_answers
              (fun tx _ _ =>
                 Raise (Error "connect ECONNREFUSED 10.0.0.5:5432", tx))
              a_db a_db 1 (integer 10000)
              (Error "connect ECONNREFUSED 10.0.0.5:5432") eq_refl)
    as (_ & (_ & _ & _ & Hbalance & _) & Hres).
  split; [rewrite Hres; reflexivity | rewrite Hbalance; reflexivity].
Defined.

(** X11: [createTransaction] and the errors of its unit of work, whatever
    the service does.  When the unit of work throws, having reached [tx],
    the tables hold the rows they held before the request, the sequences
    are where the unit of work left them, and the answer is 400 with
    status 102 and the message of the error if that is the message on the
    unknown service or the one on the balance, and 500 with
    [Internal server error] otherwise. *)
Theorem createTransaction_failure_answers
  (createTransaction : db -> Z -> string
                       -> result (js_error * db)
                            (option transaction_summary * db))
  (d tx : db) (userId : Z) (service_code : string) (err : js_error) :
  createTransaction d userId service_code = Raise (err, tx) ->
  snd (Controller.createTransaction createTransaction d userId service_code)
  = rollback d tx
  /\ same_rows d
       (snd (Controller.createTransaction createTransaction d userId
               service_code))
  /\ fst (Controller.createTransaction createTransaction d userId service_code)
     = if String.eqb (message err) "Service ataus Layanan tidak ditemukan"
       then Http.Response 400 102 "Service ataus Layanan tidak ditemukan"
              Http.null
       else if String.eqb (message err) "Balance tidak mencukupi"
       then Http.Response 400 102 "Balance tidak mencukupi" Http.null
       else Http.Response 500 100 "Internal server error" Http.null.
Proof.
  intros Herr. unfold Controller.createTransaction, Http.transaction.
  rewrite Herr.
  destruct (String.eqb_spec (message err)
              "Service ataus Layanan tidak ditemukan") as [->|_];
    [split; [|split]; [reflexivity | apply rollback_rows | reflexivity]|].
  destruct (String.eqb_spec (message err) "Balance tidak mencukupi")
    as [->|_];
    (split; [|split]; [reflexivity | apply rollback_rows | reflexivity]).
Qed.

Lemma createTransaction_failure_answers_witness :
  fst (Controller.createTransaction
         (fun tx _ _ => Raise (Error "relation services does not exist", tx))
         a_db 1 "PULSA")
  = Http.Response 500 100 "Internal server error" Http.null
  /\ user_transactions
       (snd (Controller.createTransaction
               (fun tx _ _ =>
                  Raise (Error "relation services does not exist", tx))
               a_db 1 "PULSA"))
     = [].
Proof.
  destruct (createTransaction_failure_answers
              (fun tx _ _ =>
                 Raise (Error "relation services does not exist", tx))
              a_db a_db 1 "PULSA" (Error "relation services does not exist")
              eq_refl) as (_ & (_ & _ & _ & _ & Hrows) & Hres).
  split; [rewrite Hres; reflexivity | rewrite Hrows; reflexivity].
Defined.

(** X12: the answer is built after the commit.  When the unit of work
    returns, its writes are committed whatever the answer: if what the
    service resolved to cannot be turned into the answer, [topUp] and
    [createTransaction] answer 500 with [Internal server error] and the
    database is the one the unit of work left, not the one before the
    request. *)
Theorem committed_before_answered
  (topUpBalance : db -> Z -> field
                  -> result (js_error * db) (option Z * db))
  (createTransaction : db -> Z -> string
                       -> result (js_error * db)
                            (option transaction_summary * db))
  (d tx : db) (userId : Z) (top_up_amount : field) (service_code : string) :
  (topUpBalance d userId top_up_amount = Ok (None, tx) ->
   Controller.topUp topUpBalance d userId top_up_amount
   = (Http.error_500 "Internal server error", tx))
  /\ (createTransaction d userId service_code = Ok (None, tx) ->
      Controller.createTransaction createTransaction d userId service_code
      = (Http.error_500 "Internal server error", tx))
  /\ (forall balance,
        topUpBalance d userId top_up_amount = Ok (Some balance, tx) ->
        Controller.topUp topUpBalance d userId top_up_amount
        = (Http.success "Top Up Balance berhasil" (Http.balance_dto balance),
           tx)).
Proof.
  split; [|split].
  - intros H. unfold Controller.topUp, Http.transaction. now rewrite H.
  - intros H. unfold Controller.createTransaction, Http.transaction.
    now rewrite H.
  - intros balance H. unfold Controller.topUp, Http.transaction.
    now rewrite H.
Qed.

Lemma committed_before_answered_witness :
  Controller.topUp
    (fun tx _ _ => Ok (None, set_user_balance tx [BalanceRow 1 10000]))
    a_db 1 (integer 10000)
  = (Http.error_500 "Internal server error",
     set_user_balance a_db [BalanceRow 1 10000]).
Proof.
  apply (proj1 (committed_before_answered
                  (fun tx _ _ =>
                     Ok (None, set_user_balance tx [BalanceRow 1 10000]))
                  (fun tx _ _ => Raise (Error "unused", tx))
                  a_db (set_user_balance a_db [BalanceRow 1 10000]) 1
                  (integer 10000) "PULSA")).
  reflexivity.
Defined.

End AnyService.

(** ** Bearer tokens *)

Section BearerTokens.

Import Service.

Lemma split_space_whole s : no_space s = true -> Auth.split_space s = [s].
Proof.
  induction s as [|c s IH]; [reflexivity|]. cbn [no_space Auth.split_space].
  intros H. apply andb_prop in H as [Hc Hs].
  apply negb_true_iff in Hc. rewrite Hc, (IH Hs). reflexivity.
Qed.

Lemma split_space_cons a b :
  no_space a = true ->
  Auth.split_space (a ++ String " " b) = a :: Auth.split_space b.
Proof.
  induction a as [|c a IH]; [reflexivity|].
  cbn [no_space append Auth.split_space]. intros H.
  apply andb_prop in H as [Hc Ha]. apply negb_true_iff in Hc.
  rewrite Hc, (IH Ha). reflexivity.
Qed.

Lemma split_space_nonempty s : Auth.split_space s <> [].
Proof.
  destruct s as [|c s]; cbn [Auth.split_space]; [discriminate|].
  destruct (Ascii.eqb c " "); [discriminate|].
  destruct (Auth.split_space s); discriminate.
Qed.

Lemma split_space_one s p :
  Auth.split_space s = [p] -> s = p /\ no_space p = true.
Proof.
  revert p. induction s as [|c s IH]; intros p.
  - cbn. intros [= <-]. now split.
  - cbn [Auth.split_space]. destruct (Ascii.eqb c " ") eqn:Ec.
    + intros [= _ H]. now apply split_space_nonempty in H.
    + destruct (Auth.split_space s) as [|q qs] eqn:Es.
      * now apply split_space_nonempty in Es.
      * intros [= <- ->]. destruct (IH q eq_refl) as [-> Hq].
        split; [reflexivity|]. cbn [no_space]. now rewrite Ec, Hq.
Qed.

Lemma split_space_two s p0 p1 :
  Auth.split_space s = [p0; p1] ->
  s = p0 ++ String " " p1 /\ no_space p0 = true /\ no_space p1 = true.
Proof.
  revert p0. induction s as [|c s IH]; intros p0; [discriminate|].
  cbn [Auth.split_space]. destruct (Ascii.eqb c " ") eqn:Ec.
  - intros [= <- H]. apply Ascii.eqb_eq in Ec. subst c.
    apply split_space_one in H as [-> Hp]. now repeat split.
  - destruct (Auth.split_space s) as [|q qs] eqn:Es; [discriminate|].
    intros [= <- ->]. destruct (IH q eq_refl) as (-> & Hq & Hp1).
    repeat split; [|exact Hp1]. cbn [no_space]. now rewrite Ec, Hq.
Qed.

Lemma bearer_token_only authorization token :
  Auth.extractTokenFromHeader authorization = Some token ->
  authorization = Some ("Bearer " ++ token) /\ no_space token = true.
Proof.
  destruct authorization as [authHeader|]; [|discriminate].
  unfold Auth.extractTokenFromHeader.
  destruct authHeader as [|c h]; [discriminate|].
  destruct (Auth.split_space (String c h)) as [|scheme [|tok [|]]] eqn:Es;
    try discriminate.
  destruct (String.eqb_spec scheme "Bearer") as [->|]; [|discriminate].
  intros [= <-]. apply split_space_two in Es as (-> & _ & Ht).
  now split.
Qed.

Lemma bearer_token_found token :
  no_space token = true ->
  Auth.extractTokenFromHeader (Some ("Bearer " ++ token)) = Some token.
Proof.
  intros Ht. unfold Auth.extractTokenFromHeader.
  change ("Bearer " ++ token) with ("Bearer" ++ String " " token).
  rewrite split_space_cons by reflexivity.
  rewrite (split_space_whole token Ht). reflexivity.
Qed.

(** X14: the header [extractTokenFromHeader] accepts.  It yields the token
    [token] exactly for the header that is [Bearer], one space, and
    [token], where [token] has no space in it; for a missing header and
    for every other header it yields nothing. *)
Theorem bearer_token_extracted (authorization : option string)
  (token : string) :
  (Auth.extractTokenFromHeader authorization = Some token
   <-> authorization = Some ("Bearer " ++ token) /\ no_space token = true)
  /\ (authorization = None -> Auth.extractTokenFromHeader authorization = None)
  /\ (forall scheme,
        scheme <> "Bearer" -> no_space scheme = true ->
        Auth.extractTokenFromHeader (Some (scheme ++ String " " token))
        = None).
Proof.
  split; [split|split].
  - apply bearer_token_only.
  - intros [-> Ht]. now apply bearer_token_found.
  - now intros ->.
  - intros scheme Hne Hs.
    destruct (Auth.extractTokenFromHeader
                (Some (scheme ++ String " " token))) as [t|] eqn:E;
      [|reflexivity].
    apply bearer_token_only in E as [E Ht]. injection E as E. exfalso.
    assert (H : Auth.split_space (scheme ++ String " " token)
                = Auth.split_space ("Bearer" ++ String " " t))
      by now rewrite E.
    rewrite !split_space_cons in H by (assumption || reflexivity).
    now injection H.
Qed.

Section Authenticated.

Variable payload : Type.
Variable verifyToken : string -> result js_error payload.
Variable userId : payload -> Z.

Lemma authenticate_rejects authorization res :
  Auth.authenticate payload verifyToken authorization = inl res ->
  res = Http.Response 401 108 "Token tidak tidak valid atau kadaluwarsa"
          Http.null.
Proof.
  unfold Auth.authenticate.
  destruct (Auth.extractTokenFromHeader authorization) as [[|c t]|];
    cbn [Auth.no_token]; try now intros [= <-].
  destruct (verifyToken (String c t)); [discriminate | now intros [= <-]].
Qed.

Lemma authenticate_passes authorization user token :
  Auth.authenticate payload verifyToken authorization = inr (user, token)
  <-> authorization = Some ("Bearer " ++ token) /\ no_space token = true
      /\ token <> "" /\ verifyToken token = Ok user.
Proof.
  unfold Auth.authenticate. split.
  - destruct (Auth.extractTokenFromHeader authorization) as [[|c t]|] eqn:E;
      cbn [Auth.no_token]; try discriminate.
    destruct (verifyToken (String c t)) as [u|] eqn:Ev; [|discriminate].
    intros [= <- <-]. apply bearer_token_only in E as [-> Ht].
    now repeat split.
  - intros (-> & Ht & Hne & Hv).
    rewrite (bearer_token_found token Ht).
    destruct token as [|c t]; [now destruct Hne|].
    cbn [Auth.no_token]. now rewrite Hv.
Qed.

End Authenticated.

End BearerTokens.

(** ** Requests with and without a token *)

Section Tokens.

Import Service.

Variable payload : Type.
Variable verifyToken : string -> result js_error payload.
Variable userId : payload -> Z.

(** X15: whom [authenticate] lets through.  The request goes on to the
    next handler, with the payload of its token as the user, exactly when
    its header is [Bearer], one space and a non-empty token without
    spaces that [verifyToken] accepts.  Every other request is answered
    401 with status 108 and one fixed message, which says nothing about
    why the token was refused. *)
Theorem authenticate_lets_verified_tokens_through
  (authorization : option string) :
  (forall user token,
     Auth.authenticate payload verifyToken authorization = inr (user, token)
     <-> authorization = Some ("Bearer " ++ token)
         /\ no_space token = true /\ token <> ""
         /\ verifyToken token = Ok user)
  /\ (forall res,
        Auth.authenticate payload verifyToken authorization = inl res ->
        res = Http.Response 401 108
                "Token tidak tidak valid atau kadaluwarsa" Http.null).
Proof.
  split.
  - intros user token. apply authenticate_passes.
  - apply authenticate_rejects.
Qed.

(** X16: no token, no ledger.  A request to [POST /topup] or to
    [GET /transaction/history] that [authenticate] does not let through
    is answered 401 before its body or query is looked at, and the
    database stays as it was; one that is let through is handled for the
    [userId] of the payload of its token. *)
Theorem ledger_routes_behind_authenticate
  (now : timestamptz) (d : db) (authorization : option string)
  (top_up_amount offset limit : field) :
  match Auth.authenticate payload verifyToken authorization with
  | inl _ =>
      Auth.POST_topup payload verifyToken userId now d authorization
        top_up_amount
      = (Http.Response 401 108 "Token tidak tidak valid atau kadaluwarsa"
           Http.null, d)
      /\ Auth.GET_transaction_history payload verifyToken userId d
           authorization offset limit
         = Http.Response 401 108 "Token tidak tidak valid atau kadaluwarsa"
             Http.null
  | inr (user, _) =>
      Auth.POST_topup payload verifyToken userId now d authorization
        top_up_amount
      = Http.post_topup now d (userId user) top_up_amount
      /\ Auth.GET_transaction_history payload verifyToken userId d
           authorization offset limit
         = Http.get_transaction_history d (userId user) offset limit
  end.
Proof.
  unfold Auth.POST_topup, Auth.GET_transaction_history.
  destruct (Auth.authenticate payload verifyToken authorization)
    as [res|[user token]] eqn:E; [|split; reflexivity].
  apply authenticate_rejects in E. subst res. split; reflexivity.
Qed.

End Tokens.

Lemma authenticate_lets_verified_tokens_through_witness :
  Auth.authenticate Z (fun token => if String.eqb token "abc.def.ghi"
                                    then Ok 1 else Raise (Service.Error "jwt malformed"))
    (Some "Bearer abc.def.ghi") = inr (1, "abc.def.ghi")
  /\ Auth.authenticate Z (fun token => if String.eqb token "abc.def.ghi"
                                       then Ok 1
                                       else Raise (Service.Error "jwt malformed"))
       (Some "Bearer  abc.def.ghi")
     = inl (Http.Response 401 108 "Token tidak tidak valid atau kadaluwarsa"
              Http.null).
Proof.
  split.
  - apply (proj1 (authenticate_lets_verified_tokens_through Z _
                    (Some "Bearer abc.def.ghi"))).
    repeat split; discriminate.
  - destruct (Auth.authenticate Z _ (Some "Bearer  abc.def.ghi"))
      as [res|[user token]] eqn:E.
    + f_equal.
      exact (proj2 (authenticate_lets_verified_tokens_through Z _
                      (Some "Bearer  abc.def.ghi")) res E).
    + vm_compute in E. discriminate.
Defined.

Lemma ledger_routes_behind_authenticate_witness :
  Auth.POST_topup Z (fun _ => Raise (Service.Error "jwt expired")) (fun user => user)
    a_time a_db (Some "Bearer abc.def.ghi") (Service.not_integer false)
  = (Http.Response 401 108 "Token tidak tidak valid atau kadaluwarsa"
       Http.null, a_db).
Proof.
  exact (proj1 (ledger_routes_behind_authenticate Z
                  (fun _ => Raise (Service.Error "jwt expired")) (fun user => user)
                  a_time a_db (Some "Bearer abc.def.ghi") (Service.not_integer false)
                  Service.absent Service.absent)).
Defined.

(** ** Registration *)

Section Registration.

Import Service.

Variable toLowerCase : string -> string.
Variable bcrypt_hash : string -> Z -> string.
Variable BCRYPT_SALT_ROUNDS : Http.js_number.
Variable defaultProfileImage : string.

Local Abbreviation createUser :=
  (Membership.createUser toLowerCase bcrypt_hash BCRYPT_SALT_ROUNDS
     defaultProfileImage).
Local Abbreviation register :=
  (Membership.register toLowerCase bcrypt_hash BCRYPT_SALT_ROUNDS
     defaultProfileImage).

Lemma complete_passes body :
  complete body ->
  Membership.falsy (Membership.email body)
  || Membership.falsy (Membership.password body)
  || Membership.falsy (Membership.first_name body)
  || Membership.falsy (Membership.last_name body) = false.
Proof. now intros (-> & -> & -> & ->). Qed.

Lemma email_taken_app d u e :
  Membership.email_taken
    (Db (users d ++ [u]) (users_id_seq d + 1) (services d)
        (transaction_type_enum d)
        (user_balance d ++ [BalanceRow (users_id_seq d + 1) 0])
        (user_transactions d) (user_transactions_id_seq d)) e
  = Membership.email_taken d e || String.eqb (u_email u) e.
Proof.
  unfold Membership.email_taken. cbn [users].
  rewrite existsb_app. cbn [existsb]. now rewrite orb_false_r.
Qed.

(** X17: a registration that goes through, once it has reached [register]
    of the controller.  In a database whose accounts are consistent and
    whose sequence of user keys has a key left, with salt rounds
    configured between 4 and 31, a complete body whose e-mail address, in
    lower case, is not stored yet is answered 200 with
    [Registrasi berhasil silahkan login]; the user is stored under the
    next key with the address in lower case and the password as
    [bcrypt.hash] returned it, has a single balance row of 0, and the
    accounts stay consistent. *)
Theorem registration_opens_an_account (d : db) (body : Membership.user_data)
  (saltRounds : Z) :
  accounts_consistent d -> users_id_seq d < int4_max ->
  complete body ->
  BCRYPT_SALT_ROUNDS = Http.Num saltRounds -> 4 <= saltRounds <= 31 ->
  Membership.email_taken d
    (toLowerCase (Membership.string_of (Membership.email body))) = false ->
  exists d',
    register d body
    = (Http.Response 200 0 "Registrasi berhasil silahkan login" Http.null, d')
    /\ users d'
       = (users d
          ++ [UserRow (users_id_seq d + 1)
                (toLowerCase (Membership.string_of (Membership.email body)))
                (bcrypt_hash (Membership.string_of (Membership.password body))
                   saltRounds)
                (Membership.string_of (Membership.first_name body))
                (Membership.string_of (Membership.last_name body))
                defaultProfileImage])%list
    /\ balances_of d' (users_id_seq d + 1)
       = [BalanceRow (users_id_seq d + 1) 0]
    /\ user_transactions d' = user_transactions d
    /\ accounts_consistent d'.
Proof.
  intros Hacc Hseq Hbody Hrounds Hrange Hfree.
  destruct (accounts_after_insert d
              (UserRow (users_id_seq d + 1)
                 (toLowerCase (Membership.string_of (Membership.email body)))
                 (bcrypt_hash
                    (Membership.string_of (Membership.password body))
                    saltRounds)
                 (Membership.string_of (Membership.first_name body))
                 (Membership.string_of (Membership.last_name body))
                 defaultProfileImage) Hacc eq_refl)
    as (Hbal & _ & Hacc').
  destruct Hacc as (Hk & Hb & _).
  eexists. split.
  { unfold Membership.register, Http.transaction, Membership.createUser.
    rewrite (complete_passes body Hbody), Hfree.
    unfold Membership.getSaltRounds. rewrite Hrounds.
    destruct (Z.ltb_spec saltRounds 4); [lia|].
    destruct (Z.ltb_spec 31 saltRounds); [lia|].
    cbn [orb bind failing_in]. rewrite insert_users_accepted by assumption.
    reflexivity. }
  split; [reflexivity|]. split; [exact Hbal|].
  split; [reflexivity|exact Hacc'].
Qed.

(** X18: one account per address.  After a registration that went through
    as in X17, a complete body with the same address, in whatever case
    [toLowerCase] maps onto the stored one, is answered 400 with status
    102 and [Email sudah terdaftar], and nothing is written. *)
Theorem registered_address_is_taken
  (d d' : db) (body again : Membership.user_data) (res : Http.response) :
  accounts_consistent d ->
  complete body -> complete again ->
  register d body = (res, d') -> Http.statusCode res = 200 ->
  toLowerCase (Membership.string_of (Membership.email again))
  = toLowerCase (Membership.string_of (Membership.email body)) ->
  register d' again
  = (Http.Response 400 102 "Email sudah terdaftar" Http.null, d').
Proof.
  intros (Hk & Hb & _) Hbody Hagain Hreg H200 Hsame.
  assert (Htaken : Membership.email_taken d'
                     (toLowerCase (Membership.string_of
                                     (Membership.email body))) = true).
  { revert Hreg. unfold Membership.register, Http.transaction,
      Membership.createUser.
    rewrite (complete_passes body Hbody).
    destruct (Membership.email_taken d _) eqn:Et.
    { cbn. intros [= <- _]. discriminate. }
    destruct (Membership.getSaltRounds BCRYPT_SALT_ROUNDS) as [rounds|e] eqn:Es.
    - cbn [bind failing_in].
      destruct (Z.lt_ge_cases (users_id_seq d) int4_max) as [Hseq|Hseq].
      + rewrite insert_users_accepted by assumption.
        cbn [execute bind failing_in]. intros [= _ <-].
        rewrite email_taken_app. cbn [u_email].
        now rewrite String.eqb_refl, orb_true_r.
      + rewrite insert_users_exhausted by assumption.
        cbn. intros [= <- _]. discriminate.
    - cbn [bind failing_in]. intros Hres. exfalso. revert Hres H200.
      destruct (String.eqb (message e) "Email sudah terdaftar");
        [intros [= <- _]; discriminate|].
      destruct (Membership.includes (message e) "required"
                || Membership.includes (message e) "Invalid"
                || Membership.includes (message e) "must be");
        intros [= <- _]; discriminate. }
  unfold Membership.register, Http.transaction, Membership.createUser.
  rewrite (complete_passes again Hagain), Hsame, Htaken.
  cbn [message String.eqb]. now rewrite rollback_same.
Qed.

Lemma getSaltRounds_misconfigured :
  (forall r, BCRYPT_SALT_ROUNDS = Http.Num r -> r < 4 \/ 31 < r) ->
  Membership.getSaltRounds BCRYPT_SALT_ROUNDS
  = Raise (Error "BCRYPT_SALT_ROUNDS must be a number between 4 and 31").
Proof.
  intros H. unfold Membership.getSaltRounds.
  destruct BCRYPT_SALT_ROUNDS as [|r|negative]; [reflexivity| |reflexivity].
  destruct (H r eq_refl).
  - destruct (Z.ltb_spec r 4); [reflexivity|lia].
  - destruct (Z.ltb_spec 31 r); [now rewrite orb_true_r|lia].
Qed.

(** X19: the 400 answers of [register].  A body in which a member is
    missing or empty is answered 400 with status 102 and the message that
    the four are required.  With salt rounds that are not a number from 4
    to 31, a complete body with a new address is answered 400 with status
    102 as well, and the message names [BCRYPT_SALT_ROUNDS]: the
    misconfiguration of the server is reported to the caller as a bad
    request.  Nothing is written in either case. *)
Theorem registration_bad_requests (d : db) (body : Membership.user_data) :
  ((complete body -> False) ->
   register d body
   = (Http.Response 400 102
        "Email, password, first name, and last name are required"
        Http.null, d))
  /\ (complete body ->
      Membership.email_taken d
        (toLowerCase (Membership.string_of (Membership.email body))) = false ->
      (forall r, BCRYPT_SALT_ROUNDS = Http.Num r -> r < 4 \/ 31 < r) ->
      register d body
      = (Http.Response 400 102
           "BCRYPT_SALT_ROUNDS must be a number between 4 and 31"
           Http.null, d)).
Proof.
  unfold Membership.register, Http.transaction, Membership.createUser.
  split.
  - intros Hnot.
    destruct (Membership.falsy (Membership.email body)
              || Membership.falsy (Membership.password body)
              || Membership.falsy (Membership.first_name body)
              || Membership.falsy (Membership.last_name body)) eqn:E;
      [now rewrite rollback_same|].
    exfalso. apply Hnot. unfold complete.
    apply orb_false_elim in E as [E E4]. apply orb_false_elim in E as [E E3].
    apply orb_false_elim in E as [E1 E2]. now repeat split.
  - intros Hbody Hfree Hsalt.
    rewrite (complete_passes body Hbody), Hfree,
      (getSaltRounds_misconfigured Hsalt).
    cbn [bind failing_in]. now rewrite rollback_same.
Qed.

End Registration.

Lemma a_consistent_db : accounts_consistent a_db.
Proof.
  split; [|split]; repeat constructor; cbn; try lia. now exists 0.
Defined.

Lemma registration_opens_an_account_witness :
  exists d',
    a_register (Http.Num 10) a_db a_body
    = (Http.Response 200 0 "Registrasi berhasil silahkan login" Http.null, d')
    /\ balances_of d' 2 = [BalanceRow 2 0]
    /\ accounts_consistent d'.
Proof.
  destruct (registration_opens_an_account (fun s => s) a_hash (Http.Num 10)
              "default.jpg" a_db a_body 10 a_consistent_db)
    as (d' & Hreg & _ & Hbal & _ & Hacc);
    [reflexivity | repeat split | reflexivity | lia | reflexivity |].
  exists d'. split; [exact Hreg|]. split; [exact Hbal | exact Hacc].
Defined.

Lemma registered_address_is_taken_witness :
  a_register (Http.Num 10) (snd (a_register (Http.Num 10) a_db a_body)) a_body
  = (Http.Response 400 102 "Email sudah terdaftar" Http.null,
     snd (a_register (Http.Num 10) a_db a_body)).
Proof.
  apply (registered_address_is_taken (fun s => s) a_hash (Http.Num 10)
           "default.jpg" a_db _ a_body a_body
           (fst (a_register (Http.Num 10) a_db a_body)) a_consistent_db).
  - repeat split.
  - repeat split.
  - apply surjective_pairing.
  - reflexivity.
  - reflexivity.
Defined.

Lemma registration_bad_requests_witness :
  a_register (Http.Num 10) a_db a_body_without_password
  = (Http.Response 400 102
       "Email, password, first name, and last name are required"
       Http.null, a_db)
  /\ a_register (Http.Num 64) a_db a_body
     = (Http.Response 400 102
          "BCRYPT_SALT_ROUNDS must be a number between 4 and 31"
          Http.null, a_db).
Proof.
  split.
  - apply (proj1 (registration_bad_requests (fun s => s) a_hash (Http.Num 10)
                    "default.jpg" a_db a_body_without_password)).
    intros (_ & H & _). discriminate.
  - apply (proj2 (registration_bad_requests (fun s => s) a_hash (Http.Num 64)
                    "default.jpg" a_db a_body)).
    + repeat split.
    + reflexivity.
    + intros r [= <-]. lia.
Defined.

(** ** The scan of the allocator *)

Section Scan.

Lemma compare_not_Gt_trans (a : string) : forall b c,
  String.compare a b <> Gt -> String.compare b c <> Gt ->
  String.compare a c <> Gt.
Proof.
  induction a as [|x a IH]; intros b c Hab Hbc.
  - destruct c; discriminate.
  - destruct b as [|y b]; [now destruct Hab|].
    destruct c as [|z c]; [now destruct Hbc|].
    cbn [String.compare] in *. unfold Ascii.compare in *.
    destruct (N.compare_spec (N_of_ascii x) (N_of_ascii y)) as [Exy|Lxy|Gxy];
      [| |now destruct Hab];
      destruct (N.compare_spec (N_of_ascii y) (N_of_ascii z))
        as [Eyz|Lyz|Gyz]; try (now destruct Hbc);
      destruct (N.compare_spec (N_of_ascii x) (N_of_ascii z))
        as [Exz|Lxz|Gxz]; try discriminate; try lia.
    now apply (IH b c).
Qed.

Lemma text_ltb_false_iff a b :
  text_ltb a b = false <-> String.compare b a <> Gt.
Proof.
  unfold text_ltb, String.ltb. rewrite (String.compare_antisym b a).
  destruct (String.compare a b); cbn; split; congruence.
Qed.

Lemma text_ltb_irrefl s : text_ltb s s = false.
Proof.
  apply text_ltb_false_iff. pose proof (String.compare_antisym s s) as H.
  destruct (String.compare s s); cbn in H; congruence.
Qed.

Lemma text_max_upper a b :
  text_ltb (text_max a b) a = false /\ text_ltb (text_max a b) b = false.
Proof.
  unfold text_max. destruct (text_ltb a b) eqn:E.
  - split; apply text_ltb_false_iff.
    + unfold text_ltb, String.ltb in E.
      destruct (String.compare a b); congruence.
    + pose proof (String.compare_antisym b b) as H.
      destruct (String.compare b b); cbn in H; congruence.
  - split; [|exact E]. apply text_ltb_false_iff.
    pose proof (String.compare_antisym a a) as H.
    destruct (String.compare a a); cbn in H; congruence.
Qed.

Lemma order_by_desc_limit_1_greatest (l : list string) : forall acc,
  match fold_left (fun acc s => match acc with
                                | None => Some s
                                | Some m => Some (text_max m s)
                                end) l acc with
  | None => l = [] /\ acc = None
  | Some m =>
      (In m l \/ acc = Some m)
      /\ (forall s, In s l \/ acc = Some s -> text_ltb m s = false)
  end.
Proof.
  induction l as [|x l IH]; intros acc.
  - cbn. destruct acc as [m|]; [|now split].
    split; [now right|]. intros s [Hs|Hs]; [destruct Hs|].
    injection Hs as ->. apply text_ltb_irrefl.
  - cbn [fold_left].
    specialize (IH (match acc with
                    | Some m => Some (text_max m x)
                    | None => Some x
                    end)).
    destruct (fold_left _ l _) as [m|]; [|destruct IH as [_ H]; now destruct acc].
    destruct IH as [Hin Hmax]. split.
    + destruct Hin as [Hin|Hacc]; [left; now right|].
      destruct acc as [a|]; injection Hacc as <-; [|left; now left].
      unfold text_max. destruct (text_ltb a x); [left; now left | now right].
    + intros s Hs.
      assert (Hstep : exists t, (match acc with
                                 | Some m => Some (text_max m x)
                                 | None => Some x
                                 end) = Some t
                                /\ (In s l \/ text_ltb t s = false)).
      { destruct Hs as [[<- | Hs] | ->].
        - destruct acc as [a|]; eexists; (split; [reflexivity|]); right.
          + apply text_max_upper.
          + apply text_ltb_irrefl.
        - destruct acc as [a|]; eexists; (split; [reflexivity|]); now left.
        - eexists. split; [reflexivity|]. right. apply text_max_upper. }
      destruct Hstep as (t & Ht & [Hs'|Hts]); [apply Hmax; now left|].
      pose proof (Hmax t (or_intror Ht)) as Hmt.
      apply text_ltb_false_iff. apply text_ltb_false_iff in Hmt, Hts.
      now apply (compare_not_Gt_trans s t m).
Qed.

(** X6: what the scan takes for the last invoice of the day.  Among the
    rows created on the current date whose invoice number starts with the
    prefix of that date, the scan returns an invoice number that no other
    of them comes after in the order of texts, and NULL only if there is
    no such row.  It is the order of texts, not of the numbers written in
    them, that decides. *)
Theorem scan_returns_greatest_text
  (current_date : date) (rows : list transaction_row) :
  match select_last_invoice current_date (to_char_DDMMYYYY current_date)
          rows with
  | None => forall r, In r rows -> selected current_date r = false
  | Some last_invoice =>
      (exists r, In r rows /\ selected current_date r = true
                 /\ t_invoice_number r = last_invoice)
      /\ (forall r, In r rows -> selected current_date r = true ->
            text_ltb last_invoice (t_invoice_number r) = false)
  end.
Proof.
  unfold select_last_invoice, order_by_desc_limit_1.
  change (List.filter _ rows) with (List.filter (selected current_date) rows).
  pose proof (order_by_desc_limit_1_greatest
                (map t_invoice_number
                   (List.filter (selected current_date) rows)) None) as H.
  destruct (fold_left _ _ None) as [m|].
  - destruct H as [[Hin|Hacc] Hmax]; [|discriminate]. split.
    + destruct (proj1 (in_map_iff _ _ _) Hin) as (r & Hr & Hfilter).
      destruct (proj1 (filter_In _ _ _) Hfilter) as [Hrows Hsel].
      now exists r.
    + intros r Hrows Hsel. apply Hmax. left. apply in_map_iff. exists r.
      split; [reflexivity|]. apply filter_In. now split.
  - destruct H as [Hnil _]. intros r Hrows.
    destruct (selected current_date r) eqn:Hsel; [|reflexivity].
    assert (Hr : In (t_invoice_number r)
                   (map t_invoice_number
                      (List.filter (selected current_date) rows))).
    { apply in_map_iff. exists r. split; [reflexivity|].
      apply filter_In. now split. }
    rewrite Hnil in Hr. now destruct Hr.
Qed.

End Scan.

(** ** The price list *)

Section PriceList.

Import Information.

#[local] Instance by_id_total : Total Information.by_id.
Proof. intros a b. unfold Information.by_id. lia. Qed.

#[local] Instance by_id_transitive : Transitive Information.by_id.
Proof. intros a b c. unfold Information.by_id. lia. Qed.

(** X13: the price list.  [GET /services] answers 200 with [Sukses] and
    one entry for every row of [services], none left out and none twice,
    in the order of their keys, each with the code, name, icon and tariff
    of its row. *)
Theorem services_listed_in_key_order (d : db) :
  exists rows,
    rows ≡ₚ services d
    /\ StronglySorted Information.by_id rows
    /\ Information.getServices d
       = Information.ServicesResponse 200 0 "Sukses"
           (map (fun s => Information.ServiceDTO (s_code s) (s_name s)
                            (s_icon_url s) (s_tariff s)) rows)
    /\ length (Information.data (Information.getServices d))
       = length (services d).
Proof.
  exists (merge_sort Information.by_id (services d)).
  split; [apply merge_sort_Permutation|].
  split; [apply (StronglySorted_merge_sort Information.by_id)|].
  unfold Information.getServices, Information.getAllServices.
  rewrite map_map. split; [reflexivity|].
  cbn [Information.data]. rewrite length_map.
  now rewrite (merge_sort_Permutation Information.by_id (services d)).
Qed.

End PriceList.

Lemma scan_returns_greatest_text_witness :
  select_last_invoice a_day (to_char_DDMMYYYY a_day) [a_row_999; a_row_1000]
  = Some "INV17082023-999"
  /\ text_ltb "INV17082023-999" (t_invoice_number a_row_1000) = false.
Proof.
  assert (E : select_last_invoice a_day (to_char_DDMMYYYY a_day)
                [a_row_999; a_row_1000] = Some "INV17082023-999")
    by (vm_compute; reflexivity).
  split; [exact E|].
  pose proof (scan_returns_greatest_text a_day [a_row_999; a_row_1000]) as H.
  rewrite E in H. destruct H as [_ Hmax].
  apply Hmax; [right; now left | vm_compute; reflexivity].
Defined.

Lemma bearer_token_extracted_witness :
  Auth.extractTokenFromHeader (Some "Bearer abc.def.ghi") = Some "abc.def.ghi"
  /\ Auth.extractTokenFromHeader (Some "bearer abc.def.ghi") = None.
Proof.
  destruct (bearer_token_extracted (Some "Bearer abc.def.ghi") "abc.def.ghi")
    as [[_ Hfound] _].
  destruct (bearer_token_extracted (Some "bearer abc.def.ghi") "abc.def.ghi")
    as (_ & _ & Hother).
  split.
  - apply Hfound. split; reflexivity.
  - apply (Hother "bearer"); [discriminate | reflexivity].
Defined.

(** ** Login *)

Section LoginAnswers.

Import Service.

Variable toLowerCase : string -> string.
Variable bcrypt_compare : string -> string -> bool.
Variable generateToken : Login.token_payload -> result js_error string.

Local Abbreviation login :=
  (Login.login toLowerCase bcrypt_compare generateToken).

(** X20: [login] gives nothing away.  A request without e-mail or
    password, one for an address that is not stored, and one with a
    password that [bcrypt.compare] does not accept for the stored hash
    are all answered alike: 401 with status 103 and
    [Username atau password salah], without a token.  A token is sent
    only for a stored address with an accepted password, and it is the
    one [generateToken] made for the key, address and names of that user.
    The database is never written. *)
Theorem login_answers (d : db) (email password : option string) :
  let rejected :=
    (Login.LoginResponse 401 103 "Username atau password salah" None, d) in
  snd (login d email password) = d
  /\ (Membership.falsy email || Membership.falsy password = true ->
      login d email password = rejected)
  /\ (Login.select_user d (toLowerCase (Membership.string_of email)) = None ->
      login d email password = rejected)
  /\ (forall user,
        Login.select_user d (toLowerCase (Membership.string_of email))
        = Some user ->
        bcrypt_compare (Membership.string_of password) (u_password_hash user)
        = false ->
        login d email password = rejected)
  /\ (forall token,
        Login.token (fst (login d email password)) = Some token ->
        exists user,
          Membership.falsy email || Membership.falsy password = false
          /\ Login.select_user d (toLowerCase (Membership.string_of email))
             = Some user
          /\ bcrypt_compare (Membership.string_of password)
               (u_password_hash user) = true
          /\ generateToken
               (Login.TokenPayload (u_id user) (u_email user)
                  (u_first_name user) (u_last_name user)) = Ok token
          /\ fst (login d email password)
             = Login.LoginResponse 200 0 "Login Sukses" (Some token)).
Proof.
  unfold Login.login, Http.transaction, Login.authenticateUser.
  destruct (Membership.falsy email || Membership.falsy password) eqn:Ef.
  { cbn -[rollback]. rewrite rollback_same.
    repeat split; try reflexivity; discriminate. }
  destruct (Login.select_user d (toLowerCase (Membership.string_of email)))
    as [user|] eqn:Eu.
  2:{ cbn -[rollback]. rewrite rollback_same.
      repeat split; try reflexivity; discriminate. }
  destruct (bcrypt_compare (Membership.string_of password)
              (u_password_hash user)) eqn:Ec.
  2:{ cbn -[rollback]. rewrite rollback_same.
      repeat split; try reflexivity; try discriminate. }
  cbn [Login.user_id Login.user_email Login.user_first_name
       Login.user_lastName].
  destruct (generateToken _) as [token|tokenErr] eqn:Et; cbn [snd fst].
  - split; [reflexivity|]. split; [discriminate|]. split; [discriminate|].
    split.
    + intros u [= <-]. congruence.
    + cbn [Login.token]. intros t [= <-]. exists user. now repeat split.
  - split; [reflexivity|]. split; [discriminate|]. split; [discriminate|].
    split.
    + intros u [= <-]. congruence.
    + cbn [Login.token]. discriminate.
Qed.

End LoginAnswers.

Lemma login_answers_witness :
  Login.login (fun s => s) (fun password hash => String.eqb hash "hash")
    (fun payload => Ok "abc.def.ghi") a_db (Some "nobody@nutech.com")
    (Some "Passw0rd!")
  = (Login.LoginResponse 401 103 "Username atau password salah" None, a_db)
  /\ Login.login (fun s => s) (fun password hash => String.eqb password "hash")
       (fun payload => Ok "abc.def.ghi") a_db (Some "user@nutech.com")
       (Some "Passw0rd!")
     = (Login.LoginResponse 401 103 "Username atau password salah" None, a_db).
Proof.
  split.
  - apply (login_answers (fun s => s)
             (fun password hash => String.eqb hash "hash")
             (fun payload => Ok "abc.def.ghi") a_db (Some "nobody@nutech.com")
             (Some "Passw0rd!")).
    reflexivity.
  - destruct (login_answers (fun s => s)
                (fun password hash => String.eqb password "hash")
                (fun payload => Ok "abc.def.ghi") a_db (Some "user@nutech.com")
                (Some "Passw0rd!")) as (_ & _ & _ & H & _).
    apply (H (UserRow 1 "user@nutech.com" "hash" "User" "Nutech"
                "default.jpg")); reflexivity.
Defined.
